(** * zeynbot5: the shop, profile and login handlers of the web API

    A shallow embedding of [src/functions/api.js] (the express handlers),
    of the mongoose schema at the head of [src/inventory.js], and of the
    browser script that follows it in the same file (the shop view and the
    purchase flow, the buy section of an item, the position on the profile
    and the rows of the leaderboards).

    Conventions of the embedding.
    - JavaScript numbers stored by the application (stars, prices, stock,
      quantities, counters, millisecond clocks) are whole numbers and are
      modelled as [Z]; on whole numbers below 2^53 the double arithmetic of
      the handlers ([+], [-], [*], comparisons) is exact.  The one place
      where the source leaves the integers is the discount factor inside
      [Math.round]; it is modelled with exact rationals [Q].
    - Documents are records, collections are lists in storage order, and a
      query returns the first document that matches.
    - [await]ed calls that can reject are modelled with an explicit fault
      oracle; external services are functions of the [World] record.
    - Handlers are state-passing functions: they take the state of the
      process and return the HTTP response together with the new state.
    - The purchase handler is given twice: [buy] on a body whose quantity
      is a number, and [buy_untyped] on the body as JSON delivers it, where
      the quantity may also be a string of digits.  The two agree on
      numbers ([buy_untyped_Number]).  Statements about exact amounts say
      for which numbers they hold ([exact], [purchase_amounts]). *)

From Stdlib Require Import ZArith QArith Qround Lqa String Ascii DecimalString List Bool Lia.
From Stdlib Require Import PrimFloat.
From stdpp Require Import gmap strings list fin_maps sorting.

Local Open Scope string_scope.
Local Open Scope Z_scope.

(** ** JavaScript primitives used by the handlers *)

(** [Math.round]: the nearest integer, a half going toward +infinity. *)
Definition Math_round (x : Q) : Z := Qfloor (x + (1 # 2))%Q.

(** [Math.floor (a / b)] on whole numbers with [b > 0]. *)
Definition Math_floor_div (a b : Z) : Z := a / b.

(** [Array.prototype.includes] and [Collection.has] on role identifiers. *)
Definition includes (l : list string) (x : string) : bool :=
  existsb (String.eqb x) l.

(** [Array.prototype.findIndex]; [None] stands for the result [-1]. *)
Fixpoint findIndex {A : Type} (p : A → bool) (l : list A) : option nat :=
  match l with
  | [] => None
  | x :: l' => if p x then Some 0%nat else S <$> findIndex p l'
  end.

(** [Model.findOne]: the first document of the collection matching the
    filter. *)
Definition findOne {A : Type} (p : A → bool) (coll : list A) : option A :=
  List.find p coll.

(** [Model.countDocuments]. *)
Definition countDocuments {A : Type} (p : A → bool) (coll : list A) : Z :=
  Z.of_nat (length (List.filter p coll)).

(** ** Discounts *)

Definition DISCOUNT_ROLE : string := "1260383669839724634".

Module Discount.

(** POST /buy, lines 427-439.  [today] is [new Date().getDay()]
    (0 is Sunday, 6 is Saturday); [roles] is [member.roles.cache]. *)
Definition isDiscountDay (today : Z) : bool := (today =? 0) || (today =? 6).

Definition hasPermanentDiscountRole (roles : list string) : bool :=
  includes roles DISCOUNT_ROLE.

Definition discountPercentage (today : Z) (roles : list string) : Z :=
  let discountPercentage := if isDiscountDay today then 5 else 0 in
  if hasPermanentDiscountRole roles
  then discountPercentage + 20
  else discountPercentage.

Definition discountedPrice (price today : Z) (roles : list string) : Z :=
  Math_round
    (inject_Z price * (1 - inject_Z (discountPercentage today roles) / 100))%Q.

End Discount.

Module ShopView.

(** displayShopData in the browser script: the price shown for an item.
    [getDay] is [today.getDay()], [roles] is [profileData.roles]. *)
Definition isWeekend (getDay : Z) : bool := (getDay =? 6) || (getDay =? 0).

Definition hasDiscountRole (roles : list string) : bool :=
  includes roles DISCOUNT_ROLE.

Definition discountedPrice (originalPrice getDay : Z) (roles : list string) : Z :=
  let discountedPrice := originalPrice in
  let discountedPrice :=
    if hasDiscountRole roles
    then Math_round (inject_Z originalPrice * (1 - 20 / 100))%Q
    else discountedPrice in
  let discountedPrice :=
    if isWeekend getDay
    then Math_round (inject_Z discountedPrice * (1 - (5 # 100)))%Q
    else discountedPrice in
  discountedPrice.

End ShopView.

(** ** Documents *)

(** A progress record of [CommandStats.achievements]. *)
Module Achievement.
Record t := mk { name : string; completed : bool }.
End Achievement.

(** The per-user statistics document.  Its schema file is not among the
    sources; the fields are the ones the handlers read and write. *)
Module CommandStats.
Record t := mk {
  _id : string;
  userId : string;
  serverId : string;
  uuid : string;
  username : string;
  userAvatar : string;
  totalMessages : Z;
  messagesToday : Z;
  messagesLast7Days : Z;
  messagesLast30Days : Z;
  voiceTime : Z;
  stars : Z;
  achievements : list Achievement.t;
  roleAcquisitionDates : gmap string Z
}.

Definition set_stars (v : Z) (u : t) : t :=
  mk (_id u) (userId u) (serverId u) (uuid u) (username u) (userAvatar u)
     (totalMessages u) (messagesToday u) (messagesLast7Days u)
     (messagesLast30Days u) (voiceTime u) v (achievements u)
     (roleAcquisitionDates u).

Definition set_username (v : string) (u : t) : t :=
  mk (_id u) (userId u) (serverId u) (uuid u) v (userAvatar u)
     (totalMessages u) (messagesToday u) (messagesLast7Days u)
     (messagesLast30Days u) (voiceTime u) (stars u) (achievements u)
     (roleAcquisitionDates u).

Definition set_userAvatar (v : string) (u : t) : t :=
  mk (_id u) (userId u) (serverId u) (uuid u) (username u) v
     (totalMessages u) (messagesToday u) (messagesLast7Days u)
     (messagesLast30Days u) (voiceTime u) (stars u) (achievements u)
     (roleAcquisitionDates u).

Definition set_userId (v : string) (u : t) : t :=
  mk (_id u) v (serverId u) (uuid u) (username u) (userAvatar u)
     (totalMessages u) (messagesToday u) (messagesLast7Days u)
     (messagesLast30Days u) (voiceTime u) (stars u) (achievements u)
     (roleAcquisitionDates u).

Definition set_serverId (v : string) (u : t) : t :=
  mk (_id u) (userId u) v (uuid u) (username u) (userAvatar u)
     (totalMessages u) (messagesToday u) (messagesLast7Days u)
     (messagesLast30Days u) (voiceTime u) (stars u) (achievements u)
     (roleAcquisitionDates u).

Definition set_roleAcquisitionDates (v : gmap string Z) (u : t) : t :=
  mk (_id u) (userId u) (serverId u) (uuid u) (username u) (userAvatar u)
     (totalMessages u) (messagesToday u) (messagesLast7Days u)
     (messagesLast30Days u) (voiceTime u) (stars u) (achievements u) v.
End CommandStats.

(** A shop item; [stock = -1] means unlimited. *)
Module Item.
Record t := mk { _id : string; name : string; price : Z; stock : Z }.

Definition set_stock (v : Z) (i : t) : t := mk (_id i) (name i) (price i) v.
End Item.

(** [inventorySchema], src/inventory.js lines 3-12. *)
Module Inventory.
Record line := mkLine { itemId : string; itemName : string; quantity : Z }.

Record t := mk {
  _id : string;
  userId : string;
  guildId : option string;
  items : list line
}.

Definition add_quantity (q : Z) (l : line) : line :=
  mkLine (itemId l) (itemName l) (quantity l + q).

Definition set_items (v : list line) (i : t) : t :=
  mk (_id i) (userId i) (guildId i) v.

(** [required: true] on a String path: the value is present and is not
    the empty string. *)
Definition required (s : option string) : bool :=
  match s with
  | Some v => negb (String.eqb v "")
  | None => false
  end.

(** The validation mongoose runs before a save. *)
Definition validate (i : t) : bool :=
  required (Some (userId i)) && required (guildId i) &&
  forallb (fun l => required (Some (itemId l)) && required (Some (itemName l)))
          (items i).
End Inventory.

(** The three collections the handlers touch. *)
Record Db := mkDb {
  users : list CommandStats.t;
  items : list Item.t;
  inventories : list Inventory.t
}.

(** ** The outside world *)

(** Awaited database calls of the handlers; each can reject. *)
Inductive Op :=
| FindUser | FindItem | FindInventory | FindItems
| SaveUser | SaveItem | SaveInventory
| CountDocuments | UpdateUser | Commit.

Record World := mkWorld {
  (** [Date.now()], milliseconds *)
  now : Z;
  (** [new Date().getDay()] *)
  getDay : Z;
  (** the REST endpoint /guilds/GUILD_ID/members/userId: the [roles] of the
      member, or [None] when the response is not ok or the call rejects *)
  discordMember : string → option (list string);
  (** [client.guilds.fetch (GUILD_ID)] followed by
      [guild.members.fetch (userId)]: the keys of [member.roles.cache], or
      [None] when one of the two calls rejects *)
  guildMember : string → option (list string);
  (** which database calls reject *)
  fault : Op → bool;
  (** the [_id] given to a document created by [new Model (...)] *)
  newObjectId : string;
  (** [new CommandStats ({})]: the defaults of the schema that is not among
      the sources *)
  newCommandStats : CommandStats.t
}.

(** ** Responses *)

Module AchievementDefinition.
Record t := mk { name : string; description : string; target : option Z }.
End AchievementDefinition.

(** An entry of [userAchievements]: the definition spread, then [progress]
    and [completed]. *)
Module UserAchievement.
Record t := mk {
  name : string;
  description : string;
  target : option Z;
  progress : Z;
  completed : bool
}.
End UserAchievement.

(** [profileData]: the statistics document spread, then the computed
    fields.  In the JSON the [achievements] key of the document is
    replaced by the computed list. *)
Module ProfileData.
Record t := mk {
  userStats : CommandStats.t;
  userRankAllTime : Z;
  userRankToday : Z;
  userRankLast7Days : Z;
  userRankLast30Days : Z;
  roles : list string;
  achievements : list UserAchievement.t
}.
End ProfileData.

(** JSON bodies.  [BoughtBody q n t] is the message that reports the
    purchase of [q] times item [n] for [t] stars. *)
Inductive Body :=
| ProfileBody (p : ProfileData.t)
| AchievementsBody (l : list UserAchievement.t)
| ShopBody (l : list Item.t)
| BoughtBody (quantity : Z) (itemName : string) (total : Z).

Inductive Response :=
| Json (body : Body)
| Error (status : Z) (error : string).

(** [response.ok] in the browser. *)
Definition ok (r : Response) : bool :=
  match r with Json _ => true | Error _ _ => false end.

(** ** Computations that can throw *)

Inductive Completion (A : Type) :=
| Normal (a : A)
| Throw.
Arguments Normal {A} a.
Arguments Throw {A}.

Definition Action (S A : Type) : Type := S → Completion A * S.

Definition ret {S A : Type} (a : A) : Action S A := fun s => (Normal a, s).

Definition throw {S A : Type} : Action S A := fun s => (Throw, s).

Definition bind {S A B : Type} (m : Action S A) (k : A → Action S B) : Action S B :=
  fun s =>
    match m s with
    | (Normal a, s') => k a s'
    | (Throw, s') => (Throw, s')
    end.

(** The monad notations [x ← m; k] and [m;; k] of stdpp, for actions. *)
#[global] Instance action_ret (S : Type) : MRet (Action S) := fun A => @ret S A.
#[global] Instance action_bind (S : Type) : MBind (Action S) :=
  fun A B k m => @bind S A B m k.

Definition gets {S A : Type} (f : S → A) : Action S A := fun s => (Normal (f s), s).

Definition modify {S : Type} (f : S → S) : Action S unit := fun s => (Normal tt, f s).

(** An awaited database call: rejects when the oracle says so. *)
Definition await {S : Type} (w : World) (op : Op) : Action S unit :=
  fun s => if fault w op then (Throw, s) else (Normal tt, s).


(** ** Transactions *)

(** A session holds the committed database and, while a transaction is in
    progress, the snapshot its reads and writes go to. *)
Record Session := mkSession { committed : Db; transaction : option Db }.

Definition startTransaction (db : Db) : Session := mkSession db (Some db).

Definition abortTransaction : Action Session unit :=
  modify (fun s => mkSession (committed s) None).

(** Access to the snapshot of the transaction in progress; without one the
    driver rejects. *)
Definition in_transaction {A : Type} (f : Db → Session → A * Session) : Action Session A :=
  fun s =>
    match transaction s with
    | Some d => let '(a, s') := f d s in (Normal a, s')
    | None => (Throw, s)
    end.

Definition commitTransaction (w : World) : Action Session unit :=
  await w Commit;;
  in_transaction (fun d _ => (tt, mkSession d None)).

Definition endSession (s : Session) : Db := committed s.

(** A read and a write bound to the session with [.session (session)] or
    [{ session }]. *)
Definition read {A : Type} (w : World) (op : Op) (f : Db → A) : Action Session A :=
  await w op;;
  in_transaction (fun d s => (f d, s)).

Definition write (w : World) (op : Op) (f : Db → Db) : Action Session unit :=
  await w op;;
  in_transaction (fun d s => (tt, mkSession (committed s) (Some (f d)))).

(** [doc.save ()] of a loaded document: the stored document with the same
    [_id] is replaced. *)
Fixpoint updateById {A : Type} (id : A → string) (d : A) (coll : list A) : list A :=
  match coll with
  | [] => []
  | x :: coll' =>
      if String.eqb (id x) (id d) then d :: coll'
      else x :: updateById id d coll'
  end.

Definition save_user (w : World) (user : CommandStats.t) : Action Session unit :=
  write w SaveUser
    (fun d => mkDb (updateById CommandStats._id user (users d)) (items d) (inventories d)).

Definition save_item (w : World) (item : Item.t) : Action Session unit :=
  write w SaveItem
    (fun d => mkDb (users d) (updateById Item._id item (items d)) (inventories d)).

(** [inventory.save ()]: validation first; a new document is inserted. *)
Definition save_inventory (w : World) (isNew : bool) (inventory : Inventory.t)
  : Action Session unit :=
  if Inventory.validate inventory then
    write w SaveInventory
      (fun d =>
         mkDb (users d) (items d)
              (if isNew then inventories d ++ [inventory]
               else updateById Inventory._id inventory (inventories d)))
  else throw.

(** ** POST /buy *)

Module BuyRequest.
(** [req.body]; [userId = None] is a body without that key. *)
Record t := mk {
  uuid : string;
  userId : option string;
  itemName : string;
  quantity : Z
}.
End BuyRequest.

Definition GUILD_ID : string := "1043562997966188645".

(** The filter [{ uuid, userId }]. *)
Definition user_filter (uuid : string) (userId : option string) (u : CommandStats.t) : bool :=
  String.eqb (CommandStats.uuid u) uuid &&
  match userId with
  | Some userId => String.eqb (CommandStats.userId u) userId
  | None => false
  end.

(** The filters [{ name: itemName }] and [{ userId }]. *)
Definition item_filter (itemName : string) (i : Item.t) : bool :=
  String.eqb (Item.name i) itemName.

Definition inventory_filter (userId : string) (i : Inventory.t) : bool :=
  String.eqb (Inventory.userId i) userId.

Definition fetch_member {S : Type} (w : World) (userId : string) : Action S (list string) :=
  fun s =>
    match guildMember w userId with
    | Some roles => (Normal roles, s)
    | None => (Throw, s)
    end.

(** [inventory.items] after the upsert of lines 460-465. *)
Definition upsert_line (item : Item.t) (quantity : Z) (lines : list Inventory.line)
  : list Inventory.line :=
  let existingItemIndex :=
    findIndex (fun i => String.eqb (Inventory.itemId i) (Item._id item)) lines in
  match existingItemIndex with
  | Some existingItemIndex =>
      alter (Inventory.add_quantity quantity) existingItemIndex lines
  | None =>
      lines ++ [Inventory.mkLine (Item._id item) (Item.name item) quantity]
  end.

(** The [try] block of the handler.  A user is found only for a body that
    carries a [userId], so the two are taken apart together. *)
Definition buy_try (w : World) (req : BuyRequest.t) : Action Session Response :=
  let quantity := BuyRequest.quantity req in
  user ← read w FindUser
    (fun d => findOne (user_filter (BuyRequest.uuid req) (BuyRequest.userId req)) (users d));
  match user, BuyRequest.userId req with
  | Some user, Some userId =>
    item ← read w FindItem
      (fun d => findOne (item_filter (BuyRequest.itemName req)) (items d));
    match item with
    | None =>
      abortTransaction;;
      mret (Error 404 "Товар не найден")
    | Some item =>
      if negb (Item.stock item =? -1) && (Item.stock item <? quantity) then
        abortTransaction;;
        mret (Error 400 "Недостаточно товара в наличии")
      else
        let today := getDay w in
        roles ← fetch_member w userId;
        let discountedPrice := Discount.discountedPrice (Item.price item) today roles in
        if CommandStats.stars user <? discountedPrice * quantity then
          abortTransaction;;
          mret (Error 400 "Недостаточно звезд")
        else
          let user :=
            CommandStats.set_stars (CommandStats.stars user - discountedPrice * quantity) user in
          save_user w user;;
          item ← (if negb (Item.stock item =? -1) then
                    let item := Item.set_stock (Item.stock item - quantity) item in
                    save_item w item;;
                    mret item
                  else mret item);
          inventory ← read w FindInventory
            (fun d => findOne (inventory_filter userId) (inventories d));
          let '(inventory, isNew) :=
            match inventory with
            | Some inventory => (inventory, false)
            | None => (Inventory.mk (newObjectId w) userId None [], true)
            end in
          let inventory :=
            Inventory.set_items (upsert_line item quantity (Inventory.items inventory)) inventory in
          save_inventory w isNew inventory;;
          commitTransaction w;;
          mret (Json (BoughtBody quantity (Item.name item) (discountedPrice * quantity)))
    end
  | _, _ =>
    abortTransaction;;
    mret (Error 404 "Пользователь не найден. Если вы изменили userId в хранилище, то верните его пожалуйста :)))))")
  end.

(** The handler on the database: [try], [catch] and [finally]. *)
Definition buy (w : World) (req : BuyRequest.t) (db : Db) : Response * Db :=
  let session := startTransaction db in
  match buy_try w req session with
  | (Normal response, session) => (response, endSession session)
  | (Throw, session) =>
      match abortTransaction session with
      | (_, session) => (Error 500 "Ошибка при покупке товара", endSession session)
      end
  end.

(** ** The server process *)

(** The node-cache store: a value with the clock reading at which it
    expires ([0]: never). *)
Abbreviation NodeCache := (gmap string (Body * Z)).

Definition cache_get (now : Z) (key : string) (c : NodeCache) : option Body :=
  match c !! key with
  | Some (v, t) => if negb (t =? 0) && (t <? now) then None else Some v
  | None => None
  end.

Definition cache_set (now : Z) (key : string) (v : Body) (ttl : Z) (c : NodeCache) : NodeCache :=
  <[key := (v, if ttl =? 0 then 0 else now + ttl * 1000)]> c.

Record Server := mkServer {
  db : Db;
  cache : NodeCache;
  userGuildMemberCache : gmap string (list string)
}.

Definition allowedRoleIds : list string :=
  ["1043565185509630022"; "1243243180800082001"; "1075072592005824563";
   "1043614651444899991"; "1043615386660257872"].

(** A database call outside a transaction. *)
Definition query {A : Type} (w : World) (op : Op) (f : Db → A) : Action Server A :=
  await w op;;
  gets (fun s => f (db s)).

Definition cache_lookup (w : World) (key : string) : Action Server (option Body) :=
  gets (fun s => cache_get (now w) key (cache s)).

Definition cache_store (w : World) (key : string) (v : Body) (ttl : Z) : Action Server unit :=
  modify (fun s =>
    mkServer (db s) (cache_set (now w) key v ttl (cache s)) (userGuildMemberCache s)).

(** [fetchUserGuildMember]: the member's roles, from the cache of the
    process or from the REST endpoint; [None] is the [null] of the
    [catch]. *)
Definition fetchUserGuildMember (w : World) (userId : string)
  : Action Server (option (list string)) :=
  fun s =>
    match userGuildMemberCache s !! userId with
    | Some data => (Normal (Some data), s)
    | None =>
        match discordMember w userId with
        | Some data =>
            (Normal (Some data),
             mkServer (db s) (cache s) (<[userId := data]> (userGuildMemberCache s)))
        | None => (Normal None, s)
        end
    end.

(** *** Ranks *)

(** The filter [{ field: { $gt: value } }]. *)
Definition gt (field : CommandStats.t → Z) (value : Z) (u : CommandStats.t) : bool :=
  value <? field u.

(** [countDocuments ({ field: { $gt: userStats.field } }) + 1]. *)
Definition rank (field : CommandStats.t → Z) (userStats : CommandStats.t)
    (coll : list CommandStats.t) : Z :=
  countDocuments (gt field (field userStats)) coll + 1.

(** *** Achievements *)

Definition achievements : list AchievementDefinition.t :=
  [ AchievementDefinition.mk "message_master" "Написать 500 сообщений за 24 часа" (Some 500);
    AchievementDefinition.mk "voice_champion" "Попасть в топ 1 за 24 часа по голосовому времени" None;
    AchievementDefinition.mk "lovebird" "Создать брак через бота" None;
    AchievementDefinition.mk "voice_time_10s" "Просидеть 1 час в голосовом канале подряд" (Some 3600) ].

(** The body of the [achievements.map] callback. *)
Definition userAchievement (userStats : CommandStats.t)
    (achievement : AchievementDefinition.t) : UserAchievement.t :=
  let some_completed :=
    existsb (fun a => String.eqb (Achievement.name a) (AchievementDefinition.name achievement)
                      && Achievement.completed a)
            (CommandStats.achievements userStats) in
  let '(progress, completed) :=
    if String.eqb (AchievementDefinition.name achievement) "message_master" then
      (CommandStats.messagesToday userStats, some_completed)
    else if String.eqb (AchievementDefinition.name achievement) "voice_time_10s" then
      (Math_floor_div (CommandStats.voiceTime userStats) 1000, some_completed)
    else
      (0, some_completed) in
  UserAchievement.mk (AchievementDefinition.name achievement)
                     (AchievementDefinition.description achievement)
                     (AchievementDefinition.target achievement)
                     progress completed.

Definition userAchievements (userStats : CommandStats.t) : list UserAchievement.t :=
  map (userAchievement userStats) achievements.

(** *** GET /profile/:uuid *)

(** [try] and [catch] of a handler that answers 500 with [message]. *)
Definition handler {S : Type} (message : string) (body : Action S Response)
  : S → Response * S :=
  fun s =>
    match body s with
    | (Normal response, s') => (response, s')
    | (Throw, s') => (Error 500 message, s')
    end.

(** The unused [userRoles] of line 258 is left out. *)
Definition profile_try (w : World) (uuid : string) : Action Server Response :=
  let cacheKey := "profile_" ++ uuid in
  cachedProfile ← cache_lookup w cacheKey;
  match cachedProfile with
  | Some cachedProfile => mret (Json cachedProfile)
  | None =>
    userStats ← query w FindUser
      (fun d => findOne (fun u => String.eqb (CommandStats.uuid u) uuid) (users d));
    match userStats with
    | None => mret (Error 404 "Пользователь не найден")
    | Some userStats =>
      let userId := CommandStats.userId userStats in
      userGuildMember ← fetchUserGuildMember w userId;
      match userGuildMember with
      | None => throw
      | Some userRolesIds =>
        userRankAllTime ← query w CountDocuments
          (fun d => rank CommandStats.totalMessages userStats (users d));
        userRankToday ← query w CountDocuments
          (fun d => rank CommandStats.messagesToday userStats (users d));
        userRankLast7Days ← query w CountDocuments
          (fun d => rank CommandStats.messagesLast7Days userStats (users d));
        userRankLast30Days ← query w CountDocuments
          (fun d => rank CommandStats.messagesLast30Days userStats (users d));
        let profileData :=
          ProfileBody
            (ProfileData.mk userStats userRankAllTime userRankToday userRankLast7Days
                            userRankLast30Days userRolesIds (userAchievements userStats)) in
        cache_store w cacheKey profileData 300;;
        mret (Json profileData)
      end
    end
  end.

Definition get_profile (w : World) (uuid : string) : Server → Response * Server :=
  handler "Ошибка сервера" (profile_try w uuid).

(** *** GET /achievements/:uuid *)

Definition achievements_try (w : World) (uuid : string) : Action Server Response :=
  let cacheKey := "achievements_" ++ uuid in
  cachedAchievements ← cache_lookup w cacheKey;
  match cachedAchievements with
  | Some cachedAchievements => mret (Json cachedAchievements)
  | None =>
    userStats ← query w FindUser
      (fun d => findOne (fun u => String.eqb (CommandStats.uuid u) uuid) (users d));
    match userStats with
    | None => mret (Error 404 "Пользователь не найден")
    | Some userStats =>
      let userAchievements := AchievementsBody (userAchievements userStats) in
      cache_store w cacheKey userAchievements 300;;
      mret (Json userAchievements)
    end
  end.

Definition get_achievements (w : World) (uuid : string) : Server → Response * Server :=
  handler "Ошибка сервера" (achievements_try w uuid).

(** *** GET /shop *)

Definition get_shop (w : World) : Server → Response * Server :=
  handler "Ошибка при получении данных магазина"
    (items ← query w FindItems items;
     mret (Json (ShopBody items))).

(** *** POST /buy on the process: the handler works on the database
    alone. *)
Definition post_buy (w : World) (req : BuyRequest.t) (s : Server) : Response * Server :=
  let '(response, db') := buy w req (db s) in
  (response, mkServer db' (cache s) (userGuildMemberCache s)).

(** ** The login callback of the Discord strategy *)

Module DiscordProfile.
Record t := mk { id : string; username : string; avatar : string }.
End DiscordProfile.

(** The loop of lines 162-169 over [allowedRoleIds], from
    [roleAcquisitionDates = {}]. *)
Definition collect_roleAcquisitionDates (now : Z) (userRolesIds : list string)
  : gmap string Z :=
  foldl (fun roleAcquisitionDates allowedRoleId =>
           if includes userRolesIds allowedRoleId
           then <[allowedRoleId := now]> roleAcquisitionDates
           else roleAcquisitionDates)
        ∅ allowedRoleIds.

(** [Model.updateOne (filter, doc, { upsert: true })]: the first match takes
    the fields of [doc]; without a match [doc] is inserted. *)
Definition updateOne_upsert {A : Type} (filter : A → bool) (doc : A) (coll : list A)
  : list A :=
  match findIndex filter coll with
  | Some i => <[i := doc]> coll
  | None => coll ++ [doc]
  end.

Definition login_filter (profile : DiscordProfile.t) (u : CommandStats.t) : bool :=
  String.eqb (CommandStats.userId u) (DiscordProfile.id profile) &&
  String.eqb (CommandStats.serverId u) GUILD_ID.

(** The verify callback; [Throw] is a call of [done] with an error,
    [Normal user] is [done (null, user)]. *)
Definition verify (w : World) (profile : DiscordProfile.t) : Action Server CommandStats.t :=
  user ← query w FindUser (fun d => findOne (login_filter profile) (users d));
  let user :=
    match user with
    | None =>
        CommandStats.set_roleAcquisitionDates ∅
          (CommandStats.set_userAvatar (DiscordProfile.avatar profile)
             (CommandStats.set_username (DiscordProfile.username profile)
                (CommandStats.set_serverId GUILD_ID
                   (CommandStats.set_userId (DiscordProfile.id profile)
                      (newCommandStats w)))))
    | Some user =>
        CommandStats.set_userAvatar (DiscordProfile.avatar profile)
          (CommandStats.set_username (DiscordProfile.username profile) user)
    end in
  userGuildMember ← fetchUserGuildMember w (DiscordProfile.id profile);
  match userGuildMember with
  | None => throw
  | Some userRolesIds =>
    let roleAcquisitionDates := collect_roleAcquisitionDates (now w) userRolesIds in
    let user := CommandStats.set_roleAcquisitionDates roleAcquisitionDates user in
    await w UpdateUser;;
    modify (fun s =>
      mkServer (mkDb (updateOne_upsert (login_filter profile) user (users (db s)))
                     (items (db s)) (inventories (db s)))
               (cache s) (userGuildMemberCache s));;
    mret user
  end.

(** ** The browser script *)

Module Browser.

(** The caches of the page and the [userId] key of [localStorage].
    An entry [None] of [cachedProfileData] is a key set to [null]. *)
Record t := mk {
  shopDataCache : option Body;
  cachedProfileData : gmap string (option Body);
  userId : option string
}.

(** [data.userId] of a parsed body. *)
Definition body_userId (data : option Body) : option string :=
  match data with
  | Some (ProfileBody p) => Some (CommandStats.userId (ProfileData.userStats p))
  | _ => None
  end.

(** [data.roles] of a parsed body. *)
Definition body_roles (data : option Body) : option (list string) :=
  match data with
  | Some (ProfileBody p) => Some (ProfileData.roles p)
  | _ => None
  end.

(** Truthiness of a string read from [localStorage]. *)
Definition truthy (v : option string) : bool :=
  match v with
  | Some v => negb (String.eqb v "")
  | None => false
  end.

Section Flow.

(** The endpoints the page calls, as functions of the server process. *)
Variable GET_profile : string → Server → Response * Server.
Variable GET_shop : Server → Response * Server.
Variable POST_buy : BuyRequest.t → Server → Response * Server.

(** The page and the server it talks to. *)
Definition State : Type := t * Server.

(** [fetchProfileData]: [None] is the [{}] returned after a failure. *)
Definition fetchProfileData (uuid : string) (st : State) : option Body * State :=
  let '(b, s) := st in
  match default None (cachedProfileData b !! uuid) with
  | Some data => (Some data, st)
  | None =>
      let '(response, s) := GET_profile uuid s in
      match response with
      | Json data =>
          (Some data,
           (mk (shopDataCache b) (<[uuid := Some data]> (cachedProfileData b)) (userId b), s))
      | Error _ _ => (None, (b, s))
      end
  end.

(** [fetchShopData]: [None] is the [null] returned after a failure. *)
Definition fetchShopData (st : State) : option Body * State :=
  let '(b, s) := st in
  match shopDataCache b with
  | Some data => (Some data, st)
  | None =>
      let '(response, s) := GET_shop s in
      match response with
      | Json data => (Some data, (mk (Some data) (cachedProfileData b) (userId b), s))
      | Error _ _ => (None, (b, s))
      end
  end.

(** [displayShopData], without the rendering. *)
Definition displayShopData (uuid : string) (st : State) : State :=
  if String.eqb uuid "" then st
  else
    let '(shopData, st) := fetchShopData st in
    match shopData with
    | None => st
    | Some _ =>
        let '(profileData, st) := fetchProfileData uuid st in
        st
    end.

(** [buyItem], without the alerts and the rendering. *)
Definition buyItem (uuid itemName : string) (quantity : Z) (st : State) : State :=
  let '(userId, st) :=
    if truthy (Browser.userId (fst st)) then (Browser.userId (fst st), st)
    else
      let '(profileData, (b, s)) := fetchProfileData uuid st in
      let userId := body_userId profileData in
      (userId,
       (mk (shopDataCache b) (cachedProfileData b) (Some (default "undefined" userId)), s)) in
  let '(b, s) := st in
  let '(response, s) := POST_buy (BuyRequest.mk uuid userId itemName quantity) s in
  if negb (ok response) then (b, s)
  else
    let b := mk (shopDataCache b) (<[uuid := None]> (cachedProfileData b)) (Browser.userId b) in
    let '(updatedProfileData, (b, s)) := fetchProfileData uuid (b, s) in
    let b := mk None (cachedProfileData b) (Browser.userId b) in
    displayShopData uuid (b, s).

End Flow.

End Browser.

(** ** Observations used in the statements *)

(** What a reader of the database sees for a user, an item and an
    inventory, with the queries of the handlers. *)
Definition stars_of (uuid : string) (userId : option string) (d : Db) : option Z :=
  CommandStats.stars <$> findOne (user_filter uuid userId) (users d).

Definition stock_of (itemName : string) (d : Db) : option Z :=
  Item.stock <$> findOne (item_filter itemName) (items d).

Definition inventory_of (userId : string) (d : Db) : option Inventory.t :=
  findOne (inventory_filter userId) (inventories d).

(** The quantity on the inventory line of an item: the first line with that
    [itemId], as [findIndex] sees it. *)
Definition line_quantity (itemId : string) (lines : list Inventory.line) : option Z :=
  Inventory.quantity <$>
    List.find (fun l => String.eqb (Inventory.itemId l) itemId) lines.

(** The four leaderboards of the profile. *)
Inductive Metric := AllTime | Today | Last7Days | Last30Days.

Definition metric_field (m : Metric) : CommandStats.t → Z :=
  match m with
  | AllTime => CommandStats.totalMessages
  | Today => CommandStats.messagesToday
  | Last7Days => CommandStats.messagesLast7Days
  | Last30Days => CommandStats.messagesLast30Days
  end.

Definition profile_rank (m : Metric) : ProfileData.t → Z :=
  match m with
  | AllTime => ProfileData.userRankAllTime
  | Today => ProfileData.userRankToday
  | Last7Days => ProfileData.userRankLast7Days
  | Last30Days => ProfileData.userRankLast30Days
  end.

(** The number of documents whose value of [m] is strictly greater than
    that of [userStats]. *)
Definition strictly_greater (m : Metric) (userStats : CommandStats.t)
    (coll : list CommandStats.t) : Z :=
  Z.of_nat (length (filter (λ u, metric_field m userStats < metric_field m u) coll)).

(** A persisted progress record with this name has its completion flag
    set. *)
Definition persisted_completed (userStats : CommandStats.t) (name : string) : Prop :=
  ∃ a, a ∈ CommandStats.achievements userStats ∧
       Achievement.name a = name ∧ Achievement.completed a = true.

(** ** A small community, for examples *)

Module Sample.
Definition alice : CommandStats.t :=
  CommandStats.mk "u1" "111" GUILD_ID "uuid-alice" "alice" "a1" 10 3 7 9 5000 200
                  [Achievement.mk "voice_time_10s" true] ∅.
Definition bob : CommandStats.t :=
  CommandStats.mk "u2" "222" GUILD_ID "uuid-bob" "bob" "a2" 10 0 0 0 0 50 [] ∅.
Definition carol : CommandStats.t :=
  CommandStats.mk "u3" "333" GUILD_ID "uuid-carol" "carol" "a3" 5 0 0 0 0 0 [] ∅.
Definition sword : Item.t := Item.mk "i1" "sword" 100 5.
Definition potion : Item.t := Item.mk "i2" "potion" 33 (-1).
Definition bag : Inventory.t :=
  Inventory.mk "v1" "111" (Some GUILD_ID) [Inventory.mkLine "i2" "potion" 2].
Definition database : Db := mkDb [alice; bob; carol] [sword; potion] [bag].
Definition blank : CommandStats.t :=
  CommandStats.mk "u9" "" "" "uuid-9" "" "" 0 0 0 0 0 0 [] ∅.
(** A Saturday on which every member holds the discount role and no call
    rejects. *)
Definition saturday : World :=
  mkWorld 1000000 6 (fun _ => Some [DISCOUNT_ROLE]) (fun _ => Some [DISCOUNT_ROLE])
          (fun _ => false) "v9" blank.
(** A Wednesday on which members hold no role. *)
Definition wednesday : World :=
  mkWorld 1000000 3 (fun _ => Some []) (fun _ => Some [])
          (fun _ => false) "v9" blank.
Definition server : Server := mkServer database ∅ ∅.
(** A user with 5000 ms of voice time, 1000 messages today, and one
    progress record for the voice achievement with the given flag. *)
Definition talker (flag : bool) : CommandStats.t :=
  CommandStats.mk "u4" "444" GUILD_ID "uuid-dave" "dave" "a4" 1000 1000 1000 1000 5000 0
                  [Achievement.mk "voice_time_10s" flag] ∅.
(** A moderator whose role was recorded at clock reading 1000, and a later
    login of the same user, who still holds the role. *)
Definition MODERATOR : string := "1043614651444899991".
Definition moderator : CommandStats.t :=
  CommandStats.mk "u5" "555" GUILD_ID "uuid-erin" "erin" "a5" 0 0 0 0 0 0 []
                  {[ MODERATOR := 1000 ]}.
Definition moderators : Server := mkServer (mkDb [moderator] [] []) ∅ ∅.
Definition later : World :=
  mkWorld 2000000 3 (fun _ => Some [MODERATOR]) (fun _ => Some [MODERATOR])
          (fun _ => false) "v9" blank.
Definition erin : DiscordProfile.t := DiscordProfile.mk "555" "erin" "a5".
(** The page of a user who is logged in, with nothing cached. *)
Definition page : Browser.t := Browser.mk None ∅ (Some "111").
(** Requests of the two users. *)
Definition bob_buys_sword : BuyRequest.t :=
  BuyRequest.mk "uuid-bob" (Some "222") "sword" 1.
Definition alice_buys_swords (quantity : Z) : BuyRequest.t :=
  BuyRequest.mk "uuid-alice" (Some "111") "sword" quantity.
Definition alice_buys_potions (quantity : Z) : BuyRequest.t :=
  BuyRequest.mk "uuid-alice" (Some "111") "potion" quantity.
End Sample.

(** ** The buy section of a shop item *)

(** The quantity controls and the buy button that [displayShopData] builds
    for one item.  [userStars] is [profileData.stars], [discountedPrice] the
    price shown, [stock] is [item.stock]. *)
Module ShopItem.
Record t := mk { quantity : Z; disabled : bool }.

Inductive click := Minus | Plus.

Section Widget.
Variable userStars : Z.
Variable discountedPrice : Z.
Variable stock : Z.

(** [let quantity = 1] and [buyButton.disabled = userStars < discountedPrice]. *)
Definition initial : t := mk 1 (userStars <? discountedPrice).

Definition updateQuantity (newQuantity : Z) : t :=
  mk newQuantity
     ((userStars <? discountedPrice * newQuantity)
      || (negb (stock =? -1) && (stock <? newQuantity))).

(** The click listeners of the minus and the plus button. *)
Definition on_click (c : click) (s : t) : t :=
  match c with
  | Minus => updateQuantity (Z.max 1 (quantity s - 1))
  | Plus => updateQuantity (quantity s + 1)
  end.

Definition clicks (cs : list click) : t :=
  foldl (fun s c => on_click c s) initial cs.
End Widget.
End ShopItem.

(** ** GET /leaderboard *)

(** The node-cache store for values of any type. *)
Definition store_get {V : Type} (now : Z) (key : string) (c : gmap string (V * Z))
  : option V :=
  match c !! key with
  | Some (v, t) => if negb (t =? 0) && (t <? now) then None else Some v
  | None => None
  end.

Definition store_set {V : Type} (now : Z) (key : string) (v : V) (ttl : Z)
    (c : gmap string (V * Z)) : gmap string (V * Z) :=
  <[key := (v, if ttl =? 0 then 0 else now + ttl * 1000)]> c.

Module Leaderboard.
(** A document after [.select ('username totalMessages voiceTime stars')]. *)
Record row := mkRow {
  _id : string;
  username : string;
  totalMessages : Z;
  voiceTime : Z;
  stars : Z
}.

Definition select (u : CommandStats.t) : row :=
  mkRow (CommandStats._id u) (CommandStats.username u) (CommandStats.totalMessages u)
        (CommandStats.voiceTime u) (CommandStats.stars u).

(** [req.query]: [page] and [limit] after [parseInt], [None] for a missing
    or unreadable number. *)
Record query := mkQuery {
  sortBy : option string;
  page : option Z;
  limit : option Z
}.

(** The value kept under the key [leaderboard_<sortBy>]. *)
Record cached := mkCached { data : list row; timestamp : Z }.

Inductive response :=
| Json (data : list row) (nextUpdateIn : Z)
| Error (status : Z) (error : string).

Definition LEADERBOARD_CACHE_TTL : Z := 5 * 60.

(** [v || d] on a string and on a number. *)
Definition or_string (v : option string) (d : string) : string :=
  match v with
  | Some v => if String.eqb v "" then d else v
  | None => d
  end.

Definition or_number (v : option Z) (d : Z) : Z :=
  match v with
  | Some v => if v =? 0 then d else v
  | None => d
  end.

(** [sortOption]: the field sorted on, in descending order. *)
Inductive field := VoiceTime | Stars | TotalMessages.

Definition sortOption (sortBy : string) : field :=
  if String.eqb sortBy "voiceTime" then VoiceTime
  else if String.eqb sortBy "stars" then Stars
  else TotalMessages.

Definition field_value (f : field) : CommandStats.t → Z :=
  match f with
  | VoiceTime => CommandStats.voiceTime
  | Stars => CommandStats.stars
  | TotalMessages => CommandStats.totalMessages
  end.

Section Handler.
(** The database call
    [CommandStats.find ({}).sort (sortOption).skip (skip).limit (limit).select (..)]
    with its result, [None] when it rejects. *)
Variable CommandStats_find : field → Z → Z → option (list row).

(** The handler; [now] is the clock reading of the request.  The cache is
    the one of the profiles, whose keys start with another prefix. *)
Definition get (now : Z) (q : query) (c : gmap string (cached * Z))
  : response * gmap string (cached * Z) :=
  let sortBy := or_string (sortBy q) "totalMessages" in
  let cacheKey := "leaderboard_" ++ sortBy in
  let page := or_number (page q) 1 in
  let limit := or_number (limit q) 50 in
  let skip := (page - 1) * limit in
  let compute :=
    match CommandStats_find (sortOption sortBy) skip limit with
    | None => (Error 500 "Ошибка сервера", c)
    | Some topUsers =>
        (Json topUsers (LEADERBOARD_CACHE_TTL * 1000),
         store_set now cacheKey (mkCached topUsers now) LEADERBOARD_CACHE_TTL c)
    end in
  match store_get now cacheKey c with
  | Some cachedData =>
      if now - timestamp cachedData <? LEADERBOARD_CACHE_TTL * 1000 then
        (Json (data cachedData)
              (Z.max 0 (LEADERBOARD_CACHE_TTL * 1000 - (now - timestamp cachedData))),
         c)
      else compute
  | None => compute
  end.
End Handler.

(** The call on a collection.  [.sort ({ field: -1 })] is an insertion sort
    that keeps the storage order of documents with equal values; the server
    refuses a negative skip, and a negative limit counts as its absolute
    value. *)
Fixpoint insert_desc (key : CommandStats.t → Z) (x : CommandStats.t)
    (l : list CommandStats.t) : list CommandStats.t :=
  match l with
  | [] => [x]
  | y :: l' => if key x <? key y then y :: insert_desc key x l' else x :: y :: l'
  end.

Definition sort_desc (key : CommandStats.t → Z) (l : list CommandStats.t)
  : list CommandStats.t :=
  fold_right (insert_desc key) [] l.

Definition find (coll : list CommandStats.t) (f : field) (skip limit : Z)
  : option (list row) :=
  if skip <? 0 then None
  else Some (map select
               (take (Z.to_nat (Z.abs limit))
                     (drop (Z.to_nat skip) (sort_desc (field_value f) coll)))).
End Leaderboard.

(** ** GET / *)

Module Counter.
Record t := mk { _id : string; count : Z }.
End Counter.

(** The handler of the landing page on the counter collection.  The answer
    [None] stands for no answer at all: the handler sends one only from its
    [catch]. *)
Definition landing (findRejects saveRejects : bool) (newObjectId : string)
    (counters : list Counter.t) : option (Z * string) * list Counter.t :=
  if findRejects then (Some (500, "Internal Server Error"), counters)
  else
    let '(counter, isNew) :=
      match findOne (fun _ => true) counters with
      | Some counter => (counter, false)
      | None => (Counter.mk newObjectId 0, true)
      end in
    let counter := Counter.mk (Counter._id counter) (Counter.count counter + 1) in
    if saveRejects then (Some (500, "Internal Server Error"), counters)
    else (None,
          if isNew then (counters ++ [counter])%list
          else updateById Counter._id counter counters).

(** A sequence of requests, each with its two rejection flags. *)
Definition landings (newObjectId : string) (hits : list (bool * bool))
    (counters : list Counter.t) : list Counter.t :=
  foldl (fun counters hit => (landing hit.1 hit.2 newObjectId counters).2) counters hits.

(** The count a reader of the collection sees. *)
Definition visits (counters : list Counter.t) : Z :=
  default 0 (Counter.count <$> findOne (fun _ => true) counters).

(** ** Rendering in the browser *)

(** A whole number in a template literal. *)
Definition Number_toString (z : Z) : string :=
  DecimalString.NilZero.string_of_int (Z.to_int z).

Definition is_space (a : ascii) : bool :=
  match a with
  | " "%char | "009"%char | "010"%char | "011"%char | "012"%char | "013"%char => true
  | _ => false
  end.

Fixpoint trimStart (s : string) : string :=
  match s with
  | EmptyString => EmptyString
  | String a s' => if is_space a then trimStart s' else s
  end.

Fixpoint trimEnd (s : string) : string :=
  match s with
  | EmptyString => EmptyString
  | String a s' =>
      let t := trimEnd s' in
      if is_space a && String.eqb t "" then EmptyString else String a t
  end.

(** [String.prototype.trim]. *)
Definition trim (s : string) : string := trimEnd (trimStart s).

(** [formatVoiceTime]; [None] is [undefined] or [null].  [%] is the
    remainder with the sign of the dividend. *)
Definition formatVoiceTime (seconds : option Z) : string :=
  match seconds with
  | None => "0 сек"
  | Some seconds =>
      let totalSeconds := seconds in
      let days := Math_floor_div totalSeconds 86400 in
      let hours := Math_floor_div (Z.rem totalSeconds 86400) 3600 in
      let minutes := Math_floor_div (Z.rem totalSeconds 3600) 60 in
      let result := "" in
      let result := if 0 <? days then result ++ Number_toString days ++ " д " else result in
      let result := if 0 <? hours then result ++ Number_toString hours ++ " ч " else result in
      let result :=
        if 0 <? minutes then result ++ Number_toString minutes ++ " мин " else result in
      trim result
  end.

(** One part of the text: the number and its unit, left out when the
    number is not positive. *)
Definition voice_part (n : Z) (unit : string) : string :=
  if 0 <? n then Number_toString n ++ " " ++ unit ++ " " else "".

(** The rows [displayLeaderboardData] writes: the rank cell, the name and
    the value cell of each user. *)
Definition displayLeaderboardData (data : list Leaderboard.row) (tableId : string)
  : list (Z * string * string) :=
  imap (fun index user =>
          (Z.of_nat index + 1,
           Leaderboard.username user,
           if String.eqb tableId "voice-leaderboard" then
             formatVoiceTime (Some (Leaderboard.voiceTime user))
           else if String.eqb tableId "stars-leaderboard" then
             Number_toString (Leaderboard.stars user) ++ " ⭐"
           else if String.eqb tableId "messages-leaderboard" then
             Number_toString (Leaderboard.totalMessages user)
           else ""))
       data.

(** *** The position shown on the profile *)

Module Position.
Definition roleToPosition : list (string * string) :=
  [ ("1043615386660257872", "🐞 Хелпер");
    ("1043614651444899991", "👾 Модератор");
    ("1075072592005824563", "💎 Старший модератор");
    ("1243243180800082001", "🔧 Тех Админ");
    ("1043565185509630022", "🛠️ Админ") ].

(** [roleToPosition[roleId]]; a missing key gives a falsy value. *)
Definition position_of (roleId : string) : string :=
  default "" (snd <$> List.find (fun kv => String.eqb kv.1 roleId) roleToPosition).

(** The loop over [allowedRoleIds] with its [break]: the first identifier
    that [data.roles] includes. *)
Fixpoint first_held (roles : list string) (ids : list string) : option string :=
  match ids with
  | [] => None
  | roleId :: ids' => if includes roles roleId then Some roleId else first_held roles ids'
  end.

(** [highestUserPosition] and [highestRoleId]; [roles] is [data.roles].
    The script has its own [allowedRoleIds], equal to that of the server. *)
Definition highest (roles : option (list string)) : string * string :=
  match roles with
  | Some roles =>
      if (0 <? Z.of_nat (length roles)) then
        match first_held roles allowedRoleIds with
        | Some roleId => (position_of roleId, roleId)
        | None => ("", "")
        end
      else ("", "")
  | None => ("", "")
  end.

(** Whether the position element is displayed, and with the class
    [tech-admin]. *)
Definition shows_position (roles : option (list string)) : bool :=
  negb (String.eqb (highest roles).1 "").

Definition tech_admin (roles : option (list string)) : bool :=
  shows_position roles && String.eqb (highest roles).2 "1243243180800082001".

(** Whether the staff statistics blocks are rendered. *)
Definition shows_staff_stats (roles : option (list string)) : bool :=
  existsb (fun roleId =>
             match roles with
             | Some roles => includes roles roleId
             | None => false
             end)
          allowedRoleIds.
End Position.

(** ** POST /buy on the body as JSON delivers it *)

(** The handler takes [quantity] from [req.body] without a check, and JSON
    can deliver a number or a string.  [Number n] is the whole number [n]
    and [Numeral n] is the string of its decimal digits (["2"] for 2).
    Fractions, strings of another form and the other JSON values are left
    out. *)
Module Quantity.
Inductive t := Number (n : Z) | Numeral (n : Z).

(** The conversion [<], [*] and [-=] apply, and the template literal of
    the answer: both forms give the same number and the same text. *)
Definition ToNumber (quantity : t) : Z :=
  match quantity with
  | Number n => n
  | Numeral n => n
  end.

(** The cast of the schema for a string set on a [Number] path: an
    optional minus sign and decimal digits; [None] is [NaN], which the
    cast refuses. *)
Definition cast (s : string) : option Z :=
  Z.of_int <$> DecimalString.NilZero.int_of_string s.

(** [line.quantity += quantity] followed by the cast: a number is added, a
    string is appended to the digits of the quantity on the line. *)
Definition plus_assign (lineQuantity : Z) (quantity : t) : option Z :=
  match quantity with
  | Number n => Some (lineQuantity + n)
  | Numeral n => cast (Number_toString lineQuantity ++ Number_toString n)
  end.
End Quantity.

Module BuyBody.
(** [req.body]; [userId = None] is a body without that key. *)
Record t := mk {
  uuid : string;
  userId : option string;
  itemName : string;
  quantity : Quantity.t
}.
End BuyBody.

(** [inventory.items] after lines 460-465; [None] when the cast of the new
    quantity fails, which [inventory.save] reports. *)
Definition upsert_line_untyped (item : Item.t) (quantity : Quantity.t)
    (lines : list Inventory.line) : option (list Inventory.line) :=
  let existingItemIndex :=
    findIndex (fun i => String.eqb (Inventory.itemId i) (Item._id item)) lines in
  match existingItemIndex with
  | Some existingItemIndex =>
      match lines !! existingItemIndex with
      | Some line =>
          (fun v => <[existingItemIndex :=
                        Inventory.mkLine (Inventory.itemId line) (Inventory.itemName line) v]>
                      lines)
            <$> Quantity.plus_assign (Inventory.quantity line) quantity
      | None => Some lines
      end
  | None =>
      Some (lines ++ [Inventory.mkLine (Item._id item) (Item.name item)
                                       (Quantity.ToNumber quantity)])%list
  end.

(** The [try] block of the handler on such a body.  It is [buy_try] with
    the conversions written out: the guards, the debit and the stock use
    the number, and only line 462 sees the string. *)
Definition buy_untyped_try (w : World) (body : BuyBody.t) : Action Session Response :=
  let quantity := Quantity.ToNumber (BuyBody.quantity body) in
  user ← read w FindUser
    (fun d => findOne (user_filter (BuyBody.uuid body) (BuyBody.userId body)) (users d));
  match user, BuyBody.userId body with
  | Some user, Some userId =>
    item ← read w FindItem
      (fun d => findOne (item_filter (BuyBody.itemName body)) (items d));
    match item with
    | None =>
      abortTransaction;;
      mret (Error 404 "Товар не найден")
    | Some item =>
      if negb (Item.stock item =? -1) && (Item.stock item <? quantity) then
        abortTransaction;;
        mret (Error 400 "Недостаточно товара в наличии")
      else
        let today := getDay w in
        roles ← fetch_member w userId;
        let discountedPrice := Discount.discountedPrice (Item.price item) today roles in
        if CommandStats.stars user <? discountedPrice * quantity then
          abortTransaction;;
          mret (Error 400 "Недостаточно звезд")
        else
          let user :=
            CommandStats.set_stars (CommandStats.stars user - discountedPrice * quantity) user in
          save_user w user;;
          item ← (if negb (Item.stock item =? -1) then
                    let item := Item.set_stock (Item.stock item - quantity) item in
                    save_item w item;;
                    mret item
                  else mret item);
          inventory ← read w FindInventory
            (fun d => findOne (inventory_filter userId) (inventories d));
          let '(inventory, isNew) :=
            match inventory with
            | Some inventory => (inventory, false)
            | None => (Inventory.mk (newObjectId w) userId None [], true)
            end in
          match upsert_line_untyped item (BuyBody.quantity body) (Inventory.items inventory) with
          | Some lines =>
              save_inventory w isNew (Inventory.set_items lines inventory);;
              commitTransaction w;;
              mret (Json (BoughtBody quantity (Item.name item) (discountedPrice * quantity)))
          | None => throw
          end
    end
  | _, _ =>
    abortTransaction;;
    mret (Error 404 "Пользователь не найден. Если вы изменили userId в хранилище, то верните его пожалуйста :)))))")
  end.

Definition buy_untyped (w : World) (body : BuyBody.t) (db : Db) : Response * Db :=
  let session := startTransaction db in
  match buy_untyped_try w body session with
  | (Normal response, session) => (response, endSession session)
  | (Throw, session) =>
      match abortTransaction session with
      | (_, session) => (Error 500 "Ошибка при покупке товара", endSession session)
      end
  end.

(** *** Whole numbers as JavaScript numbers *)

(** [Number.MAX_SAFE_INTEGER] and [Number.isSafeInteger]: JavaScript
    numbers are binary64, and the sums, differences and products of the
    handler are the exact ones as long as the operands and the result are
    whole numbers in this range. *)
Definition MAX_SAFE_INTEGER : Z := 2 ^ 53 - 1.

Definition isSafeInteger (n : Z) : bool :=
  (- MAX_SAFE_INTEGER <=? n) && (n <=? MAX_SAFE_INTEGER).

(** The numbers the handler reads and stores in a purchase of [q] items at
    the final price [p]: the balance, the price (a hundred times, for the
    rounding of the discount), the quantity, the amount, the new balance,
    the stock and the new stock, the quantity on the line and the new
    one. *)
Definition purchase_amounts (stars price p stock lineQuantity q : Z) : list Z :=
  [ stars; 100 * price; q; p * q; stars - p * q;
    stock; (if stock =? -1 then stock else stock - q);
    lineQuantity; lineQuantity + q ].

Definition exact (amounts : list Z) : Prop :=
  Forall (fun n => isSafeInteger n = true) amounts.

(** Line 447, [user.stars -= discountedPrice * quantity], on binary64. *)
Definition debit_binary64 (stars discountedPrice quantity : float) : float :=
  (stars - discountedPrice * quantity)%float.

(** A body with a string quantity, for examples. *)
Definition alice_buys_potions_text : BuyBody.t :=
  BuyBody.mk "uuid-alice" (Some "111") "potion" (Quantity.Numeral 2).

(** A list in descending order of [key]. *)
Definition descending (key : CommandStats.t → Z) : list CommandStats.t → Prop :=
  StronglySorted (λ a b, key b ≤ key a).

(** ** Proof automation *)

(** Unfolding of the handler down to its case analysis. *)
Ltac unfold_buy :=
  cbv [buy buy_try read write save_user save_item save_inventory
       commitTransaction abortTransaction fetch_member in_transaction await
       gets modify throw startTransaction endSession
       mbind mret action_bind action_ret bind ret
       committed transaction users items inventories].

Ltac unfold_get :=
  cbv [get_profile get_achievements get_shop handler profile_try achievements_try
       query cache_lookup cache_store fetchUserGuildMember await
       gets modify throw mbind mret action_bind action_ret bind ret
       db cache userGuildMemberCache].

(** * Properties *)

(** ** Rounding and discounts *)

Lemma includes_elem_of (l : list string) (x : string) :
  includes l x = true ↔ x ∈ l.
Proof.
  unfold includes. rewrite existsb_exists. split.
  - intros (y & Hin & Heq). apply String.eqb_eq in Heq. subst y.
    by apply list_elem_of_In.
  - intros Hin. exists x. split; [by apply list_elem_of_In | apply String.eqb_refl].
Qed.

Lemma includes_decide (l : list string) (x : string) :
  includes l x = bool_decide (x ∈ l).
Proof.
  destruct (includes l x) eqn:E.
  - symmetry. apply bool_decide_eq_true. by apply includes_elem_of.
  - symmetry. apply bool_decide_eq_false. intros Hin.
    apply includes_elem_of in Hin. congruence.
Qed.

(** [Math_round x] is the integer [n] with [n - 1/2 <= x < n + 1/2]. *)
Lemma Math_round_bracket (x : Q) :
  (inject_Z (Math_round x) - (1 # 2) <= x)%Q ∧
  (x < inject_Z (Math_round x) + (1 # 2))%Q.
Proof.
  unfold Math_round.
  pose proof (Qfloor_le (x + (1 # 2))) as Hlo.
  pose proof (Qlt_floor (x + (1 # 2))) as Hhi.
  rewrite inject_Z_plus in Hhi. change (inject_Z 1) with 1%Q in Hhi.
  split; lra.
Qed.

(** Rounding a number of hundredths is an integer division. *)
Lemma Math_round_hundredths (a : Z) (x : Q) :
  (x == a # 100)%Q → Math_round x = (a + 50) / 100.
Proof.
  intros Hx. unfold Math_round.
  assert (Heq : (x + (1 # 2) == (a + 50) # 100)%Q).
  { rewrite Hx. unfold Qeq, Qplus. simpl. lia. }
  rewrite (Qfloor_comp _ _ Heq). reflexivity.
Qed.

Lemma percent_of_price (price pct : Z) :
  (inject_Z price * (1 - inject_Z pct / 100) == (price * (100 - pct)) # 100)%Q.
Proof.
  unfold Qeq, Qmult, Qminus, Qplus, Qopp, Qdiv, Qinv, inject_Z. simpl. lia.
Qed.

(** The price charged, in integer arithmetic. *)
Lemma discountedPrice_div (price today : Z) (roles : list string) :
  Discount.discountedPrice price today roles =
    (price * (100 - Discount.discountPercentage today roles) + 50) / 100.
Proof.
  unfold Discount.discountedPrice.
  apply Math_round_hundredths, percent_of_price.
Qed.

Lemma discountPercentage_range (today : Z) (roles : list string) :
  0 ≤ Discount.discountPercentage today roles ≤ 25.
Proof.
  unfold Discount.discountPercentage.
  destruct (Discount.isDiscountDay today), (Discount.hasPermanentDiscountRole roles); lia.
Qed.

Lemma discountedPrice_nonneg (price today : Z) (roles : list string) :
  0 ≤ price → 0 ≤ Discount.discountedPrice price today roles.
Proof.
  intros Hp. rewrite discountedPrice_div.
  pose proof (discountPercentage_range today roles).
  apply Z.div_pos; [nia | lia].
Qed.

(** ** The purchase transaction *)

Lemma buy_error_unchanged (w : World) (req : BuyRequest.t) (d d' : Db)
    (status : Z) (error : string) :
  buy w req d = (Error status error, d') → d' = d.
Proof.
  unfold_buy. intros H.
  repeat (case_match; simplify_eq/=); reflexivity.
Qed.

(** What a purchase that answers with a JSON body has gone through. *)
Lemma buy_Json_inv (w : World) (req : BuyRequest.t) (d d' : Db) (body : Body) :
  buy w req d = (Json body, d') →
  ∃ userId user item roles inventory,
    BuyRequest.userId req = Some userId ∧
    findOne (user_filter (BuyRequest.uuid req) (Some userId)) (users d) = Some user ∧
    findOne (item_filter (BuyRequest.itemName req)) (items d) = Some item ∧
    guildMember w userId = Some roles ∧
    findOne (inventory_filter userId) (inventories d) = Some inventory ∧
    let q := BuyRequest.quantity req in
    let p := Discount.discountedPrice (Item.price item) (getDay w) roles in
    let item' := if Item.stock item =? -1 then item
                 else Item.set_stock (Item.stock item - q) item in
    let inventory' :=
      Inventory.set_items (upsert_line item' q (Inventory.items inventory)) inventory in
    (Item.stock item = -1 ∨ q ≤ Item.stock item) ∧
    p * q ≤ CommandStats.stars user ∧
    Inventory.validate inventory' = true ∧
    body = BoughtBody q (Item.name item) (p * q) ∧
    d' = mkDb (updateById CommandStats._id
                 (CommandStats.set_stars (CommandStats.stars user - p * q) user) (users d))
              (if Item.stock item =? -1 then items d
               else updateById Item._id item' (items d))
              (updateById Inventory._id inventory' (inventories d)).
Proof.
  unfold_buy. intros H.
  repeat (case_match; simplify_eq/=).
  all: try (match goal with
            | H : Inventory.validate _ = true |- _ =>
                cbv [Inventory.validate Inventory.set_items Inventory.guildId
                     Inventory.required] in H;
                rewrite andb_false_r in H; discriminate H
            end).
  all: repeat match goal with
         | H : negb _ = _ |- _ => rewrite ?negb_true_iff, ?negb_false_iff in H
         | H : (_ && _) = false |- _ => apply andb_false_iff in H
         end.
  all: do 5 eexists; repeat split; try eassumption.
  all: repeat match goal with
         | H : (_ =? _) = _ |- _ => rewrite ?H; first [apply Z.eqb_eq in H | apply Z.eqb_neq in H]
         | H : (_ <? _) = false |- _ => apply Z.ltb_ge in H
         end.
  all: first [reflexivity | assumption | lia | (left; assumption) | (right; lia)].
Qed.

(** The conditions under which a purchase commits. *)
Lemma buy_commits (w : World) (req : BuyRequest.t) (d : Db)
    (userId : string) (user : CommandStats.t) (item : Item.t)
    (roles : list string) (inventory : Inventory.t) :
  let q := BuyRequest.quantity req in
  let p := Discount.discountedPrice (Item.price item) (getDay w) roles in
  let item' := if Item.stock item =? -1 then item
               else Item.set_stock (Item.stock item - q) item in
  let inventory' :=
    Inventory.set_items (upsert_line item' q (Inventory.items inventory)) inventory in
  (∀ op, fault w op = false) →
  BuyRequest.userId req = Some userId →
  findOne (user_filter (BuyRequest.uuid req) (Some userId)) (users d) = Some user →
  findOne (item_filter (BuyRequest.itemName req)) (items d) = Some item →
  guildMember w userId = Some roles →
  findOne (inventory_filter userId) (inventories d) = Some inventory →
  (Item.stock item = -1 ∨ q ≤ Item.stock item) →
  p * q ≤ CommandStats.stars user →
  Inventory.validate inventory' = true →
  buy w req d =
    (Json (BoughtBody q (Item.name item) (p * q)),
     mkDb (updateById CommandStats._id
             (CommandStats.set_stars (CommandStats.stars user - p * q) user) (users d))
          (if Item.stock item =? -1 then items d
           else updateById Item._id item' (items d))
          (updateById Inventory._id inventory' (inventories d))).
Proof.
  intros q p item' inventory' Hfault Hid Huser Hitem Hroles Hinv Hstock Hstars Hvalid.
  subst q p item' inventory'. destruct d as [us its invs]; simpl in *.
  unfold_buy. rewrite !Hfault, Hid, Huser, Hitem.
  destruct (Item.stock item =? -1) eqn:Hs; simpl.
  - rewrite Hroles.
    destruct (Z.ltb_spec (CommandStats.stars user)
                (Discount.discountedPrice (Item.price item) (getDay w) roles
                 * BuyRequest.quantity req)) as [Hlt|_]; [lia|].
    rewrite Hinv, Hvalid. reflexivity.
  - apply Z.eqb_neq in Hs.
    destruct (Z.ltb_spec (Item.stock item) (BuyRequest.quantity req)) as [Hlt|_]; [lia|].
    rewrite Hroles.
    destruct (Z.ltb_spec (CommandStats.stars user)
                (Discount.discountedPrice (Item.price item) (getDay w) roles
                 * BuyRequest.quantity req)) as [Hlt|_]; [lia|].
    rewrite Hinv, Hvalid. reflexivity.
Qed.

(** *** Reading a collection after a save *)

Lemma findOne_updateById {A : Type} (id : A → string) (p : A → bool)
    (doc x : A) (coll : list A) :
  findOne p coll = Some x → id doc = id x → p doc = true →
  findOne p (updateById id doc coll) = Some doc.
Proof.
  unfold findOne. intros Hfind Hid Hp.
  induction coll as [|y coll IH]; simpl in *; [discriminate|].
  destruct (String.eqb_spec (id y) (id doc)) as [Heq|Hne]; simpl.
  - by rewrite Hp.
  - destruct (p y) eqn:Hy.
    + simplify_eq; congruence.
    + by apply IH.
Qed.

Lemma findIndex_None_find {A : Type} (p : A → bool) (l : list A) :
  findIndex p l = None ↔ List.find p l = None.
Proof.
  induction l as [|x l IH]; simpl; [done|].
  destruct (p x); [done|].
  destruct (findIndex p l); simpl; [|tauto].
  split; [discriminate|]. intros H. apply IH in H. discriminate.
Qed.

(** The line of the item after the upsert. *)
Lemma line_quantity_upsert (item : Item.t) (q : Z) (lines : list Inventory.line) :
  line_quantity (Item._id item) (upsert_line item q lines) =
    Some (default 0 (line_quantity (Item._id item) lines) + q).
Proof.
  unfold upsert_line, line_quantity.
  induction lines as [|l lines IH]; simpl; [by rewrite String.eqb_refl|].
  destruct (Inventory.itemId l =? Item._id item)%string eqn:Hl; simpl.
  - by rewrite Hl.
  - destruct (findIndex _ lines) as [i|] eqn:Hi; simpl in *; by rewrite Hl.
Qed.

(** Without a line for the item, one is appended. *)
Lemma upsert_line_new (item : Item.t) (q : Z) (lines : list Inventory.line) :
  line_quantity (Item._id item) lines = None →
  upsert_line item q lines =
    (lines ++ [Inventory.mkLine (Item._id item) (Item.name item) q])%list.
Proof.
  unfold upsert_line, line_quantity. intros H.
  apply fmap_None in H. apply findIndex_None_find in H. by rewrite H.
Qed.

(** The lines of the other items keep their quantity. *)
Lemma line_quantity_upsert_other (item : Item.t) (q : Z)
    (lines : list Inventory.line) (itemId : string) :
  itemId ≠ Item._id item →
  line_quantity itemId (upsert_line item q lines) = line_quantity itemId lines.
Proof.
  unfold upsert_line, line_quantity. intros Hne.
  induction lines as [|l lines IH]; simpl.
  - destruct (String.eqb_spec (Item._id item) itemId); [congruence|done].
  - destruct (String.eqb_spec (Inventory.itemId l) (Item._id item)) as [Hl|Hl]; simpl.
    + destruct (String.eqb_spec (Inventory.itemId l) itemId); [congruence|done].
    + destruct (findIndex _ lines) as [i|] eqn:Hi; simpl in *;
        destruct (Inventory.itemId l =? itemId)%string; done.
Qed.

Lemma findOne_true {A : Type} (p : A → bool) (coll : list A) (x : A) :
  findOne p coll = Some x → p x = true.
Proof. unfold findOne. intros H. by apply List.find_some in H as [_ ?]. Qed.

(** What the database holds for the buyer, the item and the inventory after
    a purchase that answered with a JSON body. *)
Lemma buy_Json_effects (w : World) (req : BuyRequest.t) (d d' : Db) (body : Body) :
  buy w req d = (Json body, d') →
  ∃ userId user item roles inventory inventory',
    BuyRequest.userId req = Some userId ∧
    findOne (user_filter (BuyRequest.uuid req) (Some userId)) (users d) = Some user ∧
    findOne (item_filter (BuyRequest.itemName req)) (items d) = Some item ∧
    guildMember w userId = Some roles ∧
    inventory_of userId d = Some inventory ∧
    let q := BuyRequest.quantity req in
    let p := Discount.discountedPrice (Item.price item) (getDay w) roles in
    (Item.stock item = -1 ∨ q ≤ Item.stock item) ∧
    p * q ≤ CommandStats.stars user ∧
    body = BoughtBody q (Item.name item) (p * q) ∧
    stars_of (BuyRequest.uuid req) (Some userId) d' = Some (CommandStats.stars user - p * q) ∧
    stock_of (BuyRequest.itemName req) d' =
      Some (if Item.stock item =? -1 then -1 else Item.stock item - q) ∧
    inventory_of userId d' = Some inventory' ∧
    Inventory.items inventory' = upsert_line item q (Inventory.items inventory).
Proof.
  intros H. apply buy_Json_inv in H.
  destruct H as (userId & user & item & roles & inventory & Hid & Huser & Hitem
                 & Hroles & Hinv & Hstock & Hstars & Hvalid & Hbody & Hd').
  cbv zeta in *.
  eexists userId, user, item, roles, inventory, _.
  split_and!; try eassumption.
  - subst d'. unfold stars_of. simpl.
    erewrite findOne_updateById; [reflexivity | eassumption | reflexivity |].
    by apply findOne_true in Huser.
  - subst d'. unfold stock_of. simpl.
    destruct (Z.eqb_spec (Item.stock item) (-1)) as [Hs|Hs].
    + by rewrite Hitem, <- Hs.
    + erewrite findOne_updateById; [reflexivity | eassumption | reflexivity |].
      by apply findOne_true in Hitem.
  - subst d'. unfold inventory_of. simpl.
    erewrite findOne_updateById; [reflexivity | eassumption | reflexivity |].
    by apply findOne_true in Hinv.
  - simpl. by destruct (Item.stock item =? -1).
Qed.

(** C1.  A purchase that fails, whatever the step (the user or the item is
    not found, the stock or the stars do not suffice, or a call rejects),
    leaves the database as it was before the call: the stars of the users,
    the stock of the items and the inventories are unchanged. *)
Theorem buy_failure_rolls_back (w : World) (req : BuyRequest.t) (d d' : Db)
    (status : Z) (error : string) :
  buy w req d = (Error status error, d') →
  d' = d ∧
  (∀ uuid userId, stars_of uuid userId d' = stars_of uuid userId d) ∧
  (∀ itemName, stock_of itemName d' = stock_of itemName d) ∧
  (∀ userId, inventory_of userId d' = inventory_of userId d).
Proof.
  intros H. apply buy_error_unchanged in H. by subst d'.
Qed.

(** Bob has 50 stars and asks for a sword that costs him 75: the purchase
    is refused and the database is the one before the call. *)
Lemma buy_failure_rolls_back_witness :
  ∃ d', buy Sample.saturday Sample.bob_buys_sword Sample.database =
          (Error 400 "Недостаточно звезд", d') ∧
        d' = Sample.database ∧
        stars_of "uuid-bob" (Some "222") d' = Some 50.
Proof.
  exists (buy Sample.saturday Sample.bob_buys_sword Sample.database).2.
  assert (H : buy Sample.saturday Sample.bob_buys_sword Sample.database =
              (Error 400 "Недостаточно звезд",
               (buy Sample.saturday Sample.bob_buys_sword Sample.database).2))
    by (vm_compute; reflexivity).
  destruct (buy_failure_rolls_back _ _ _ _ _ _ H) as (Hd & Hstars & _).
  split_and!; [exact H | exact Hd | rewrite Hstars; vm_compute; reflexivity].
Defined.

(** Each way of failing, on the sample database. *)
Example buy_user_not_found :
  buy Sample.saturday (BuyRequest.mk "uuid-alice" (Some "222") "sword" 1) Sample.database =
    (Error 404 "Пользователь не найден. Если вы изменили userId в хранилище, то верните его пожалуйста :)))))",
     Sample.database).
Proof. vm_compute. reflexivity. Qed.

Example buy_item_not_found :
  buy Sample.saturday (BuyRequest.mk "uuid-alice" (Some "111") "shield" 1) Sample.database =
    (Error 404 "Товар не найден", Sample.database).
Proof. vm_compute. reflexivity. Qed.

Example buy_insufficient_stock :
  buy Sample.saturday (Sample.alice_buys_swords 6) Sample.database =
    (Error 400 "Недостаточно товара в наличии", Sample.database).
Proof. vm_compute. reflexivity. Qed.

Example buy_member_fetch_rejects :
  buy (mkWorld 1000000 6 (fun _ => None) (fun _ => None) (fun _ => false) "v9" Sample.blank)
      (Sample.alice_buys_swords 1) Sample.database =
    (Error 500 "Ошибка при покупке товара", Sample.database).
Proof. vm_compute. reflexivity. Qed.

(** A save that rejects after the stars were debited in the transaction. *)
Example buy_item_save_rejects :
  buy (mkWorld 1000000 6 (fun _ => Some []) (fun _ => Some [])
               (fun op => match op with SaveItem => true | _ => false end) "v9" Sample.blank)
      (Sample.alice_buys_swords 1) Sample.database =
    (Error 500 "Ошибка при покупке товара", Sample.database).
Proof. vm_compute. reflexivity. Qed.

(** A first purchase by a user without an inventory document: the new
    document has no [guildId], its validation fails, and nothing is
    committed. *)
Example buy_without_inventory_document :
  inventory_of "222" Sample.database = None ∧
  buy Sample.wednesday (BuyRequest.mk "uuid-bob" (Some "222") "potion" 1) Sample.database =
    (Error 500 "Ошибка при покупке товара", Sample.database).
Proof. vm_compute. done. Qed.


(** *** The handler on the body as JSON delivers it *)

Lemma alter_lookup {A : Type} (f : A → A) (i : nat) (l : list A) :
  alter f i l = match l !! i with Some x => <[i := f x]> l | None => l end.
Proof.
  revert i. induction l as [|x l IH]; intros [|i]; simpl; try done.
  specialize (IH i). destruct (l !! i); simpl; f_equal; exact IH.
Qed.

Lemma upsert_line_untyped_Number (item : Item.t) (q : Z) (lines : list Inventory.line) :
  upsert_line_untyped item (Quantity.Number q) lines = Some (upsert_line item q lines).
Proof.
  unfold upsert_line_untyped, upsert_line. cbv zeta.
  destruct (findIndex _ lines) as [i|]; [|done].
  rewrite alter_lookup. by destruct (lines !! i).
Qed.

(** On a body whose quantity is a number the handler is [buy]. *)
Lemma buy_untyped_Number (w : World) (uuid : string) (userId : option string)
    (itemName : string) (q : Z) (d : Db) :
  buy_untyped w (BuyBody.mk uuid userId itemName (Quantity.Number q)) d =
    buy w (BuyRequest.mk uuid userId itemName q) d.
Proof.
  unfold buy_untyped, buy. cbv zeta.
  assert (Htry : ∀ s, buy_untyped_try w (BuyBody.mk uuid userId itemName (Quantity.Number q)) s
                      = buy_try w (BuyRequest.mk uuid userId itemName q) s);
    [|by rewrite Htry].
  intros s. unfold buy_untyped_try, buy_try. simpl.
  cbv [mbind action_bind bind].
  destruct (read w FindUser _ s) as [[[user|]|] s1]; try done.
  destruct userId as [userId|]; [|done].
  destruct (read w FindItem _ s1) as [[[item|]|] s2]; try done.
  destruct (negb (Item.stock item =? -1) && (Item.stock item <? q)); [done|].
  destruct (fetch_member w userId s2) as [[roles|] s3]; [|done].
  destruct (CommandStats.stars user <? _); [done|].
  destruct (save_user w _ s3) as [[[]|] s4]; [|done].
  destruct (negb (Item.stock item =? -1)).
  - destruct (save_item w _ s4) as [[[]|] s5]; [|done]. simpl.
    destruct (read w FindInventory _ s5) as [[[inventory|]|] s6]; try done;
      by rewrite upsert_line_untyped_Number.
  - simpl.
    destruct (read w FindInventory _ s4) as [[[inventory|]|] s6]; try done;
      by rewrite upsert_line_untyped_Number.
Qed.

Lemma isSafeInteger_spec (n : Z) :
  isSafeInteger n = true ↔ - MAX_SAFE_INTEGER ≤ n ≤ MAX_SAFE_INTEGER.
Proof. unfold isSafeInteger. rewrite andb_true_iff, !Z.leb_le. done. Qed.

(** C2.  After a successful purchase of [q] items at the final price [p],
    asked for with a number [q], and as long as the numbers of the
    purchase are whole numbers that JavaScript computes with exactly: the
    buyer holds [p * q] stars less, a finite stock is [q] lower (an
    unlimited one stays [-1]), the inventory line of the item counts [q]
    more (a line with [q] is appended when there was none), and the lines
    of the other items are as before. *)
Theorem buy_success_effects (w : World) (body : BuyBody.t) (q : Z) (d d' : Db)
    (answer : Body) :
  BuyBody.quantity body = Quantity.Number q →
  buy_untyped w body d = (Json answer, d') →
  ∃ userId roles item stars_before inventory inventory',
    BuyBody.userId body = Some userId ∧
    guildMember w userId = Some roles ∧
    findOne (item_filter (BuyBody.itemName body)) (items d) = Some item ∧
    stars_of (BuyBody.uuid body) (Some userId) d = Some stars_before ∧
    inventory_of userId d = Some inventory ∧
    inventory_of userId d' = Some inventory' ∧
    let p := Discount.discountedPrice (Item.price item) (getDay w) roles in
    let before := Inventory.items inventory in
    let after := Inventory.items inventory' in
    let line_before := default 0 (line_quantity (Item._id item) before) in
    exact (purchase_amounts stars_before (Item.price item) p (Item.stock item)
                            line_before q) →
    stars_of (BuyBody.uuid body) (Some userId) d' = Some (stars_before - p * q) ∧
    stock_of (BuyBody.itemName body) d' =
      Some (if Item.stock item =? -1 then -1 else Item.stock item - q) ∧
    line_quantity (Item._id item) after = Some (line_before + q) ∧
    (line_quantity (Item._id item) before = None →
     after = (before ++ [Inventory.mkLine (Item._id item) (Item.name item) q])%list) ∧
    (∀ itemId, itemId ≠ Item._id item →
               line_quantity itemId after = line_quantity itemId before).
Proof.
  destruct body as [uuid userId0 itemName quantity]. simpl. intros -> H.
  rewrite buy_untyped_Number in H. apply buy_Json_effects in H. simpl in H.
  destruct H as (userId & user & item & roles & inventory & inventory' & Hid & Huser
                 & Hitem & Hroles & Hinv & _ & _ & _ & Hstars & Hstock & Hinv' & Hlines).
  exists userId, roles, item, (CommandStats.stars user), inventory, inventory'.
  cbv zeta. rewrite Hlines.
  split_and!; try assumption.
  - unfold stars_of. by rewrite Huser.
  - intros _. split_and!; try assumption.
    + apply line_quantity_upsert.
    + apply upsert_line_new.
    + intros itemId Hne. by apply line_quantity_upsert_other.
Qed.

(** Alice, with 200 stars, buys two swords at 75 on a Saturday. *)
Lemma buy_success_effects_witness :
  ∃ d', buy_untyped Sample.saturday
          (BuyBody.mk "uuid-alice" (Some "111") "sword" (Quantity.Number 2))
          Sample.database =
          (Json (BoughtBody 2 "sword" 150), d') ∧
        exact (purchase_amounts 200 100 75 5 0 2) ∧
        stars_of "uuid-alice" (Some "111") d' = Some 50 ∧
        stock_of "sword" d' = Some 3 ∧
        (line_quantity "i1" ∘ Inventory.items) <$> inventory_of "111" d' = Some (Some 2).
Proof.
  eassert (H : buy_untyped Sample.saturday
                 (BuyBody.mk "uuid-alice" (Some "111") "sword" (Quantity.Number 2))
                 Sample.database = (Json (BoughtBody 2 "sword" 150), _))
    by (vm_compute; reflexivity).
  assert (Hexact : exact (purchase_amounts 200 100 75 5 0 2))
    by (repeat constructor).
  eexists. split; [exact H|]. split; [exact Hexact|].
  destruct (buy_success_effects Sample.saturday
              (BuyBody.mk "uuid-alice" (Some "111") "sword" (Quantity.Number 2))
              2 _ _ _ eq_refl H)
    as (userId & roles & item & stars_before & inventory & inventory' & Hid & Hroles
        & Hitem & Hbefore & Hinv & Hinv' & Heffects).
  vm_compute in Hid, Hitem, Hbefore, Hinv. simplify_eq.
  vm_compute in Hroles. simplify_eq.
  destruct (Heffects Hexact) as (Hstars & Hstock & Hline & _).
  split_and!.
  - etrans; [exact Hstars|]. vm_compute. reflexivity.
  - etrans; [exact Hstock|]. vm_compute. reflexivity.
  - rewrite Hinv'. simpl. f_equal. etrans; [exact Hline|]. vm_compute. reflexivity.
Defined.

(** The two ways in which a committed purchase leaves these equations.
    A quantity sent as the string ["2"] passes the guards as the
    number 2 and is debited as such, but line 462 appends it to the digits
    on the line: the line of 2 potions becomes one of 22.  And beyond the
    safe integers the handler's arithmetic rounds: a balance of 200 after a
    purchase of [-1e20] items at 100 is stored as [1e22], and a balance of
    [1e22] is not lowered by a purchase at 100. *)
Lemma buy_success_effects_counterexample :
  (∃ d' inventory',
     buy_untyped Sample.wednesday alice_buys_potions_text Sample.database =
       (Json (BoughtBody 2 "potion" 66), d') ∧
     stars_of "uuid-alice" (Some "111") Sample.database = Some 200 ∧
     stars_of "uuid-alice" (Some "111") d' = Some (200 - 33 * 2) ∧
     line_quantity "i2" (Inventory.items Sample.bag) = Some 2 ∧
     inventory_of "111" d' = Some inventory' ∧
     line_quantity "i2" (Inventory.items inventory') = Some 22 ∧
     22 ≠ 2 + 2) ∧
  debit_binary64 200 100 (-1e20) = 1e22%float ∧
  debit_binary64 1e22 100 1 = 1e22%float.
Proof.
  split; [|split; reflexivity].
  eexists _, _. split_and!; [vm_compute; reflexivity..|done].
Qed.


(** C8.  After a purchase that commits, the buyer's stars are not negative,
    and a finite stock has gone down by the quantity without going below
    zero. *)
Theorem buy_keeps_stars_and_stock_nonnegative (w : World) (req : BuyRequest.t)
    (d d' : Db) (body : Body) :
  buy w req d = (Json body, d') →
  ∃ stars_after stock_before stock_after,
    stars_of (BuyRequest.uuid req) (BuyRequest.userId req) d' = Some stars_after ∧
    0 ≤ stars_after ∧
    stock_of (BuyRequest.itemName req) d = Some stock_before ∧
    stock_of (BuyRequest.itemName req) d' = Some stock_after ∧
    (stock_before ≠ -1 →
     stock_after = stock_before - BuyRequest.quantity req ∧ 0 ≤ stock_after).
Proof.
  intros H. apply buy_Json_effects in H.
  destruct H as (userId & user & item & roles & inventory & inventory' & Hid & Huser
                 & Hitem & Hroles & Hinv & Hguard & Hfunds & _ & Hstars & Hstock & _).
  cbv zeta in *. rewrite Hid.
  eexists _, (Item.stock item), _. split_and!; try eassumption.
  - lia.
  - unfold stock_of. by rewrite Hitem.
  - intros Hfinite. destruct (Z.eqb_spec (Item.stock item) (-1)); [done|].
    split; [done|]. lia.
Qed.

(** Alice spends all of her 200 stars on two swords on a Wednesday. *)
Lemma buy_keeps_stars_and_stock_nonnegative_witness :
  ∃ d' stars_after stock_after,
    buy Sample.wednesday (Sample.alice_buys_swords 2) Sample.database =
      (Json (BoughtBody 2 "sword" 200), d') ∧
    stars_of "uuid-alice" (Some "111") d' = Some stars_after ∧ 0 ≤ stars_after ∧
    stock_of "sword" d' = Some stock_after ∧ 0 ≤ stock_after.
Proof.
  exists (buy Sample.wednesday (Sample.alice_buys_swords 2) Sample.database).2.
  assert (H : buy Sample.wednesday (Sample.alice_buys_swords 2) Sample.database =
              (Json (BoughtBody 2 "sword" 200),
               (buy Sample.wednesday (Sample.alice_buys_swords 2) Sample.database).2))
    by (vm_compute; reflexivity).
  destruct (buy_keeps_stars_and_stock_nonnegative _ _ _ _ _ H)
    as (stars_after & stock_before & stock_after & Hstars & Hnonneg & Hbefore & Hafter & Hfinite).
  exists stars_after, stock_after.
  vm_compute in Hbefore. simplify_eq.
  split_and!; [exact H | exact Hstars | exact Hnonneg | exact Hafter | ].
  by apply Hfinite.
Defined.


(** *** Validation after the upsert *)

Lemma forallb_alter {A : Type} (P : A → bool) (f : A → A) (i : nat) (l : list A) :
  (∀ x, P (f x) = P x) → forallb P (alter f i l) = forallb P l.
Proof.
  intros Hf. revert i. induction l as [|x l IH]; intros [|i]; simpl; try done.
  - by rewrite Hf.
  - f_equal. apply IH.
Qed.

Lemma validate_upsert (item : Item.t) (q : Z) (inventory : Inventory.t) :
  Inventory.validate inventory = true →
  Item._id item ≠ "" → Item.name item ≠ "" →
  Inventory.validate
    (Inventory.set_items (upsert_line item q (Inventory.items inventory)) inventory) = true.
Proof.
  unfold Inventory.validate. simpl. intros H Hid Hname.
  apply andb_true_iff in H as [H1 H2]. rewrite H1. simpl.
  unfold upsert_line. destruct (findIndex _ _) as [i|].
  - by rewrite forallb_alter.
  - rewrite forallb_app, H2. simpl.
    apply String.eqb_neq in Hid, Hname. by rewrite Hid, Hname.
Qed.

(** C10.  The handler does not check that the quantity is positive.  With a
    quantity of zero or below, an existing user, item and inventory, stars
    and a price that are not negative, and no rejected call, every guard
    passes and the purchase commits: the stars do not go down (they go up
    for a negative quantity of a priced item), a finite stock does not go
    down (it goes up for a negative quantity), and an item without a line
    gets a line whose quantity is the requested one, below 1. *)
Theorem buy_accepts_nonpositive_quantity (w : World) (req : BuyRequest.t) (d : Db)
    (userId : string) (user : CommandStats.t) (item : Item.t)
    (roles : list string) (inventory : Inventory.t) :
  let q := BuyRequest.quantity req in
  let p := Discount.discountedPrice (Item.price item) (getDay w) roles in
  let id := Item._id item in
  (∀ op, fault w op = false) →
  BuyRequest.userId req = Some userId →
  findOne (user_filter (BuyRequest.uuid req) (Some userId)) (users d) = Some user →
  findOne (item_filter (BuyRequest.itemName req)) (items d) = Some item →
  guildMember w userId = Some roles →
  inventory_of userId d = Some inventory →
  Inventory.validate inventory = true →
  Item._id item ≠ "" → Item.name item ≠ "" →
  q ≤ 0 →
  0 ≤ Item.price item →
  0 ≤ CommandStats.stars user →
  (Item.stock item = -1 ∨ 0 ≤ Item.stock item) →
  ∃ d' inventory',
    buy w req d = (Json (BoughtBody q (Item.name item) (p * q)), d') ∧
    stars_of (BuyRequest.uuid req) (Some userId) d' = Some (CommandStats.stars user - p * q) ∧
    CommandStats.stars user ≤ CommandStats.stars user - p * q ∧
    (q < 0 → 0 < p → CommandStats.stars user < CommandStats.stars user - p * q) ∧
    (Item.stock item ≠ -1 →
     stock_of (BuyRequest.itemName req) d' = Some (Item.stock item - q) ∧
     Item.stock item ≤ Item.stock item - q ∧
     (q < 0 → Item.stock item < Item.stock item - q)) ∧
    inventory_of userId d' = Some inventory' ∧
    line_quantity id (Inventory.items inventory') =
      Some (default 0 (line_quantity id (Inventory.items inventory)) + q) ∧
    (line_quantity id (Inventory.items inventory) = None →
     line_quantity id (Inventory.items inventory') = Some q ∧ q < 1).
Proof.
  intros q p id Hfault Hid Huser Hitem Hroles Hinv Hvalid Hiid Hname Hq Hprice Hstars Hstock.
  assert (Hp : 0 ≤ p) by (by apply discountedPrice_nonneg).
  assert (Hguard : Item.stock item = -1 ∨ q ≤ Item.stock item)
    by (destruct Hstock; [by left | right; lia]).
  assert (Hfunds : p * q ≤ CommandStats.stars user) by nia.
  assert (Hvalid' :
    Inventory.validate
      (Inventory.set_items
         (upsert_line (if Item.stock item =? -1 then item
                       else Item.set_stock (Item.stock item - q) item)
                      q (Inventory.items inventory)) inventory) = true)
    by (apply validate_upsert; [done| |]; by destruct (Item.stock item =? -1)).
  pose proof (buy_commits w req d userId user item roles inventory
                Hfault Hid Huser Hitem Hroles Hinv Hguard Hfunds Hvalid') as Hbuy.
  cbv zeta in Hbuy. fold q p in Hbuy.
  pose proof (buy_Json_effects _ _ _ _ _ Hbuy) as Heff.
  destruct Heff as (userId' & user' & item' & roles' & inventory0 & inventory'
                    & Hid' & Huser' & Hitem' & Hroles' & Hinv' & _ & _ & _
                    & Hstars' & Hstock' & Hinv'' & Hlines).
  cbv zeta in *. simplify_eq. fold q p in Hstars', Hstock'.
  eexists _, inventory'. split; [exact Hbuy|].
  subst id. split_and!; try done.
  - nia.
  - intros. nia.
  - intros Hfin. destruct (Z.eqb_spec (Item.stock item) (-1)); [done|].
    split_and!; [done | lia | lia].
  - rewrite Hlines. apply line_quantity_upsert.
  - intros Hnone. rewrite Hlines, line_quantity_upsert, Hnone.
    simpl. split; [f_equal; lia | lia].
Qed.

(** Alice asks for minus three swords on a Wednesday: she receives 300
    stars, the stock grows from 5 to 8, and her inventory gets a line with
    the quantity -3. *)
Lemma buy_accepts_nonpositive_quantity_witness :
  ∃ d' inventory',
    buy Sample.wednesday (Sample.alice_buys_swords (-3)) Sample.database =
      (Json (BoughtBody (-3) "sword" (-300)), d') ∧
    stars_of "uuid-alice" (Some "111") d' = Some 500 ∧
    stock_of "sword" d' = Some 8 ∧
    inventory_of "111" d' = Some inventory' ∧
    line_quantity "i1" (Inventory.items inventory') = Some (-3).
Proof.
  destruct (buy_accepts_nonpositive_quantity Sample.wednesday (Sample.alice_buys_swords (-3))
              Sample.database "111" Sample.alice Sample.sword [] Sample.bag)
    as (d' & inventory' & Hbuy & Hstars & _ & _ & Hstock & Hinv & Hline & Hnew);
    try (vm_compute; done).
  - right. vm_compute. discriminate.
  - exists d', inventory'.
    destruct Hstock as (Hstock & _); [vm_compute; discriminate|].
    destruct Hnew as (Hnew & _); [vm_compute; reflexivity|].
    split_and!; [exact Hbuy | exact Hstars | exact Hstock | exact Hinv | exact Hnew].
Defined.

(** A quantity of zero: a line with the quantity 0 is created for the
    swords, and the line of the potions keeps its quantity. *)
Example buy_quantity_zero :
  ∃ d1 d2 inventory1 inventory2,
    buy Sample.wednesday (Sample.alice_buys_swords 0) Sample.database =
      (Json (BoughtBody 0 "sword" 0), d1) ∧
    inventory_of "111" d1 = Some inventory1 ∧
    line_quantity "i1" (Inventory.items Sample.bag) = None ∧
    line_quantity "i1" (Inventory.items inventory1) = Some 0 ∧
    buy Sample.wednesday (Sample.alice_buys_potions 0) Sample.database =
      (Json (BoughtBody 0 "potion" 0), d2) ∧
    inventory_of "111" d2 = Some inventory2 ∧
    line_quantity "i2" (Inventory.items inventory2) = Some 2.
Proof. eexists _, _, _, _. vm_compute. done. Qed.


(** ** Discounts *)

(** C3.  The percentage is 0, plus 5 on a Saturday or a Sunday, plus 20
    with the discount role; the price charged is the product of the price
    and of one minus that percentage, rounded once to the nearest integer
    with a half going up.  100 becomes 75 on a Saturday with the role and
    stays 100 on a weekday without it; 33 becomes 31 on a weekend without
    the role. *)
Theorem discount_is_additive_and_applied_once (price today : Z) (roles : list string) :
  let weekend := bool_decide (today = 6 ∨ today = 0) in
  let has_role := bool_decide (DISCOUNT_ROLE ∈ roles) in
  let totalPercent := (if weekend then 5 else 0) + (if has_role then 20 else 0) in
  let finalPrice := Discount.discountedPrice price today roles in
  let exact := (inject_Z price * (1 - inject_Z totalPercent / 100))%Q in
  Discount.discountPercentage today roles = totalPercent ∧
  (inject_Z finalPrice - (1 # 2) <= exact)%Q ∧
  (exact < inject_Z finalPrice + (1 # 2))%Q ∧
  finalPrice = (price * (100 - totalPercent) + 50) / 100 ∧
  Discount.discountedPrice 100 6 [DISCOUNT_ROLE] = 75 ∧
  Discount.discountedPrice 100 3 [] = 100 ∧
  Discount.discountedPrice 33 6 [] = 31 ∧
  Discount.discountedPrice 33 0 [] = 31.
Proof.
  intros weekend has_role totalPercent finalPrice exact.
  assert (Hpct : Discount.discountPercentage today roles = totalPercent).
  { subst totalPercent weekend has_role.
    unfold Discount.discountPercentage, Discount.isDiscountDay,
      Discount.hasPermanentDiscountRole.
    rewrite includes_decide.
    destruct (bool_decide (DISCOUNT_ROLE ∈ roles));
      repeat case_bool_decide; destruct (Z.eqb_spec today 0), (Z.eqb_spec today 6);
      simpl; lia. }
  split_and!; try (vm_compute; reflexivity).
  - exact Hpct.
  - subst exact finalPrice. rewrite <- Hpct. apply Math_round_bracket.
  - subst exact finalPrice. rewrite <- Hpct. apply Math_round_bracket.
  - subst finalPrice. rewrite <- Hpct. apply discountedPrice_div.
Qed.

(** The price shown by the shop view, in integer arithmetic: each discount
    is applied and rounded on its own. *)
Lemma shop_view_price_div (price getDay : Z) (roles : list string) :
  ShopView.discountedPrice price getDay roles =
    let after_role :=
      if ShopView.hasDiscountRole roles then (price * 80 + 50) / 100 else price in
    if ShopView.isWeekend getDay then (after_role * 95 + 50) / 100 else after_role.
Proof.
  unfold ShopView.discountedPrice. cbv zeta.
  assert (H80 : ∀ x, Math_round (inject_Z x * (1 - 20 / 100))%Q = (x * 80 + 50) / 100).
  { intros x. apply Math_round_hundredths.
    unfold Qeq, Qmult, Qminus, Qplus, Qopp, Qdiv, Qinv, inject_Z. simpl. lia. }
  assert (H95 : ∀ x, Math_round (inject_Z x * (1 - (5 # 100)))%Q = (x * 95 + 50) / 100).
  { intros x. apply Math_round_hundredths.
    unfold Qeq, Qmult, Qminus, Qplus, Qopp, inject_Z. simpl. lia. }
  destruct (ShopView.hasDiscountRole roles), (ShopView.isWeekend getDay);
    rewrite ?H95, ?H80; reflexivity.
Qed.

(** With at most one of the two discounts, the shop view shows the price
    that the purchase charges. *)
Lemma shop_view_price_single_discount (price day : Z) (roles : list string) :
  ShopView.isWeekend day && ShopView.hasDiscountRole roles = false →
  ShopView.discountedPrice price day roles = Discount.discountedPrice price day roles.
Proof.
  intros H. rewrite shop_view_price_div, discountedPrice_div. cbv zeta.
  unfold Discount.discountPercentage, Discount.isDiscountDay,
    Discount.hasPermanentDiscountRole.
  unfold ShopView.isWeekend, ShopView.hasDiscountRole in *.
  rewrite (orb_comm (day =? 0)).
  destruct (includes roles DISCOUNT_ROLE), ((day =? 6) || (day =? 0)); simpl in *;
    try discriminate; f_equal; try lia.
  apply Z.div_unique with (r := 50); lia.
Qed.

(** C4.  On a Saturday, for a holder of the discount role, the shop view
    shows 76 stars for an item of 100 stars, and the purchase charges 75:
    the view rounds after each of the two discounts, the purchase adds the
    percentages and rounds once. *)
Theorem shop_view_price_differs_from_price_charged :
  ShopView.discountedPrice 100 6 [DISCOUNT_ROLE] = 76 ∧
  Discount.discountedPrice 100 6 [DISCOUNT_ROLE] = 75 ∧
  ShopView.isWeekend 6 = Discount.isDiscountDay 6 ∧
  ShopView.hasDiscountRole [DISCOUNT_ROLE] = Discount.hasPermanentDiscountRole [DISCOUNT_ROLE].
Proof. vm_compute. done. Qed.

(** ** Profiles: ranks and achievements *)

(** A profile that is not served from the cache is computed from the
    stored statistics and cached for 300 seconds. *)
Lemma get_profile_miss_inv (w : World) (uuid : string) (s s' : Server) (body : Body) :
  cache_get (now w) ("profile_" ++ uuid) (cache s) = None →
  get_profile w uuid s = (Json body, s') →
  ∃ userStats roles,
    findOne (fun u => String.eqb (CommandStats.uuid u) uuid) (users (db s)) = Some userStats ∧
    body = ProfileBody
             (ProfileData.mk userStats
                (rank CommandStats.totalMessages userStats (users (db s)))
                (rank CommandStats.messagesToday userStats (users (db s)))
                (rank CommandStats.messagesLast7Days userStats (users (db s)))
                (rank CommandStats.messagesLast30Days userStats (users (db s)))
                roles (userAchievements userStats)) ∧
    db s' = db s ∧
    cache s' = cache_set (now w) ("profile_" ++ uuid) body 300 (cache s).
Proof.
  destruct s as [d c g]. simpl. intros Hmiss.
  unfold_get. rewrite Hmiss. intros H.
  repeat (case_match; simplify_eq/=); eauto 10.
Qed.

(** A profile found in the cache is served as it is, and nothing changes. *)
Lemma get_profile_hit (w : World) (uuid : string) (s : Server) (body : Body) :
  cache_get (now w) ("profile_" ++ uuid) (cache s) = Some body →
  get_profile w uuid s = (Json body, s).
Proof.
  destruct s as [d c g]. simpl. intros Hhit.
  unfold_get. by rewrite Hhit.
Qed.

Lemma get_achievements_hit (w : World) (uuid : string) (s : Server) (body : Body) :
  cache_get (now w) ("achievements_" ++ uuid) (cache s) = Some body →
  get_achievements w uuid s = (Json body, s).
Proof.
  destruct s as [d c g]. simpl. intros Hhit.
  unfold_get. by rewrite Hhit.
Qed.

Lemma get_achievements_miss_inv (w : World) (uuid : string) (s s' : Server) (body : Body) :
  cache_get (now w) ("achievements_" ++ uuid) (cache s) = None →
  get_achievements w uuid s = (Json body, s') →
  ∃ userStats,
    findOne (fun u => String.eqb (CommandStats.uuid u) uuid) (users (db s)) = Some userStats ∧
    body = AchievementsBody (userAchievements userStats).
Proof.
  destruct s as [d c g]. simpl. intros Hmiss.
  unfold_get. rewrite Hmiss. intros H.
  repeat (case_match; simplify_eq/=); eauto.
Qed.

Lemma countDocuments_gt (m : Metric) (userStats : CommandStats.t)
    (coll : list CommandStats.t) :
  countDocuments (gt (metric_field m) (metric_field m userStats)) coll =
    strictly_greater m userStats coll.
Proof.
  unfold countDocuments, strictly_greater. f_equal.
  induction coll as [|u coll IH]; [done|].
  rewrite filter_cons. simpl. unfold gt at 1.
  destruct (Z.ltb_spec (metric_field m userStats) (metric_field m u)).
  - rewrite decide_True by done. simpl. by rewrite IH.
  - rewrite decide_False by lia. done.
Qed.

(** C5.  For each of the four leaderboards, the rank is one more than the
    number of users whose value is strictly greater, and these are the
    ranks a computed profile carries.  Users with 10, 10 and 5 messages get
    the ranks 1, 1 and 3: the tie shares rank 1 and nobody has rank 2. *)
Theorem rank_counts_strictly_greater :
  (∀ (m : Metric) (userStats : CommandStats.t) (coll : list CommandStats.t),
     rank (metric_field m) userStats coll = 1 + strictly_greater m userStats coll) ∧
  (∀ (w : World) (uuid : string) (s s' : Server) (p : ProfileData.t) (m : Metric),
     cache_get (now w) ("profile_" ++ uuid) (cache s) = None →
     get_profile w uuid s = (Json (ProfileBody p), s') →
     profile_rank m p = 1 + strictly_greater m (ProfileData.userStats p) (users (db s))) ∧
  map CommandStats.totalMessages [Sample.alice; Sample.bob; Sample.carol] = [10; 10; 5] ∧
  map (fun u => rank CommandStats.totalMessages u [Sample.alice; Sample.bob; Sample.carol])
      [Sample.alice; Sample.bob; Sample.carol] = [1; 1; 3].
Proof.
  assert (Hrank : ∀ m userStats coll,
            rank (metric_field m) userStats coll = 1 + strictly_greater m userStats coll).
  { intros m userStats coll. unfold rank. rewrite countDocuments_gt. lia. }
  split_and!; [exact Hrank | | reflexivity | vm_compute; reflexivity].
  intros w uuid s s' p m Hmiss Hget.
  apply get_profile_miss_inv in Hget as (userStats & roles & _ & Hbody & _); [|done].
  simplify_eq. rewrite <- Hrank. by destruct m.
Qed.

(** Carol's profile on the sample server: two users have more messages. *)
Lemma rank_counts_strictly_greater_witness :
  ∃ p s',
    cache_get (now Sample.saturday) ("profile_" ++ "uuid-carol") (cache Sample.server) = None ∧
    get_profile Sample.saturday "uuid-carol" Sample.server = (Json (ProfileBody p), s') ∧
    profile_rank AllTime p = 3.
Proof.
  eassert (Hget : get_profile Sample.saturday "uuid-carol" Sample.server =
                  (Json (ProfileBody _), _)) by (vm_compute; reflexivity).
  assert (Hmiss : cache_get (now Sample.saturday) ("profile_" ++ "uuid-carol")
                            (cache Sample.server) = None) by (vm_compute; reflexivity).
  eexists _, _. split_and!; [exact Hmiss | exact Hget |].
  destruct rank_counts_strictly_greater as (_ & Hprofile & _).
  etrans; [exact (Hprofile _ _ _ _ _ AllTime Hmiss Hget)|].
  vm_compute. reflexivity.
Defined.


Lemma userAchievement_fields (userStats : CommandStats.t) (d : AchievementDefinition.t) :
  UserAchievement.name (userAchievement userStats d) = AchievementDefinition.name d ∧
  UserAchievement.description (userAchievement userStats d) =
    AchievementDefinition.description d ∧
  UserAchievement.target (userAchievement userStats d) = AchievementDefinition.target d.
Proof.
  unfold userAchievement.
  destruct (AchievementDefinition.name d =? "message_master")%string;
    [|destruct (AchievementDefinition.name d =? "voice_time_10s")%string]; done.
Qed.

Lemma userAchievement_completed (userStats : CommandStats.t) (d : AchievementDefinition.t) :
  UserAchievement.completed (userAchievement userStats d) = true ↔
  persisted_completed userStats (AchievementDefinition.name d).
Proof.
  assert (H : UserAchievement.completed (userAchievement userStats d) =
              existsb (fun a => String.eqb (Achievement.name a) (AchievementDefinition.name d)
                                && Achievement.completed a)
                      (CommandStats.achievements userStats)).
  { unfold userAchievement.
    destruct (AchievementDefinition.name d =? "message_master")%string;
      [|destruct (AchievementDefinition.name d =? "voice_time_10s")%string]; done. }
  rewrite H, existsb_exists. unfold persisted_completed.
  split.
  - intros (a & Hin & Ha). apply andb_true_iff in Ha as [Hn Hc].
    apply String.eqb_eq in Hn. exists a. by rewrite list_elem_of_In.
  - intros (a & Hin & Hn & Hc). exists a. rewrite <- list_elem_of_In.
    split; [done|]. rewrite Hc, andb_true_r. by apply String.eqb_eq.
Qed.

(** C6.  The evaluator gives one entry per definition of the catalog, in
    the order of the catalog: the progress is the messages of today for
    message_master, the whole seconds of the voice time for voice_time_10s
    and 0 for the two others, and an entry is completed exactly when a
    persisted record of the same name has its flag set.  Both handlers
    answer with this list.  With 5000 ms of voice time the progress is 5
    and the completion is the persisted flag; 1000 messages today against a
    target of 500 do not complete message_master. *)
Theorem achievements_follow_catalog_and_persisted_flags :
  (∀ userStats : CommandStats.t,
     let out := userAchievements userStats in
     map UserAchievement.name out =
       ["message_master"; "voice_champion"; "lovebird"; "voice_time_10s"] ∧
     Forall2 (fun d ua =>
                UserAchievement.name ua = AchievementDefinition.name d ∧
                UserAchievement.description ua = AchievementDefinition.description d ∧
                UserAchievement.target ua = AchievementDefinition.target d)
             achievements out ∧
     (∃ seconds,
        1000 * seconds ≤ CommandStats.voiceTime userStats < 1000 * seconds + 1000 ∧
        map UserAchievement.progress out =
          [CommandStats.messagesToday userStats; 0; 0; seconds]) ∧
     Forall (fun ua => UserAchievement.completed ua = true ↔
                       persisted_completed userStats (UserAchievement.name ua)) out) ∧
  (∀ (w : World) (uuid : string) (s s' : Server) (body : Body),
     cache_get (now w) ("achievements_" ++ uuid) (cache s) = None →
     get_achievements w uuid s = (Json body, s') →
     ∃ userStats,
       findOne (fun u => String.eqb (CommandStats.uuid u) uuid) (users (db s)) = Some userStats ∧
       body = AchievementsBody (userAchievements userStats)) ∧
  (∀ (w : World) (uuid : string) (s s' : Server) (p : ProfileData.t),
     cache_get (now w) ("profile_" ++ uuid) (cache s) = None →
     get_profile w uuid s = (Json (ProfileBody p), s') →
     ProfileData.achievements p = userAchievements (ProfileData.userStats p)) ∧
  (∀ flag : bool,
     let out := userAchievements (Sample.talker flag) in
     CommandStats.voiceTime (Sample.talker flag) = 5000 ∧
     UserAchievement.progress <$> out !! 3%nat = Some 5 ∧
     UserAchievement.completed <$> out !! 3%nat = Some flag ∧
     CommandStats.messagesToday (Sample.talker flag) = 1000 ∧
     UserAchievement.target <$> out !! 0%nat = Some (Some 500) ∧
     UserAchievement.progress <$> out !! 0%nat = Some 1000 ∧
     UserAchievement.completed <$> out !! 0%nat = Some false).
Proof.
  split_and!.
  - intros userStats out. subst out. unfold userAchievements, achievements.
    split_and!.
    + reflexivity.
    + simpl. repeat constructor.
    + exists (CommandStats.voiceTime userStats / 1000). split; [|reflexivity].
      pose proof (Z.div_mod (CommandStats.voiceTime userStats) 1000).
      pose proof (Z.mod_pos_bound (CommandStats.voiceTime userStats) 1000). lia.
    + simpl. repeat constructor; apply (userAchievement_completed userStats).
  - intros w uuid s s' body Hmiss Hget.
    by eapply get_achievements_miss_inv.
  - intros w uuid s s' p Hmiss Hget.
    apply get_profile_miss_inv in Hget as (userStats & roles & _ & Hbody & _); [|done].
    by simplify_eq.
  - intros flag. vm_compute. by destruct flag.
Qed.

(** Alice's achievements on the sample server. *)
Lemma achievements_follow_catalog_and_persisted_flags_witness :
  ∃ body s',
    cache_get (now Sample.saturday) ("achievements_" ++ "uuid-alice") (cache Sample.server) = None ∧
    get_achievements Sample.saturday "uuid-alice" Sample.server = (Json body, s') ∧
    body = AchievementsBody (userAchievements Sample.alice).
Proof.
  eassert (Hget : get_achievements Sample.saturday "uuid-alice" Sample.server =
                  (Json _, _)) by (vm_compute; reflexivity).
  assert (Hmiss : cache_get (now Sample.saturday) ("achievements_" ++ "uuid-alice")
                            (cache Sample.server) = None) by (vm_compute; reflexivity).
  eexists _, _. split_and!; [exact Hmiss | exact Hget |].
  destruct achievements_follow_catalog_and_persisted_flags as (_ & Hach & _).
  destruct (Hach _ _ _ _ _ Hmiss Hget) as (userStats & Hfind & Hbody).
  vm_compute in Hfind. simplify_eq. exact Hbody.
Defined.


(** ** Login *)

Lemma collect_lookup (now : Z) (userRolesIds : list string) (r : string) :
  collect_roleAcquisitionDates now userRolesIds !! r =
    if bool_decide (r ∈ allowedRoleIds ∧ r ∈ userRolesIds) then Some now else None.
Proof.
  unfold collect_roleAcquisitionDates.
  assert (H : ∀ (l : list string) (m : gmap string Z),
            foldl (fun acc allowedRoleId =>
                     if includes userRolesIds allowedRoleId
                     then <[allowedRoleId := now]> acc else acc) m l !! r =
            if bool_decide (r ∈ l ∧ r ∈ userRolesIds) then Some now else m !! r).
  { induction l as [|a l IH]; intros m; simpl; [done|].
    rewrite IH, includes_decide.
    destruct (decide (r ∈ l ∧ r ∈ userRolesIds)) as [H1|H1].
    - rewrite !bool_decide_eq_true_2; [done | | done].
      rewrite elem_of_cons. tauto.
    - rewrite (bool_decide_eq_false_2 _ H1).
      destruct (decide (a ∈ userRolesIds)) as [Ha|Ha];
        [rewrite (bool_decide_eq_true_2 _ Ha) | rewrite (bool_decide_eq_false_2 _ Ha)].
      + destruct (decide (a = r)) as [->|Hne].
        * rewrite lookup_insert_eq, bool_decide_eq_true_2; [done|].
          rewrite elem_of_cons. tauto.
        * rewrite lookup_insert_ne by done.
          rewrite bool_decide_eq_false_2; [done|].
          rewrite elem_of_cons. intros [[Heq|Hr1] Hr2]; [congruence | tauto].
      + rewrite bool_decide_eq_false_2; [done|].
        intros [Hr1 Hr2]. apply elem_of_cons in Hr1 as [->|Hr1]; tauto. }
  rewrite H. by case_bool_decide.
Qed.

(** After a login that succeeds, the recorded dates are the login time for
    each allow-listed role the member holds, and nothing else: the dates
    recorded before play no part. *)
Lemma verify_roleAcquisitionDates (w : World) (profile : DiscordProfile.t)
    (s s' : Server) (user : CommandStats.t) :
  verify w profile s = (Normal user, s') →
  ∃ userRolesIds,
    CommandStats.roleAcquisitionDates user =
      collect_roleAcquisitionDates (now w) userRolesIds ∧
    ∀ r, CommandStats.roleAcquisitionDates user !! r =
           if bool_decide (r ∈ allowedRoleIds ∧ r ∈ userRolesIds)
           then Some (now w) else None.
Proof.
  destruct s as [d c g].
  cbv [verify query fetchUserGuildMember await gets modify throw
       mbind mret action_bind action_ret bind ret db cache userGuildMemberCache].
  intros H.
  repeat (case_match; simplify_eq/=);
    eexists; (split; [reflexivity | intros r; apply collect_lookup]).
Qed.

(** C7.  A moderator whose role was recorded at clock reading 1000 logs in
    again at 2000000, still holding the role: the login succeeds, stores
    the user it returns, and the date recorded for the role is now
    2000000. *)
Theorem login_overwrites_acquisition_date :
  ∃ user' s',
    findOne (login_filter Sample.erin) (users (db Sample.moderators)) = Some Sample.moderator ∧
    CommandStats.roleAcquisitionDates Sample.moderator !! Sample.MODERATOR = Some 1000 ∧
    Sample.MODERATOR ∈ allowedRoleIds ∧
    verify Sample.later Sample.erin Sample.moderators = (Normal user', s') ∧
    findOne (login_filter Sample.erin) (users (db s')) = Some user' ∧
    CommandStats.roleAcquisitionDates user' !! Sample.MODERATOR = Some 2000000.
Proof.
  eexists _, _. split_and!.
  - reflexivity.
  - reflexivity.
  - unfold allowedRoleIds, Sample.MODERATOR. rewrite !elem_of_cons. tauto.
  - vm_compute. reflexivity.
  - vm_compute. reflexivity.
  - vm_compute. reflexivity.
Qed.

(** ** The profile cache across a purchase *)

Lemma post_buy_cache (w : World) (req : BuyRequest.t) (s : Server) :
  cache (post_buy w req s).2 = cache s ∧
  userGuildMemberCache (post_buy w req s).2 = userGuildMemberCache s.
Proof. unfold post_buy. by destruct (buy w req (db s)). Qed.

Lemma post_buy_db (w : World) (req : BuyRequest.t) (s : Server) :
  ((post_buy w req s).1, db (post_buy w req s).2) = buy w req (db s).
Proof. unfold post_buy. by destruct (buy w req (db s)). Qed.

Lemma get_shop_state (w : World) (s : Server) : (get_shop w s).2 = s.
Proof. destruct s as [d c g]. unfold_get. by destruct (fault w FindItems). Qed.

Lemma cache_get_fresh (now0 now2 : Z) (key : string) (body : Body) (c : NodeCache) :
  now2 ≤ now0 + 300 * 1000 →
  cache_get now2 key (cache_set now0 key body 300 c) = Some body.
Proof.
  intros Hle. unfold cache_get, cache_set. rewrite lookup_insert_eq. simpl.
  destruct (Z.ltb_spec (now0 + 300 * 1000) now2); [lia|].
  by rewrite andb_false_r.
Qed.

(** After a purchase that the server accepted, the page of a logged-in
    user drops what it had cached for the profile, asks the server again,
    and keeps the answer; when the server still holds a cached profile,
    that answer is the cached one. *)
Lemma buyItem_refetches_cached_profile (w1 w2 : World) (uuid itemName : string)
    (quantity : Z) (b : Browser.t) (s : Server) (body : Body) :
  Browser.truthy (Browser.userId b) = true →
  ok (post_buy w1 (BuyRequest.mk uuid (Browser.userId b) itemName quantity) s).1 = true →
  cache_get (now w2) ("profile_" ++ uuid) (cache s) = Some body →
  ∀ b' s',
    Browser.buyItem (get_profile w2) (get_shop w2) (post_buy w1)
                    uuid itemName quantity (b, s) = (b', s') →
    Browser.cachedProfileData b' !! uuid = Some (Some body) ∧
    s' = (post_buy w1 (BuyRequest.mk uuid (Browser.userId b) itemName quantity) s).2.
Proof.
  intros Htruthy Hok Hhit b' s'.
  unfold Browser.buyItem. simpl. rewrite Htruthy.
  pose proof (post_buy_cache w1 (BuyRequest.mk uuid (Browser.userId b) itemName quantity) s)
    as [Hcache _].
  destruct (post_buy w1 _ s) as [response s1] eqn:Hbuy. simpl in *.
  rewrite Hok. simpl.
  rewrite lookup_insert_eq. simpl.
  rewrite (get_profile_hit w2 uuid s1 body) by (by rewrite Hcache).
  unfold Browser.displayShopData.
  destruct (uuid =? "")%string.
  - intros [= <- <-]. simpl. by rewrite lookup_insert_eq.
  - unfold Browser.fetchShopData, Browser.fetchProfileData. simpl.
    pose proof (get_shop_state w2 s1) as Hshop.
    destruct (get_shop w2 s1) as [r s2]. simpl in Hshop. subst s2.
    destruct r as [data|status error]; simpl; rewrite ?lookup_insert_eq; simpl;
      intros [= <- <-]; simpl; by rewrite lookup_insert_eq.
Qed.

(** C9.  The purchase handler leaves the cache of the server as it is.  A
    profile (or an achievement list) that the cache still serves is
    answered unchanged after a purchase: in particular a profile computed
    at most 300 seconds before the second request comes back as it was
    computed, whatever the purchase did to the stars.  The page, on its
    side, drops its cached profile and shop data after a purchase and asks
    again, and so ends with the profile of the server cache. *)
Theorem purchase_leaves_server_cache (w1 : World) (req : BuyRequest.t) (s : Server) :
  let s1 := (post_buy w1 req s).2 in
  cache s1 = cache s ∧
  (∀ (w2 : World) (uuid : string) (body : Body),
     cache_get (now w2) ("profile_" ++ uuid) (cache s) = Some body →
     get_profile w2 uuid s1 = (Json body, s1)) ∧
  (∀ (w2 : World) (uuid : string) (body : Body),
     cache_get (now w2) ("achievements_" ++ uuid) (cache s) = Some body →
     get_achievements w2 uuid s1 = (Json body, s1)) ∧
  (∀ (w0 w2 : World) (uuid : string) (s0 : Server) (body : Body),
     cache_get (now w0) ("profile_" ++ uuid) (cache s0) = None →
     get_profile w0 uuid s0 = (Json body, s) →
     now w2 ≤ now w0 + 300 * 1000 →
     get_profile w2 uuid s1 = (Json body, s1)) ∧
  (∀ (w2 : World) (b b' : Browser.t) (s' : Server) (body : Body),
     Browser.truthy (Browser.userId b) = true →
     BuyRequest.userId req = Browser.userId b →
     ok (post_buy w1 req s).1 = true →
     cache_get (now w2) ("profile_" ++ BuyRequest.uuid req) (cache s) = Some body →
     Browser.buyItem (get_profile w2) (get_shop w2) (post_buy w1)
       (BuyRequest.uuid req) (BuyRequest.itemName req) (BuyRequest.quantity req) (b, s)
       = (b', s') →
     Browser.cachedProfileData b' !! BuyRequest.uuid req = Some (Some body) ∧ s' = s1).
Proof.
  intros s1. pose proof (post_buy_cache w1 req s) as [Hcache _]. fold s1 in Hcache.
  split_and!.
  - exact Hcache.
  - intros w2 uuid body Hhit. apply get_profile_hit. by rewrite Hcache.
  - intros w2 uuid body Hhit. apply get_achievements_hit. by rewrite Hcache.
  - intros w0 w2 uuid s0 body Hmiss Hget Hle.
    apply get_profile_miss_inv in Hget as (userStats & roles & _ & _ & _ & Hc); [|done].
    apply get_profile_hit. rewrite Hcache, Hc. by apply cache_get_fresh.
  - intros w2 b b' s' body Htruthy Hid Hok Hhit Hflow.
    destruct req as [uuid userId itemName quantity]. simpl in *. subst userId.
    by eapply buyItem_refetches_cached_profile.
Qed.

(** Alice's profile is requested, she buys two swords, and the profile is
    requested again at the same clock reading: the database has 50 stars,
    the answer still has 200. *)
Lemma purchase_leaves_server_cache_witness :
  ∃ body s s1,
    cache_get (now Sample.saturday) ("profile_" ++ "uuid-alice") (cache Sample.server) = None ∧
    get_profile Sample.saturday "uuid-alice" Sample.server = (Json body, s) ∧
    post_buy Sample.saturday (Sample.alice_buys_swords 2) s =
      (Json (BoughtBody 2 "sword" 150), s1) ∧
    stars_of "uuid-alice" (Some "111") (db s) = Some 200 ∧
    stars_of "uuid-alice" (Some "111") (db s1) = Some 50 ∧
    get_profile Sample.saturday "uuid-alice" s1 = (Json body, s1) ∧
    match body with
    | ProfileBody p => CommandStats.stars (ProfileData.userStats p) = 200
    | _ => False
    end.
Proof.
  eassert (Hget : get_profile Sample.saturday "uuid-alice" Sample.server = (Json _, _))
    by (vm_compute; reflexivity).
  assert (Hmiss : cache_get (now Sample.saturday) ("profile_" ++ "uuid-alice")
                            (cache Sample.server) = None) by (vm_compute; reflexivity).
  match type of Hget with
  | _ = (Json ?body, ?s) =>
      exists body, s, (post_buy Sample.saturday (Sample.alice_buys_swords 2) s).2;
      pose proof (purchase_leaves_server_cache Sample.saturday
                    (Sample.alice_buys_swords 2) s) as Hthm
  end.
  cbv zeta in Hthm. destruct Hthm as (_ & _ & _ & Hfresh & _).
  split_and!; [exact Hmiss | exact Hget | vm_compute; reflexivity | vm_compute; reflexivity
              | vm_compute; reflexivity | | vm_compute; reflexivity].
  apply (Hfresh Sample.saturday Sample.saturday "uuid-alice" Sample.server);
    [exact Hmiss | exact Hget | simpl; lia].
Defined.

(** * Further properties *)

(** ** More on the purchase transaction *)

Lemma length_updateById {A : Type} (id : A → string) (doc : A) (coll : list A) :
  length (updateById id doc coll) = length coll.
Proof.
  induction coll as [|x coll IH]; simpl; [done|].
  destruct (String.eqb (id x) (id doc)); simpl; by rewrite ?IH.
Qed.

Lemma updateById_lookup_ne {A : Type} (id : A → string) (doc x : A)
    (coll : list A) (i : nat) :
  coll !! i = Some x → id x ≠ id doc → updateById id doc coll !! i = Some x.
Proof.
  revert i. induction coll as [|y coll IH]; intros i Hi Hne; simpl; [done|].
  destruct (String.eqb_spec (id y) (id doc)) as [Heq|Hneq].
  - destruct i as [|i]; simpl in *; [|done]. simplify_eq.
  - destruct i as [|i]; simpl in *; [done|]. by apply IH.
Qed.

(** The documents a committed purchase leaves in the database. *)
Lemma buy_Json_docs (w : World) (req : BuyRequest.t) (d d' : Db) (body : Body) :
  buy w req d = (Json body, d') →
  ∃ userId user item roles inventory,
    BuyRequest.userId req = Some userId ∧
    findOne (user_filter (BuyRequest.uuid req) (Some userId)) (users d) = Some user ∧
    findOne (item_filter (BuyRequest.itemName req)) (items d) = Some item ∧
    guildMember w userId = Some roles ∧
    inventory_of userId d = Some inventory ∧
    let q := BuyRequest.quantity req in
    let p := Discount.discountedPrice (Item.price item) (getDay w) roles in
    let item' := if Item.stock item =? -1 then item
                 else Item.set_stock (Item.stock item - q) item in
    (Item.stock item = -1 ∨ q ≤ Item.stock item) ∧
    p * q ≤ CommandStats.stars user ∧
    findOne (user_filter (BuyRequest.uuid req) (Some userId)) (users d') =
      Some (CommandStats.set_stars (CommandStats.stars user - p * q) user) ∧
    findOne (item_filter (BuyRequest.itemName req)) (items d') = Some item' ∧
    inventory_of userId d' =
      Some (Inventory.set_items (upsert_line item q (Inventory.items inventory)) inventory) ∧
    users d' = updateById CommandStats._id
                 (CommandStats.set_stars (CommandStats.stars user - p * q) user) (users d) ∧
    items d' = (if Item.stock item =? -1 then items d
                else updateById Item._id item' (items d)) ∧
    inventories d' =
      updateById Inventory._id
        (Inventory.set_items (upsert_line item q (Inventory.items inventory)) inventory)
        (inventories d).
Proof.
  intros H. apply buy_Json_inv in H.
  destruct H as (userId & user & item & roles & inventory & Hid & Huser & Hitem
                 & Hroles & Hinv & Hstock & Hstars & Hvalid & Hbody & Hd').
  cbv zeta in *.
  assert (Hup : upsert_line
                  (if Item.stock item =? -1 then item
                   else Item.set_stock (Item.stock item - BuyRequest.quantity req) item)
                  (BuyRequest.quantity req) (Inventory.items inventory) =
                upsert_line item (BuyRequest.quantity req) (Inventory.items inventory))
    by (by destruct (Item.stock item =? -1)).
  rewrite Hup in Hd'.
  exists userId, user, item, roles, inventory. subst d'. simpl.
  split_and!; try done.
  - erewrite findOne_updateById; [reflexivity | eassumption | reflexivity |].
    by apply findOne_true in Huser.
  - destruct (Z.eqb_spec (Item.stock item) (-1)) as [Hs|Hs]; [done|].
    erewrite findOne_updateById; [reflexivity | eassumption | reflexivity |].
    by apply findOne_true in Hitem.
  - unfold inventory_of. simpl.
    erewrite findOne_updateById; [reflexivity | eassumption | reflexivity |].
    by apply findOne_true in Hinv.
Qed.

(** X1.  A committed purchase rewrites at most three documents: the
    buyer's statistics, the item and the buyer's inventory.  The three
    collections keep their length, and every document with another [_id]
    stays where it was, as it was. *)
Theorem buy_touches_three_documents (w : World) (req : BuyRequest.t) (d d' : Db)
    (body : Body) :
  buy w req d = (Json body, d') →
  ∃ userId user item inventory,
    BuyRequest.userId req = Some userId ∧
    findOne (user_filter (BuyRequest.uuid req) (Some userId)) (users d) = Some user ∧
    findOne (item_filter (BuyRequest.itemName req)) (items d) = Some item ∧
    inventory_of userId d = Some inventory ∧
    length (users d') = length (users d) ∧
    length (items d') = length (items d) ∧
    length (inventories d') = length (inventories d) ∧
    (∀ i u, users d !! i = Some u → CommandStats._id u ≠ CommandStats._id user →
            users d' !! i = Some u) ∧
    (∀ i x, items d !! i = Some x → Item._id x ≠ Item._id item →
            items d' !! i = Some x) ∧
    (∀ i v, inventories d !! i = Some v → Inventory._id v ≠ Inventory._id inventory →
            inventories d' !! i = Some v).
Proof.
  intros H. apply buy_Json_docs in H.
  destruct H as (userId & user & item & roles & inventory & Hid & Huser & Hitem & _
                 & Hinv & _ & _ & _ & _ & _ & Hus & Hit & Hin).
  cbv zeta in *.
  exists userId, user, item, inventory. rewrite Hus, Hit, Hin.
  split_and!; try done.
  - apply length_updateById.
  - destruct (Item.stock item =? -1); [done | apply length_updateById].
  - apply length_updateById.
  - intros i u Hi Hne. by apply updateById_lookup_ne.
  - intros i x Hi Hne. destruct (Item.stock item =? -1) eqn:Hs; [done|].
    by apply updateById_lookup_ne.
  - intros i v Hi Hne. by apply updateById_lookup_ne.
Qed.

Lemma buy_touches_three_documents_witness :
  ∃ d', buy Sample.saturday (Sample.alice_buys_swords 2) Sample.database =
          (Json (BoughtBody 2 "sword" 150), d') ∧
        users d' !! 1%nat = Some Sample.bob ∧
        items d' !! 1%nat = Some Sample.potion ∧
        length (users d') = 3%nat.
Proof.
  exists (buy Sample.saturday (Sample.alice_buys_swords 2) Sample.database).2.
  assert (H : buy Sample.saturday (Sample.alice_buys_swords 2) Sample.database =
              (Json (BoughtBody 2 "sword" 150),
               (buy Sample.saturday (Sample.alice_buys_swords 2) Sample.database).2))
    by (vm_compute; reflexivity).
  destruct (buy_touches_three_documents _ _ _ _ _ H)
    as (userId & user & item & inventory & Hid & Huser & Hitem & Hinv & Hlu & _ & _
        & Hus & Hit & _).
  vm_compute in Hid, Huser, Hitem. simplify_eq.
  split_and!; [exact H | | | ].
  - apply Hus; [reflexivity | vm_compute; discriminate].
  - apply Hit; [reflexivity | vm_compute; discriminate].
  - etrans; [exact Hlu | reflexivity].
Defined.

Lemma map_itemId_alter (q : Z) (i : nat) (lines : list Inventory.line) :
  map Inventory.itemId (alter (Inventory.add_quantity q) i lines) =
    map Inventory.itemId lines.
Proof.
  revert i. induction lines as [|l lines IH]; intros [|i]; simpl; try done.
  f_equal. apply IH.
Qed.

Lemma line_quantity_None (itemId : string) (lines : list Inventory.line) :
  line_quantity itemId lines = None ↔ itemId ∉ map Inventory.itemId lines.
Proof.
  unfold line_quantity. rewrite fmap_None.
  induction lines as [|l lines IH]; simpl.
  - split; [intros _; apply not_elem_of_nil | done].
  - rewrite not_elem_of_cons.
    destruct (String.eqb_spec (Inventory.itemId l) itemId) as [Heq|Hne].
    + split; [done | intros [Hne _]; congruence].
    + rewrite IH. split; [intros H; split; [congruence | done] | tauto].
Qed.

(** The item identifiers on the lines after the upsert: those before, and
    the item's. *)
Lemma upsert_line_ids (item : Item.t) (q : Z) (lines : list Inventory.line) :
  map Inventory.itemId (upsert_line item q lines) =
    if bool_decide (Item._id item ∈ map Inventory.itemId lines)
    then map Inventory.itemId lines
    else (map Inventory.itemId lines ++ [Item._id item])%list.
Proof.
  unfold upsert_line.
  destruct (findIndex _ lines) as [i|] eqn:Hi.
  - rewrite map_itemId_alter. rewrite bool_decide_eq_true_2; [done|].
    destruct (decide (Item._id item ∈ map Inventory.itemId lines)) as [|Hn]; [done|].
    apply line_quantity_None, fmap_None, findIndex_None_find in Hn. congruence.
  - apply findIndex_None_find in Hi.
    rewrite bool_decide_eq_false_2.
    + by rewrite map_app.
    + apply line_quantity_None. unfold line_quantity. by rewrite Hi.
Qed.

(** X2.  An inventory with at most one line per item keeps that shape
    through a committed purchase, and the items on its lines afterwards are
    those before together with the item bought. *)
Theorem buy_keeps_one_line_per_item (w : World) (req : BuyRequest.t) (d d' : Db)
    (body : Body) (userId : string) (inventory : Inventory.t) :
  buy w req d = (Json body, d') →
  BuyRequest.userId req = Some userId →
  inventory_of userId d = Some inventory →
  NoDup (map Inventory.itemId (Inventory.items inventory)) →
  ∃ item inventory',
    findOne (item_filter (BuyRequest.itemName req)) (items d) = Some item ∧
    inventory_of userId d' = Some inventory' ∧
    NoDup (map Inventory.itemId (Inventory.items inventory')) ∧
    ∀ itemId, itemId ∈ map Inventory.itemId (Inventory.items inventory') ↔
              itemId ∈ map Inventory.itemId (Inventory.items inventory) ∨
              itemId = Item._id item.
Proof.
  intros H Hid Hinv Hnodup. apply buy_Json_docs in H.
  destruct H as (userId' & user & item & roles & inventory0 & Hid' & _ & Hitem & _
                 & Hinv0 & _ & _ & _ & _ & Hinv' & _).
  cbv zeta in *. simplify_eq.
  eexists item, _. split_and!; [done | exact Hinv' | |]; simpl; rewrite upsert_line_ids.
  - case_bool_decide as Hin; [done|].
    apply NoDup_app. split_and!; [done | | apply NoDup_singleton].
    intros x Hx Hx'. apply list_elem_of_singleton in Hx'. by subst x.
  - intros itemId. case_bool_decide as Hin.
    + split; [by left | intros [H| ->]; done].
    + rewrite elem_of_app, list_elem_of_singleton. done.
Qed.

Lemma buy_keeps_one_line_per_item_witness :
  ∃ d' inventory',
    buy Sample.saturday (Sample.alice_buys_swords 2) Sample.database =
      (Json (BoughtBody 2 "sword" 150), d') ∧
    inventory_of "111" d' = Some inventory' ∧
    NoDup (map Inventory.itemId (Inventory.items inventory')).
Proof.
  exists (buy Sample.saturday (Sample.alice_buys_swords 2) Sample.database).2.
  assert (H : buy Sample.saturday (Sample.alice_buys_swords 2) Sample.database =
              (Json (BoughtBody 2 "sword" 150),
               (buy Sample.saturday (Sample.alice_buys_swords 2) Sample.database).2))
    by (vm_compute; reflexivity).
  destruct (buy_keeps_one_line_per_item _ _ _ _ _ "111" Sample.bag H)
    as (item & inventory' & _ & Hinv' & Hnodup & _); [reflexivity | reflexivity | |].
  - simpl. apply NoDup_singleton.
  - exists inventory'. split_and!; [exact H | exact Hinv' | exact Hnodup].
Defined.

(** X3.  Two committed purchases of the same item by the same user, one
    after the other under the same day and roles, both asked for with a
    number, have together the effect of one purchase of the two
    quantities, as long as the numbers of the two purchases are whole
    numbers that JavaScript computes with exactly: the stars paid, the
    stock taken and the quantity on the line add up. *)
Theorem two_purchases_add_up (w : World) (body1 body2 : BuyBody.t) (q1 q2 : Z)
    (d d1 d2 : Db) (answer1 answer2 : Body) :
  BuyBody.uuid body2 = BuyBody.uuid body1 →
  BuyBody.userId body2 = BuyBody.userId body1 →
  BuyBody.itemName body2 = BuyBody.itemName body1 →
  BuyBody.quantity body1 = Quantity.Number q1 →
  BuyBody.quantity body2 = Quantity.Number q2 →
  buy_untyped w body1 d = (Json answer1, d1) →
  buy_untyped w body2 d1 = (Json answer2, d2) →
  ∃ userId roles item stars_before inventory inventory2,
    BuyBody.userId body1 = Some userId ∧
    guildMember w userId = Some roles ∧
    findOne (item_filter (BuyBody.itemName body1)) (items d) = Some item ∧
    stars_of (BuyBody.uuid body1) (Some userId) d = Some stars_before ∧
    inventory_of userId d = Some inventory ∧
    inventory_of userId d2 = Some inventory2 ∧
    let q := q1 + q2 in
    let p := Discount.discountedPrice (Item.price item) (getDay w) roles in
    let stock := Item.stock item in
    let line_before :=
      default 0 (line_quantity (Item._id item) (Inventory.items inventory)) in
    exact (purchase_amounts stars_before (Item.price item) p stock line_before q1) →
    exact (purchase_amounts (stars_before - p * q1) (Item.price item) p
                            (if stock =? -1 then stock else stock - q1)
                            (line_before + q1) q2) →
    stars_of (BuyBody.uuid body1) (Some userId) d2 = Some (stars_before - p * q) ∧
    stock_of (BuyBody.itemName body1) d2 =
      Some (if stock =? -1 then -1 else stock - q) ∧
    line_quantity (Item._id item) (Inventory.items inventory2) = Some (line_before + q).
Proof.
  destruct body1 as [uuid userId0 itemName quantity1].
  destruct body2 as [uuid2 userId2 itemName2 quantity2]. simpl.
  intros -> -> -> -> -> H1 H2. rewrite buy_untyped_Number in H1, H2.
  apply buy_Json_docs in H1. simpl in H1.
  destruct H1 as (userId & user & item & roles & inventory & Hid & Huser & Hitem & Hroles
                  & Hinv & Hstock & _ & Huser1 & Hitem1 & Hinv1 & _).
  apply buy_Json_effects in H2. simpl in H2.
  destruct H2 as (userId' & user2 & item2 & roles2 & inventory1 & inventory2 & Hid2
                  & Huser2 & Hitem2 & Hroles2 & Hinv2 & _ & _ & _ & Hstars2 & Hstock2
                  & Hinv2' & Hlines2).
  cbv zeta in *.
  rewrite Hid in Hid2. injection Hid2 as <-.
  rewrite Hroles in Hroles2. injection Hroles2 as <-.
  rewrite Huser1 in Huser2. injection Huser2 as <-.
  rewrite Hitem1 in Hitem2. injection Hitem2 as <-.
  rewrite Hinv1 in Hinv2. injection Hinv2 as <-.
  exists userId, roles, item, (CommandStats.stars user), inventory, inventory2.
  assert (Hprice : Item.price (if Item.stock item =? -1 then item
                               else Item.set_stock (Item.stock item - q1) item)
                   = Item.price item) by (by destruct (Item.stock item =? -1)).
  rewrite Hprice in Hstars2.
  split_and!; try done.
  - unfold stars_of. by rewrite Huser.
  - intros _ _. split_and!.
    + rewrite Hstars2. simpl. f_equal. lia.
    + rewrite Hstock2.
      destruct (Z.eqb_spec (Item.stock item) (-1)) as [Hs|Hs].
      * by rewrite Hs.
      * simpl. destruct (Z.eqb_spec (Item.stock item - q1) (-1)); [lia | f_equal; lia].
    + rewrite Hlines2. simpl.
      assert (Hup : ∀ it q l, Item._id it = Item._id item →
                line_quantity (Item._id item) (upsert_line it q l) =
                Some (default 0 (line_quantity (Item._id item) l) + q)).
      { intros it q l Heq. rewrite <- Heq. apply line_quantity_upsert. }
      rewrite Hup by (by destruct (Item.stock item =? -1)).
      rewrite line_quantity_upsert. simpl. f_equal. lia.
Qed.

Lemma two_purchases_add_up_witness :
  ∃ d1 d2,
    buy_untyped Sample.wednesday
      (BuyBody.mk "uuid-alice" (Some "111") "sword" (Quantity.Number 1)) Sample.database =
      (Json (BoughtBody 1 "sword" 100), d1) ∧
    buy_untyped Sample.wednesday
      (BuyBody.mk "uuid-alice" (Some "111") "sword" (Quantity.Number 1)) d1 =
      (Json (BoughtBody 1 "sword" 100), d2) ∧
    exact (purchase_amounts 200 100 100 5 0 1) ∧
    exact (purchase_amounts 100 100 100 4 1 1) ∧
    stars_of "uuid-alice" (Some "111") d2 = Some 0 ∧
    stock_of "sword" d2 = Some 3.
Proof.
  set (body := BuyBody.mk "uuid-alice" (Some "111") "sword" (Quantity.Number 1)).
  eassert (H1 : buy_untyped Sample.wednesday body Sample.database =
                (Json (BoughtBody 1 "sword" 100), _)) by (vm_compute; reflexivity).
  match type of H1 with
  | _ = (_, ?d1) =>
      eassert (H2 : buy_untyped Sample.wednesday body d1 =
                    (Json (BoughtBody 1 "sword" 100), _)) by (vm_compute; reflexivity)
  end.
  assert (Hexact1 : exact (purchase_amounts 200 100 100 5 0 1)) by (repeat constructor).
  assert (Hexact2 : exact (purchase_amounts 100 100 100 4 1 1)) by (repeat constructor).
  eexists _, _. split_and!; [exact H1 | exact H2 | exact Hexact1 | exact Hexact2 | |];
  destruct (two_purchases_add_up Sample.wednesday body body 1 1 _ _ _ _ _
              eq_refl eq_refl eq_refl eq_refl eq_refl H1 H2)
    as (userId & roles & item & stars_before & inventory & inventory2 & Hid & Hroles
        & Hitem & Hbefore & Hinv & _ & Heffects);
  vm_compute in Hid, Hitem, Hbefore, Hinv; simplify_eq; vm_compute in Hroles; simplify_eq;
  destruct (Heffects Hexact1 Hexact2) as (Hstars & Hstock & _).
  - etrans; [exact Hstars|]. vm_compute. reflexivity.
  - etrans; [exact Hstock|]. vm_compute. reflexivity.
Defined.

(** X4.  Once the user and the item are found, the answer is "not enough
    stock" exactly when the stock is finite and below the quantity: this is
    decided before the member is fetched and before the balance is looked
    at, and an unlimited stock never gives this answer. *)
Theorem buy_stock_guard_decides_first (w : World) (req : BuyRequest.t) (d : Db)
    (userId : string) (user : CommandStats.t) (item : Item.t) :
  fault w FindUser = false →
  fault w FindItem = false →
  BuyRequest.userId req = Some userId →
  findOne (user_filter (BuyRequest.uuid req) (Some userId)) (users d) = Some user →
  findOne (item_filter (BuyRequest.itemName req)) (items d) = Some item →
  (buy w req d).1 = Error 400 "Недостаточно товара в наличии" ↔
  Item.stock item ≠ -1 ∧ Item.stock item < BuyRequest.quantity req.
Proof.
  intros Hf1 Hf2 Hid Huser Hitem. destruct d as [us its invs]. simpl in *.
  unfold_buy. rewrite Hf1, Hf2, Hid, Huser, Hitem.
  destruct (Z.eqb_spec (Item.stock item) (-1)) as [Hs|Hs];
    destruct (Z.ltb_spec (Item.stock item) (BuyRequest.quantity req)) as [Hlt|Hge]; simpl.
  all: split; [intros H | intros [H1 H2]]; try lia; try done.
  all: repeat (case_match; simplify_eq/=); done.
Qed.

Lemma buy_stock_guard_decides_first_witness :
  (buy (mkWorld 1000000 6 (fun _ => None) (fun _ => None) (fun _ => false) "v9" Sample.blank)
       (BuyRequest.mk "uuid-carol" (Some "333") "sword" 6) Sample.database).1 =
    Error 400 "Недостаточно товара в наличии".
Proof.
  apply (buy_stock_guard_decides_first _ _ _ "333" Sample.carol Sample.sword);
    try reflexivity.
  split; [vm_compute; discriminate | vm_compute; reflexivity].
Defined.

(** X5.  A purchase for a user who has no inventory document never
    commits: the document the handler creates has no [guildId], which the
    schema requires, so the save is refused, the handler answers with an
    error and the database is as before. *)
Theorem buy_needs_an_inventory_document (w : World) (req : BuyRequest.t) (d : Db)
    (userId : string) :
  BuyRequest.userId req = Some userId →
  inventory_of userId d = None →
  ∃ status error, buy w req d = (Error status error, d).
Proof.
  intros Hid Hnone.
  destruct (buy w req d) as [[body|status error] d'] eqn:Hbuy.
  - apply buy_Json_inv in Hbuy.
    destruct Hbuy as (userId' & user & item & roles & inventory & Hid' & _ & _ & _
                      & Hinv & _).
    unfold inventory_of in Hnone. congruence.
  - pose proof (buy_error_unchanged _ _ _ _ _ _ Hbuy). subst d'. eauto.
Qed.

Lemma buy_needs_an_inventory_document_witness :
  ∃ status error,
    inventory_of "222" Sample.database = None ∧
    CommandStats.stars Sample.bob = 50 ∧
    buy Sample.wednesday (BuyRequest.mk "uuid-bob" (Some "222") "potion" 1) Sample.database =
      (Error status error, Sample.database).
Proof.
  destruct (buy_needs_an_inventory_document Sample.wednesday
              (BuyRequest.mk "uuid-bob" (Some "222") "potion" 1) Sample.database "222"
              eq_refl eq_refl) as (status & error & H).
  exists status, error. split_and!; [reflexivity | reflexivity | exact H].
Defined.

(** ** More on discounts *)

Lemma discountPercentage_cases (today : Z) (roles : list string) :
  Discount.discountPercentage today roles ∈ [0; 5; 20; 25].
Proof.
  unfold Discount.discountPercentage.
  destruct (Discount.isDiscountDay today), (Discount.hasPermanentDiscountRole roles);
    simpl; rewrite !elem_of_cons; tauto.
Qed.

(** X6.  For prices that are not negative, the price charged is between 0
    and the price of the item, grows with the price of the item, and the
    reduction is at most a quarter of the price, rounded. *)
Theorem discountedPrice_bounds (price price' today : Z) (roles : list string) :
  0 ≤ price → price ≤ price' →
  0 ≤ Discount.discountedPrice price today roles ≤ price ∧
  Discount.discountedPrice price today roles ≤ Discount.discountedPrice price' today roles ∧
  price - Discount.discountedPrice price today roles ≤ (price + 2) / 4.
Proof.
  intros H0 Hle. rewrite !discountedPrice_div.
  pose proof (discountPercentage_cases today roles) as Hp.
  rewrite !elem_of_cons in Hp.
  destruct Hp as [-> | [-> | [-> | [-> | Hp]]]];
    [| | | | by apply elem_of_nil in Hp];
    Z.div_mod_to_equations; lia.
Qed.

Lemma discountedPrice_bounds_witness :
  0 ≤ Discount.discountedPrice 33 6 [DISCOUNT_ROLE] ≤ 33 ∧
  Discount.discountedPrice 33 6 [DISCOUNT_ROLE] ≤ Discount.discountedPrice 100 6 [DISCOUNT_ROLE] ∧
  33 - Discount.discountedPrice 33 6 [DISCOUNT_ROLE] ≤ (33 + 2) / 4.
Proof. apply (discountedPrice_bounds 33 100 6 [DISCOUNT_ROLE]); lia. Defined.

Lemma small_prices_gap :
  forallb (fun p => let c := (((p * 80 + 50) / 100) * 95 + 50) / 100 in
                    let s := (p * 75 + 50) / 100 in
                    (-1 <=? c - s) && (c - s <=? p / 100 + 2) &&
                    eqb (c <? s) ((p =? 14) || (p =? 18)))
          (map Z.of_nat (seq 0 48)) = true.
Proof. vm_compute. reflexivity. Qed.

(** The price shown against the price charged. *)
Lemma shop_view_price_gap_bounds (price day : Z) (roles : list string) :
  0 ≤ price →
  let shown := ShopView.discountedPrice price day roles in
  let charged := Discount.discountedPrice price day roles in
  -1 ≤ shown - charged ≤ price / 100 + 2 ∧
  (shown < charged ↔
   ShopView.isWeekend day = true ∧ ShopView.hasDiscountRole roles = true ∧
   (price = 14 ∨ price = 18)).
Proof.
  intros H0 shown charged. subst shown charged.
  destruct (ShopView.isWeekend day && ShopView.hasDiscountRole roles) eqn:Hboth.
  - apply andb_true_iff in Hboth as [Hw Hr].
    rewrite shop_view_price_div, discountedPrice_div. cbv zeta. rewrite Hw, Hr.
    assert (Hpct : Discount.discountPercentage day roles = 25).
    { unfold Discount.discountPercentage, Discount.isDiscountDay,
        Discount.hasPermanentDiscountRole.
      unfold ShopView.isWeekend, ShopView.hasDiscountRole in *.
      rewrite orb_comm in Hw. by rewrite Hw, Hr. }
    rewrite Hpct. replace (100 - 25) with 75 by lia.
    destruct (Z_lt_le_dec price 48) as [Hsmall|Hbig].
    + pose proof small_prices_gap as Hall. rewrite forallb_forall in Hall.
      specialize (Hall price). cbv zeta in Hall.
      assert (Hin : In price (map Z.of_nat (seq 0 48))).
      { apply in_map_iff. exists (Z.to_nat price). split; [lia|].
        apply in_seq. lia. }
      apply Hall in Hin. apply andb_true_iff in Hin as [Hin Hiff].
      apply andb_true_iff in Hin as [Hlo Hhi].
      apply Z.leb_le in Hlo, Hhi. apply eqb_prop in Hiff.
      split; [lia|].
      rewrite <- Z.ltb_lt, Hiff, orb_true_iff, !Z.eqb_eq. tauto.
    + split; [Z.div_mod_to_equations; lia|].
      split; [intros Hlt; exfalso; Z.div_mod_to_equations; lia | intros (_ & _ & [?|?]); lia].
  - rewrite shop_view_price_single_discount by done.
    split; [Z.div_mod_to_equations; lia|].
    split; [lia|]. intros (Hw & Hr & _). by rewrite Hw, Hr in Hboth.
Qed.


(** X7.  For a price that is not negative, the price shown by the shop view
    is at most one star below the price charged and at most a hundredth of
    the price plus two stars above it.  It is below only for a buyer with
    both discounts and an item of 14 or of 18 stars. *)
Theorem shop_view_price_gap (price day : Z) (roles : list string) :
  0 ≤ price →
  let shown := ShopView.discountedPrice price day roles in
  let charged := Discount.discountedPrice price day roles in
  -1 ≤ shown - charged ≤ price / 100 + 2 ∧
  (shown < charged ↔
   ShopView.isWeekend day = true ∧ ShopView.hasDiscountRole roles = true ∧
   (price = 14 ∨ price = 18)).
Proof. apply shop_view_price_gap_bounds. Qed.

Lemma shop_view_price_gap_witness :
  ShopView.discountedPrice 14 6 [DISCOUNT_ROLE] = 10 ∧
  Discount.discountedPrice 14 6 [DISCOUNT_ROLE] = 11 ∧
  ShopView.discountedPrice 14 6 [DISCOUNT_ROLE] < Discount.discountedPrice 14 6 [DISCOUNT_ROLE].
Proof.
  split; [vm_compute; reflexivity|]. split; [vm_compute; reflexivity|].
  apply (shop_view_price_gap 14 6 [DISCOUNT_ROLE]); [lia|].
  split_and!; [reflexivity | reflexivity | by left].
Defined.

(** ** More on ranks and profiles *)

Lemma filter_length_le {A : Type} (p q : A → bool) (l : list A) :
  (∀ x, p x = true → q x = true) →
  (length (List.filter p l) ≤ length (List.filter q l))%nat.
Proof.
  intros Hpq. induction l as [|x l IH]; simpl; [done|].
  destruct (p x) eqn:Hp.
  - rewrite (Hpq x Hp). simpl. lia.
  - destruct (q x); simpl; lia.
Qed.

Lemma filter_length_lt {A : Type} (p q : A → bool) (l : list A) (a : A) :
  (∀ x, p x = true → q x = true) →
  a ∈ l → p a = false → q a = true →
  (length (List.filter p l) < length (List.filter q l))%nat.
Proof.
  intros Hpq Hin Hpa Hqa. induction l as [|x l IH]; simpl.
  - by apply elem_of_nil in Hin.
  - apply elem_of_cons in Hin as [<-|Hin].
    + rewrite Hpa, Hqa. simpl. pose proof (filter_length_le p q l Hpq). lia.
    + specialize (IH Hin). destruct (p x) eqn:Hp.
      * rewrite (Hpq x Hp). simpl. lia.
      * destruct (q x); simpl; lia.
Qed.

Lemma filter_length_lt_all {A : Type} (p : A → bool) (l : list A) (a : A) :
  a ∈ l → p a = false → (length (List.filter p l) < length l)%nat.
Proof.
  intros Hin Hpa. induction l as [|x l IH]; simpl.
  - by apply elem_of_nil in Hin.
  - pose proof (List.filter_length_le p l).
    apply elem_of_cons in Hin as [<-|Hin].
    + rewrite Hpa. lia.
    + specialize (IH Hin). destruct (p x); simpl; lia.
Qed.

(** X8.  For a stored user, each of the four ranks lies between 1 and the
    number of users; two users with the same value have the same rank, and
    a stored user with a greater value than another has a strictly better
    (smaller) rank. *)
Theorem rank_orders_users (m : Metric) (a b : CommandStats.t) (coll : list CommandStats.t) :
  a ∈ coll →
  1 ≤ rank (metric_field m) a coll ≤ Z.of_nat (length coll) ∧
  (metric_field m a = metric_field m b →
   rank (metric_field m) a coll = rank (metric_field m) b coll) ∧
  (metric_field m b < metric_field m a →
   rank (metric_field m) a coll < rank (metric_field m) b coll).
Proof.
  intros Hin. unfold rank, countDocuments. split; [|split].
  - assert (length (List.filter (gt (metric_field m) (metric_field m a)) coll)
            < length coll)%nat; [|lia].
    apply (filter_length_lt_all _ _ a Hin). unfold gt. apply Z.ltb_irrefl.
  - intros Heq. by rewrite Heq.
  - intros Hlt.
    assert (length (List.filter (gt (metric_field m) (metric_field m a)) coll)
            < length (List.filter (gt (metric_field m) (metric_field m b)) coll))%nat;
      [|lia].
    apply (filter_length_lt _ _ _ a); unfold gt; [|done| |].
    + intros x Hx. apply Z.ltb_lt in Hx. apply Z.ltb_lt. lia.
    + apply Z.ltb_irrefl.
    + by apply Z.ltb_lt.
Qed.

Lemma rank_orders_users_witness :
  1 ≤ rank (metric_field AllTime) Sample.alice (users Sample.database) ≤ 3 ∧
  rank (metric_field AllTime) Sample.alice (users Sample.database) =
    rank (metric_field AllTime) Sample.bob (users Sample.database) ∧
  rank (metric_field AllTime) Sample.alice (users Sample.database) <
    rank (metric_field AllTime) Sample.carol (users Sample.database).
Proof.
  destruct (rank_orders_users AllTime Sample.alice Sample.bob (users Sample.database))
    as (Hb & Heq & _); [apply list_elem_of_here|].
  destruct (rank_orders_users AllTime Sample.alice Sample.carol (users Sample.database))
    as (_ & _ & Hlt); [apply list_elem_of_here|].
  split; [exact Hb|]. split; [by apply Heq | apply Hlt; vm_compute; reflexivity].
Defined.

(** X9.  A profile request that is answered with an error (404 for an
    unknown handle, 500 when the member cannot be fetched or a call
    rejects) stores nothing in the cache and changes nothing in the
    database, so the next request computes again. *)
Theorem profile_errors_are_not_cached (w : World) (uuid : string) (s s' : Server)
    (status : Z) (error : string) :
  get_profile w uuid s = (Error status error, s') →
  cache s' = cache s ∧ db s' = db s.
Proof.
  destruct s as [d c g]. unfold_get.
  destruct (cache_get (now w) ("profile_" ++ uuid) c) eqn:Hget; [done|].
  intros H. repeat (case_match; simplify_eq/=); done.
Qed.

Lemma profile_errors_are_not_cached_witness :
  ∃ s', get_profile Sample.saturday "uuid-nobody" Sample.server =
          (Error 404 "Пользователь не найден", s') ∧
        cache s' = cache Sample.server.
Proof.
  eassert (H : get_profile Sample.saturday "uuid-nobody" Sample.server =
               (Error 404 "Пользователь не найден", _)) by (vm_compute; reflexivity).
  eexists. split; [exact H|].
  exact (proj1 (profile_errors_are_not_cached _ _ _ _ _ _ H)).
Defined.

(** X10.  Once the 300 seconds of a cached profile are over, the next
    request computes the profile again from the database, so it shows the
    statistics document as a purchase made in between left it. *)
Theorem profile_is_recomputed_after_expiry (w0 w1 w2 : World) (uuid : string)
    (req : BuyRequest.t) (s0 s s2 : Server) (body0 body2 : Body) :
  cache_get (now w0) ("profile_" ++ uuid) (cache s0) = None →
  get_profile w0 uuid s0 = (Json body0, s) →
  0 ≤ now w0 →
  now w0 + 300 * 1000 < now w2 →
  get_profile w2 uuid (post_buy w1 req s).2 = (Json body2, s2) →
  ∃ p, body2 = ProfileBody p ∧
       findOne (fun u => String.eqb (CommandStats.uuid u) uuid)
               (users (db (post_buy w1 req s).2)) = Some (ProfileData.userStats p).
Proof.
  intros Hmiss Hget Hpos Hlate Hget2.
  apply get_profile_miss_inv in Hget as (userStats & roles & _ & _ & _ & Hc); [|done].
  pose proof (post_buy_cache w1 req s) as [Hcache _].
  apply get_profile_miss_inv in Hget2 as (userStats2 & roles2 & Hfind & Hbody & _).
  - eexists. split; [exact Hbody | exact Hfind].
  - rewrite Hcache, Hc. unfold cache_get, cache_set. rewrite lookup_insert_eq. simpl.
    destruct (Z.eqb_spec (now w0 + 300 * 1000) 0); [lia|].
    destruct (Z.ltb_spec (now w0 + 300 * 1000) (now w2)); [done | lia].
Qed.

Lemma profile_is_recomputed_after_expiry_witness :
  ∃ body0 s p s2,
    get_profile Sample.saturday "uuid-alice" Sample.server = (Json body0, s) ∧
    get_profile Sample.later "uuid-alice"
      (post_buy Sample.saturday (Sample.alice_buys_swords 2) s).2 = (Json (ProfileBody p), s2) ∧
    CommandStats.stars (ProfileData.userStats p) = 50.
Proof.
  eassert (H0 : get_profile Sample.saturday "uuid-alice" Sample.server = (Json _, _))
    by (vm_compute; reflexivity).
  match type of H0 with
  | _ = (Json ?body0, ?s) =>
      eassert (H2 : get_profile Sample.later "uuid-alice"
                      (post_buy Sample.saturday (Sample.alice_buys_swords 2) s).2 =
                    (Json (ProfileBody _), _)) by (vm_compute; reflexivity)
  end.
  eexists _, _, _, _. split; [exact H0|]. split; [exact H2|].
  assert (Hmiss : cache_get (now Sample.saturday) ("profile_" ++ "uuid-alice")
                            (cache Sample.server) = None) by (vm_compute; reflexivity).
  assert (Hpos : 0 ≤ now Sample.saturday) by (vm_compute; discriminate).
  assert (Hlate : now Sample.saturday + 300 * 1000 < now Sample.later)
    by (vm_compute; reflexivity).
  destruct (profile_is_recomputed_after_expiry Sample.saturday Sample.saturday Sample.later
              "uuid-alice" (Sample.alice_buys_swords 2) Sample.server _ _ _ _
              Hmiss H0 Hpos Hlate H2) as (p & Hp & Hfind).
  injection Hp as <-. reflexivity.
Defined.

(** ** The member cache of the server *)

(** X11.  [fetchUserGuildMember] never throws and leaves the database and
    the response cache alone.  A failed fetch stores nothing.  A member
    that was fetched once is answered from the cache of the process from
    then on, whatever the platform would answer: a change of roles is not
    seen until the process restarts. *)
Theorem guild_member_cache_is_never_refreshed (w : World) (userId : string) (s : Server) :
  ∃ r s',
    fetchUserGuildMember w userId s = (Normal r, s') ∧
    db s' = db s ∧ cache s' = cache s ∧
    (r = None → s' = s) ∧
    (∀ data, r = Some data →
       ∀ w', fetchUserGuildMember w' userId s' = (Normal (Some data), s')).
Proof.
  destruct s as [d c g]. unfold fetchUserGuildMember. simpl.
  destruct (g !! userId) as [data|] eqn:Hg.
  - eexists _, _. split_and!; try done.
    intros data' [= <-] w'. simpl. by rewrite Hg.
  - destruct (discordMember w userId) as [data|].
    + eexists _, _. split_and!; try done.
      intros data' [= <-] w'. simpl. by rewrite lookup_insert_eq.
    + eexists _, _. split_and!; done.
Qed.

(** ** More on the login *)

Lemma findIndex_Some_lookup {A : Type} (p : A → bool) (coll : list A) (i : nat) :
  findIndex p coll = Some i →
  ∃ x, coll !! i = Some x ∧ p x = true ∧ findOne p coll = Some x.
Proof.
  unfold findOne. revert i. induction coll as [|y coll IH]; intros i; simpl; [done|].
  destruct (p y) eqn:Hy.
  - intros [= <-]. eauto.
  - destruct (findIndex p coll) as [j|]; simpl; [|done].
    intros [= <-]. simpl. by apply IH.
Qed.

Lemma findOne_insert_findIndex {A : Type} (p : A → bool) (doc : A) (coll : list A)
    (i : nat) :
  findIndex p coll = Some i → p doc = true → findOne p (<[i:=doc]> coll) = Some doc.
Proof.
  unfold findOne. intros Hi Hdoc. revert i Hi.
  induction coll as [|y coll IH]; intros i; simpl; [done|].
  destruct (p y) eqn:Hy.
  - intros [= <-]. simpl. by rewrite Hdoc.
  - destruct (findIndex p coll) as [j|]; simpl; [|done].
    intros [= <-]. simpl. rewrite Hy. by apply IH.
Qed.

Lemma findOne_app_None {A : Type} (p : A → bool) (doc : A) (coll : list A) :
  findOne p coll = None → p doc = true → findOne p (coll ++ [doc]) = Some doc.
Proof.
  unfold findOne. intros Hnone Hdoc.
  induction coll as [|y coll IH]; simpl in *; [by rewrite Hdoc|].
  destruct (p y); [done | by apply IH].
Qed.

(** What a login that succeeds has done. *)
Lemma verify_Normal_inv (w : World) (profile : DiscordProfile.t) (s s' : Server)
    (user : CommandStats.t) :
  verify w profile s = (Normal user, s') →
  ∃ userRolesIds base,
    match userGuildMemberCache s !! DiscordProfile.id profile with
    | Some data => Some data
    | None => discordMember w (DiscordProfile.id profile)
    end = Some userRolesIds ∧
    base = match findOne (login_filter profile) (users (db s)) with
           | Some old =>
               CommandStats.set_userAvatar (DiscordProfile.avatar profile)
                 (CommandStats.set_username (DiscordProfile.username profile) old)
           | None =>
               CommandStats.set_roleAcquisitionDates ∅
                 (CommandStats.set_userAvatar (DiscordProfile.avatar profile)
                    (CommandStats.set_username (DiscordProfile.username profile)
                       (CommandStats.set_serverId GUILD_ID
                          (CommandStats.set_userId (DiscordProfile.id profile)
                             (newCommandStats w)))))
           end ∧
    user = CommandStats.set_roleAcquisitionDates
             (collect_roleAcquisitionDates (now w) userRolesIds) base ∧
    users (db s') = updateOne_upsert (login_filter profile) user (users (db s)) ∧
    items (db s') = items (db s) ∧
    inventories (db s') = inventories (db s) ∧
    cache s' = cache s.
Proof.
  destruct s as [d c g].
  cbv [verify query fetchUserGuildMember await gets modify throw
       mbind mret action_bind action_ret bind ret db cache userGuildMemberCache].
  intros H.
  repeat (case_match; simplify_eq/=); eexists _, _; split_and!; try reflexivity; done.
Qed.

(** X12.  After a login that succeeds, the recorded dates are exactly: the
    login time for each allow-listed role among the roles the member cache
    or the platform reports, and no entry for any other role.  Dates
    recorded by earlier logins are not kept, and roles that are no longer
    held lose their date. *)
Theorem login_records_only_current_roles (w : World) (profile : DiscordProfile.t)
    (s s' : Server) (user : CommandStats.t) :
  verify w profile s = (Normal user, s') →
  ∃ userRolesIds,
    match userGuildMemberCache s !! DiscordProfile.id profile with
    | Some data => Some data
    | None => discordMember w (DiscordProfile.id profile)
    end = Some userRolesIds ∧
    ∀ r, CommandStats.roleAcquisitionDates user !! r =
           if bool_decide (r ∈ allowedRoleIds ∧ r ∈ userRolesIds)
           then Some (now w) else None.
Proof.
  intros H. apply verify_Normal_inv in H.
  destruct H as (userRolesIds & base & Hroles & _ & -> & _).
  exists userRolesIds. split; [done|]. intros r. apply collect_lookup.
Qed.

Lemma login_records_only_current_roles_witness :
  ∃ user s',
    verify (mkWorld 2000000 3 (fun _ => Some []) (fun _ => Some [])
                    (fun _ => false) "v9" Sample.blank)
           Sample.erin Sample.moderators = (Normal user, s') ∧
    CommandStats.roleAcquisitionDates Sample.moderator !! Sample.MODERATOR = Some 1000 ∧
    CommandStats.roleAcquisitionDates user !! Sample.MODERATOR = None.
Proof.
  eassert (H : verify (mkWorld 2000000 3 (fun _ => Some []) (fun _ => Some [])
                               (fun _ => false) "v9" Sample.blank)
                      Sample.erin Sample.moderators = (Normal _, _))
    by (vm_compute; reflexivity).
  eexists _, _. split; [exact H|]. split; [reflexivity|].
  destruct (login_records_only_current_roles _ _ _ _ _ H) as (roles & Hroles & Hall).
  vm_compute in Hroles. injection Hroles as <-.
  rewrite Hall. rewrite bool_decide_eq_false_2; [done|].
  intros [_ Hin]. by apply elem_of_nil in Hin.
Defined.

(** X13.  A login that succeeds writes exactly one statistics document and
    returns it: the document found for the user is replaced in place, with
    the name and avatar of the platform profile and with its identifiers,
    stars, counters and achievements kept, or, when there is none, one
    document is appended.  Documents of other users, the items, the
    inventories and the response cache are untouched. *)
Theorem login_upserts_one_document (w : World) (profile : DiscordProfile.t)
    (s s' : Server) (user : CommandStats.t) :
  verify w profile s = (Normal user, s') →
  findOne (login_filter profile) (users (db s')) = Some user ∧
  CommandStats.userId user = DiscordProfile.id profile ∧
  CommandStats.serverId user = GUILD_ID ∧
  CommandStats.username user = DiscordProfile.username profile ∧
  CommandStats.userAvatar user = DiscordProfile.avatar profile ∧
  items (db s') = items (db s) ∧
  inventories (db s') = inventories (db s) ∧
  cache s' = cache s ∧
  match findOne (login_filter profile) (users (db s)) with
  | Some old =>
      length (users (db s')) = length (users (db s)) ∧
      CommandStats._id user = CommandStats._id old ∧
      CommandStats.uuid user = CommandStats.uuid old ∧
      CommandStats.stars user = CommandStats.stars old ∧
      CommandStats.totalMessages user = CommandStats.totalMessages old ∧
      CommandStats.voiceTime user = CommandStats.voiceTime old ∧
      CommandStats.achievements user = CommandStats.achievements old ∧
      (∀ i u, users (db s) !! i = Some u → login_filter profile u = false →
              users (db s') !! i = Some u)
  | None => users (db s') = (users (db s) ++ [user])%list
  end.
Proof.
  intros H. apply verify_Normal_inv in H.
  destruct H as (userRolesIds & base & _ & Hbase & Huser & Hus & Hit & Hinv & Hc).
  rewrite Hus. unfold updateOne_upsert.
  destruct (findIndex (login_filter profile) (users (db s))) as [i|] eqn:Hi.
  - apply findIndex_Some_lookup in Hi as Hold. destruct Hold as (old & Hlook & Hp & Hfind).
    rewrite Hfind in *. subst base user.
    assert (Hp' := Hp). unfold login_filter in Hp'.
    apply andb_true_iff in Hp' as [Hu Hs]. apply String.eqb_eq in Hu, Hs.
    split_and!; try done.
    + by apply findOne_insert_findIndex.
    + apply length_insert.
    + intros j u Hj Hf. destruct (decide (i = j)) as [->|Hne].
      * congruence.
      * by rewrite list_lookup_insert_ne.
  - apply findIndex_None_find in Hi. unfold findOne in *. rewrite Hi in *.
    subst base user. split_and!; try done.
    apply findOne_app_None; [done|].
    unfold login_filter. simpl. by rewrite !String.eqb_refl.
Qed.

Lemma login_upserts_one_document_witness :
  ∃ user s',
    verify Sample.later (DiscordProfile.mk "111" "alice2" "a9") Sample.server =
      (Normal user, s') ∧
    findOne (login_filter (DiscordProfile.mk "111" "alice2" "a9")) (users (db s')) = Some user ∧
    CommandStats.username user = "alice2" ∧
    length (users (db s')) = 3%nat.
Proof.
  eassert (H : verify Sample.later (DiscordProfile.mk "111" "alice2" "a9") Sample.server =
               (Normal _, _)) by (vm_compute; reflexivity).
  eexists _, _. split; [exact H|].
  destruct (login_upserts_one_document _ _ _ _ _ H) as (Hfind & _ & _ & Hname & _ & _ & _ & _ & Hold).
  split_and!; [exact Hfind | exact Hname | reflexivity].
Defined.

(** X14.  A login that fails, because the member cannot be fetched or a
    database call rejects, writes nothing: the database and the response
    cache are as before. *)
Theorem failed_login_writes_nothing (w : World) (profile : DiscordProfile.t)
    (s s' : Server) :
  verify w profile s = (Throw, s') → db s' = db s ∧ cache s' = cache s.
Proof.
  destruct s as [d c g].
  cbv [verify query fetchUserGuildMember await gets modify throw
       mbind mret action_bind action_ret bind ret db cache userGuildMemberCache].
  intros H. repeat (case_match; simplify_eq/=); done.
Qed.

Lemma failed_login_writes_nothing_witness :
  ∃ s', verify (mkWorld 2000000 3 (fun _ => None) (fun _ => None)
                        (fun _ => false) "v9" Sample.blank)
               Sample.erin Sample.moderators = (Throw, s') ∧
        db s' = db Sample.moderators.
Proof.
  eassert (H : verify (mkWorld 2000000 3 (fun _ => None) (fun _ => None)
                               (fun _ => false) "v9" Sample.blank)
                      Sample.erin Sample.moderators = (Throw, _))
    by (vm_compute; reflexivity).
  eexists. split; [exact H|]. exact (proj1 (failed_login_writes_nothing _ _ _ _ H)).
Defined.

(** ** More on the page *)

(** X15.  [fetchProfileData] keeps no trace of a failed request, and keeps
    the body of a successful one for good: later calls for the same handle
    return that body without asking the server, whatever the server would
    answer now. *)
Theorem page_profile_cache_has_no_expiry
    (GET_profile : string → Server → Response * Server) (uuid : string)
    (b b' : Browser.t) (s s' : Server) (r : option Body) :
  Browser.fetchProfileData GET_profile uuid (b, s) = (r, (b', s')) →
  (r = None → b' = b) ∧
  (∀ data, r = Some data →
     ∀ (GET_profile' : string → Server → Response * Server) (s2 : Server),
       Browser.fetchProfileData GET_profile' uuid (b', s2) = (Some data, (b', s2))).
Proof.
  unfold Browser.fetchProfileData.
  destruct (default None (Browser.cachedProfileData b !! uuid)) as [cached|] eqn:Hc.
  - intros [= <- <- <-]. split; [done|]. intros data [= <-] GET' s2. by rewrite Hc.
  - destruct (GET_profile uuid s) as [[data|status error] s1].
    + intros [= <- <- <-]. split; [done|]. intros data' [= <-] GET' s2. simpl.
      by rewrite lookup_insert_eq.
    + intros [= <- <- <-]. split; [done|]. done.
Qed.

Lemma page_profile_cache_has_no_expiry_witness :
  ∃ data b' s',
    Browser.fetchProfileData (get_profile Sample.saturday) "uuid-alice"
      (Sample.page, Sample.server) = (Some data, (b', s')) ∧
    Browser.fetchProfileData (fun _ s => (Error 500 "Ошибка сервера", s)) "uuid-alice"
      (b', Sample.server) = (Some data, (b', Sample.server)).
Proof.
  eassert (H : Browser.fetchProfileData (get_profile Sample.saturday) "uuid-alice"
                 (Sample.page, Sample.server) = (Some _, (_, _)))
    by (vm_compute; reflexivity).
  eexists _, _, _. split; [exact H|].
  exact (proj2 (page_profile_cache_has_no_expiry _ _ _ _ _ _ _ H) _ eq_refl _ _).
Defined.

(** X16.  When the server refuses a purchase, the page of a logged-in user
    keeps its cached profile and shop data as they are: nothing is dropped
    and nothing is fetched again. *)
Theorem refused_purchase_keeps_page_caches
    (GET_profile : string → Server → Response * Server)
    (GET_shop : Server → Response * Server)
    (POST_buy : BuyRequest.t → Server → Response * Server)
    (uuid itemName : string) (quantity : Z) (b : Browser.t) (s s1 : Server)
    (status : Z) (error : string) :
  Browser.truthy (Browser.userId b) = true →
  POST_buy (BuyRequest.mk uuid (Browser.userId b) itemName quantity) s =
    (Error status error, s1) →
  Browser.buyItem GET_profile GET_shop POST_buy uuid itemName quantity (b, s) = (b, s1).
Proof.
  intros Htruthy Hpost. unfold Browser.buyItem. simpl. rewrite Htruthy, Hpost. done.
Qed.

Lemma refused_purchase_keeps_page_caches_witness :
  ∃ s1, Browser.buyItem (get_profile Sample.saturday) (get_shop Sample.saturday)
          (post_buy Sample.saturday) "uuid-alice" "sword" 6 (Sample.page, Sample.server) =
        (Sample.page, s1).
Proof.
  eassert (H : post_buy Sample.saturday
                 (BuyRequest.mk "uuid-alice" (Browser.userId Sample.page) "sword" 6)
                 Sample.server = (Error _ _, _)) by (vm_compute; reflexivity).
  eexists.
  exact (refused_purchase_keeps_page_caches _ _ _ _ _ _ Sample.page _ _ _ _ eq_refl H).
Defined.

Lemma buy_without_userId (w : World) (req : BuyRequest.t) (d : Db) :
  BuyRequest.userId req = None →
  ∃ status error, buy w req d = (Error status error, d).
Proof.
  intros Hnone.
  destruct (buy w req d) as [[body|status error] d'] eqn:Hbuy.
  - apply buy_Json_inv in Hbuy. destruct Hbuy as (userId & ? & ? & ? & ? & Hid & _).
    congruence.
  - pose proof (buy_error_unchanged _ _ _ _ _ _ Hbuy). subst d'. eauto.
Qed.

(** X17.  On a page without a stored user identifier whose profile request
    fails, [buyItem] sends the purchase without a [userId]; the server
    refuses it and its database is unchanged; and the page stores the text
    "undefined" as the user identifier, which counts as present from then
    on. *)
Theorem purchase_without_user_id_stores_undefined
    (GET_profile : string → Server → Response * Server)
    (GET_shop : Server → Response * Server)
    (w : World) (uuid itemName : string) (quantity : Z) (b : Browser.t) (s s0 : Server)
    (status : Z) (error : string) :
  Browser.truthy (Browser.userId b) = false →
  default None (Browser.cachedProfileData b !! uuid) = None →
  GET_profile uuid s = (Error status error, s0) →
  ∃ b' s',
    Browser.buyItem GET_profile GET_shop (post_buy w) uuid itemName quantity (b, s) = (b', s') ∧
    (post_buy w (BuyRequest.mk uuid None itemName quantity) s0).2 = s' ∧
    ok (post_buy w (BuyRequest.mk uuid None itemName quantity) s0).1 = false ∧
    db s' = db s0 ∧
    Browser.userId b' = Some "undefined" ∧
    Browser.truthy (Browser.userId b') = true ∧
    Browser.cachedProfileData b' = Browser.cachedProfileData b ∧
    Browser.shopDataCache b' = Browser.shopDataCache b.
Proof.
  intros Htruthy Hcached Hget.
  unfold Browser.buyItem, Browser.fetchProfileData. simpl.
  rewrite Htruthy, Hcached, Hget. simpl.
  destruct (buy_without_userId w (BuyRequest.mk uuid None itemName quantity) (db s0) eq_refl)
    as (st & e & Hbuy).
  unfold post_buy. rewrite Hbuy. simpl.
  eexists _, _. split_and!; reflexivity.
Qed.

Lemma purchase_without_user_id_stores_undefined_witness :
  ∃ b' s',
    Browser.buyItem (get_profile Sample.saturday) (get_shop Sample.saturday)
      (post_buy Sample.saturday) "uuid-nobody" "sword" 1
      (Browser.mk None ∅ None, Sample.server) = (b', s') ∧
    Browser.userId b' = Some "undefined".
Proof.
  eassert (H : get_profile Sample.saturday "uuid-nobody" Sample.server = (Error _ _, _))
    by (vm_compute; reflexivity).
  assert (Hc : default None (Browser.cachedProfileData (Browser.mk None ∅ None)
                              !! "uuid-nobody") = None) by (vm_compute; reflexivity).
  destruct (purchase_without_user_id_stores_undefined (get_profile Sample.saturday)
              (get_shop Sample.saturday) Sample.saturday "uuid-nobody" "sword" 1
              (Browser.mk None ∅ None) Sample.server _ _ _ eq_refl Hc H)
    as (b' & s' & Hbuy & _ & _ & _ & Hid & _).
  exists b', s'. split; [exact Hbuy | exact Hid].
Defined.

(** ** The buy section of a shop item *)

Lemma clicks_snoc (userStars discountedPrice stock : Z) (cs : list ShopItem.click)
    (c : ShopItem.click) :
  ShopItem.clicks userStars discountedPrice stock (cs ++ [c]) =
    ShopItem.on_click userStars discountedPrice stock c
      (ShopItem.clicks userStars discountedPrice stock cs).
Proof. unfold ShopItem.clicks. by rewrite foldl_app. Qed.

Lemma clicks_quantity_pos (userStars discountedPrice stock : Z)
    (cs : list ShopItem.click) :
  1 ≤ ShopItem.quantity (ShopItem.clicks userStars discountedPrice stock cs).
Proof.
  induction cs as [|c cs IH] using rev_ind; [done|].
  rewrite clicks_snoc. destruct c; simpl; lia.
Qed.

(** X18.  Whatever the sequence of clicks on the minus and the plus
    button, the quantity of the buy section is at least 1 and at most 1
    plus the number of clicks, and it is 1 plus the number of clicks when
    only the plus button was used: the page never asks for less than one
    item. *)
Theorem shop_quantity_stays_positive (userStars discountedPrice stock : Z)
    (cs : list ShopItem.click) :
  let q := ShopItem.quantity (ShopItem.clicks userStars discountedPrice stock cs) in
  1 ≤ q ∧ q ≤ 1 + Z.of_nat (length cs) ∧
  (Forall (fun c => c = ShopItem.Plus) cs → q = 1 + Z.of_nat (length cs)).
Proof.
  induction cs as [|c cs IH] using rev_ind; [cbv zeta; simpl; split_and!; done|].
  cbv zeta in *. rewrite clicks_snoc, length_app. simpl.
  destruct IH as (H1 & H2 & H3).
  destruct c; simpl; split_and!; try lia.
  - intros HF. apply Forall_app in HF as [_ HF]. by inversion HF.
  - intros HF. apply Forall_app in HF as [HF _]. specialize (H3 HF). lia.
Qed.

(** X19.  For an item whose price is not negative and is neither 14 nor
    18, once the quantity was changed at least once, an enabled buy button
    means that the stock guard and the stars guard of the purchase handler
    pass for the quantity shown, with the same stars, stock, day and
    roles. *)
Theorem enabled_button_passes_the_guards (price userStars stock day : Z)
    (roles : list string) (cs : list ShopItem.click) :
  0 ≤ price → price ≠ 14 → price ≠ 18 → cs ≠ [] →
  let shown := ShopView.discountedPrice price day roles in
  let section := ShopItem.clicks userStars shown stock cs in
  ShopItem.disabled section = false →
  (stock = -1 ∨ ShopItem.quantity section ≤ stock) ∧
  Discount.discountedPrice price day roles * ShopItem.quantity section ≤ userStars.
Proof.
  intros Hprice H14 H18 Hcs shown section.
  pose proof (clicks_quantity_pos userStars shown stock cs) as Hq.
  fold section in Hq. subst section.
  destruct cs as [|c cs _] using rev_ind; [done|].
  rewrite clicks_snoc in *.
  set (prev := ShopItem.clicks userStars shown stock cs) in *.
  assert (Hdis : ∀ s, ShopItem.disabled (ShopItem.on_click userStars shown stock c s) =
                      (userStars <? shown *
                         ShopItem.quantity (ShopItem.on_click userStars shown stock c s))
                      || (negb (stock =? -1)
                          && (stock <? ShopItem.quantity
                                         (ShopItem.on_click userStars shown stock c s))))
    by (intros s; by destruct c).
  rewrite Hdis. intros Hen. apply orb_false_iff in Hen as [Hstars Hstock].
  apply Z.ltb_ge in Hstars.
  pose proof (shop_view_price_gap_bounds price day roles Hprice) as [_ Hlt].
  fold shown in Hlt.
  assert (Discount.discountedPrice price day roles ≤ shown) by (apply Z.nlt_ge; intros H; apply Hlt in H; lia).
  split.
  - destruct (Z.eqb_spec stock (-1)); [by left|]. simpl in Hstock.
    apply Z.ltb_ge in Hstock. by right.
  - nia.
Qed.

Lemma enabled_button_passes_the_guards_witness :
  ShopItem.disabled (ShopItem.clicks 200 (ShopView.discountedPrice 100 6 [DISCOUNT_ROLE]) 5
                       [ShopItem.Plus]) = false ∧
  ShopItem.quantity (ShopItem.clicks 200 (ShopView.discountedPrice 100 6 [DISCOUNT_ROLE]) 5
                       [ShopItem.Plus]) = 2 ∧
  Discount.discountedPrice 100 6 [DISCOUNT_ROLE] *
    ShopItem.quantity (ShopItem.clicks 200 (ShopView.discountedPrice 100 6 [DISCOUNT_ROLE]) 5
                         [ShopItem.Plus]) ≤ 200.
Proof.
  split; [vm_compute; reflexivity|]. split; [vm_compute; reflexivity|].
  apply (enabled_button_passes_the_guards 100 200 5 6 [DISCOUNT_ROLE] [ShopItem.Plus]);
    [lia | lia | lia | done | vm_compute; reflexivity].
Defined.

(** The two cases the theorem leaves out: before any click the stock is
    not looked at, and for an item of 14 stars and a buyer with both
    discounts the button is enabled with 10 stars while 11 are charged. *)
Example enabled_button_without_stock :
  ShopItem.disabled (ShopItem.initial 200 100) = false ∧
  (buy Sample.wednesday (Sample.alice_buys_swords 1)
       (mkDb [Sample.alice] [Item.mk "i1" "sword" 100 0] [Sample.bag])).1 =
    Error 400 "Недостаточно товара в наличии".
Proof. vm_compute. done. Qed.

Example enabled_button_without_stars :
  ShopItem.disabled
    (ShopItem.clicks 10 (ShopView.discountedPrice 14 6 [DISCOUNT_ROLE]) (-1)
                     [ShopItem.Plus; ShopItem.Minus]) = false ∧
  Discount.discountedPrice 14 6 [DISCOUNT_ROLE] * 1 = 11.
Proof. vm_compute. done. Qed.

(** ** The visit counter *)

Lemma landing_visits (findRejects saveRejects : bool) (newObjectId : string)
    (counters : list Counter.t) :
  visits (landing findRejects saveRejects newObjectId counters).2 =
    visits counters + (if findRejects || saveRejects then 0 else 1).
Proof.
  unfold landing, visits.
  destruct findRejects; simpl; [lia|].
  destruct counters as [|c counters]; simpl.
  - destruct saveRejects; simpl; lia.
  - destruct saveRejects; simpl; [lia|]. rewrite String.eqb_refl. simpl. lia.
Qed.

(** X20.  The handler of the landing page answers only when a database
    call rejects.  Over any sequence of requests the count read from the
    collection grows by exactly the number of requests in which no call
    rejected, a missing counter counting as 0; so it never goes down. *)
Theorem landing_counts_visits (newObjectId : string) (hits : list (bool * bool))
    (counters : list Counter.t) :
  visits (landings newObjectId hits counters) =
    visits counters + Z.of_nat (length (filter (fun hit => hit = (false, false)) hits)) ∧
  visits counters ≤ visits (landings newObjectId hits counters) ∧
  Forall (fun hit => (landing hit.1 hit.2 newObjectId counters).1 = None ↔
                     hit = (false, false)) hits.
Proof.
  assert (Hcount : ∀ counters,
            visits (landings newObjectId hits counters) =
            visits counters
            + Z.of_nat (length (filter (fun hit => hit = (false, false)) hits))).
  { unfold landings. induction hits as [|[f sv] hits IH]; intros cs; simpl; [lia|].
    rewrite IH, landing_visits, filter_cons.
    destruct f, sv; simpl; rewrite ?decide_True, ?decide_False by done; simpl; lia. }
  split_and!.
  - apply Hcount.
  - rewrite Hcount. lia.
  - apply Forall_forall. intros [f sv] _. unfold landing. simpl.
    destruct f; simpl; [split; done|].
    destruct (findOne _ counters); destruct sv; simpl; split; done.
Qed.

(** ** The position shown on the profile *)

Lemma first_held_allowed (roles : list string) :
  match Position.first_held roles allowedRoleIds with
  | Some roleId => roleId ∈ allowedRoleIds ∧ includes roles roleId = true ∧
                   Position.position_of roleId ≠ ""
  | None => Forall (fun roleId => includes roles roleId = false) allowedRoleIds
  end.
Proof.
  unfold allowedRoleIds, Position.first_held.
  repeat (match goal with
          | |- context [includes roles ?r] =>
              let H := fresh "H" in destruct (includes roles r) eqn:H
          end;
          [split_and!; [rewrite !elem_of_cons; tauto | done | vm_compute; discriminate] |]).
  repeat (constructor; [assumption|]). constructor.
Qed.

Lemma tech_admin_bool (l : list string) :
  Position.tech_admin (Some l) =
    negb (includes l "1043565185509630022") && includes l "1243243180800082001".
Proof.
  destruct l as [|x l]; [reflexivity|].
  unfold Position.tech_admin, Position.shows_position, Position.highest.
  change (0 <? Z.of_nat (length (x :: l))) with true. cbv iota.
  cbv [Position.first_held allowedRoleIds].
  destruct (includes (x :: l) "1043565185509630022"); [reflexivity|].
  destruct (includes (x :: l) "1243243180800082001"); [reflexivity|].
  destruct (includes (x :: l) "1075072592005824563"); [reflexivity|].
  destruct (includes (x :: l) "1043614651444899991"); [reflexivity|].
  destruct (includes (x :: l) "1043615386660257872"); reflexivity.
Qed.

(** X21.  The profile shows a position exactly when it shows the staff
    statistics: when the member holds an allow-listed role.  The label is
    that of the first such role in the order administrator, technical
    administrator, senior moderator, moderator, helper, whatever the order
    of the member's roles, and the technical administrator style is used
    exactly for a holder of that role who is not an administrator. *)
Theorem position_follows_the_highest_role (roles : option (list string)) :
  Position.shows_position roles = Position.shows_staff_stats roles ∧
  (Position.shows_position roles = true ↔
   ∃ l r, roles = Some l ∧ r ∈ allowedRoleIds ∧ r ∈ l) ∧
  (Position.tech_admin roles = true ↔
   ∃ l, roles = Some l ∧ "1243243180800082001" ∈ l ∧ "1043565185509630022" ∉ l) ∧
  (∀ l1 l2, (∀ r, r ∈ l1 ↔ r ∈ l2) →
            Position.highest (Some l1) = Position.highest (Some l2)).
Proof.
  assert (Hstaff : ∀ l, Position.shows_staff_stats (Some l) = true ↔
                        ∃ r, r ∈ allowedRoleIds ∧ r ∈ l).
  { intros l. unfold Position.shows_staff_stats. rewrite existsb_exists.
    split; intros (r & H1 & H2); exists r.
    - by rewrite list_elem_of_In, <- includes_elem_of.
    - by rewrite <- list_elem_of_In, includes_elem_of. }
  assert (Hpos : ∀ l, Position.shows_position (Some l) = true ↔
                      ∃ r, r ∈ allowedRoleIds ∧ r ∈ l).
  { intros l. unfold Position.shows_position, Position.highest.
    destruct l as [|x l].
    - simpl. split; [done|]. intros (r & _ & Hr). by apply elem_of_nil in Hr.
    - change (0 <? Z.of_nat (length (x :: l))) with true. cbv iota.
      pose proof (first_held_allowed (x :: l)) as Hf.
      destruct (Position.first_held (x :: l) allowedRoleIds) as [r|].
      + destruct Hf as (Hin & Hinc & Hne). simpl.
        apply String.eqb_neq in Hne. rewrite Hne. simpl.
        split; [|done]. intros _. exists r. split; [done | by apply includes_elem_of].
      + simpl. split; [done|]. intros (r & Hr & Hl).
        rewrite Forall_forall in Hf. specialize (Hf r Hr).
        apply includes_elem_of in Hl. congruence. }
  split_and!.
  - destruct roles as [l|]; [|reflexivity].
    apply eq_true_iff_eq. by rewrite Hpos, Hstaff.
  - destruct roles as [l|].
    + rewrite Hpos. split; [intros (r & ? & ?); eauto | intros (l' & r & [= <-] & ? & ?); eauto].
    + split; [done | intros (? & ? & ? & _); done].
  - destruct roles as [l|]; [|split; [done | intros (? & ? & _); done]].
    rewrite tech_admin_bool, andb_true_iff, negb_true_iff.
    rewrite <- not_true_iff_false, !includes_elem_of.
    split; [intros [? ?]; eauto | intros (l' & [= <-] & ? & ?); done].
  - intros l1 l2 Hsame. unfold Position.highest.
    assert (Hinc : ∀ r, includes l1 r = includes l2 r).
    { intros r. apply eq_true_iff_eq. by rewrite !includes_elem_of. }
    assert (Hlen : (0 <? Z.of_nat (length l1)) = (0 <? Z.of_nat (length l2))).
    { destruct l1 as [|a l1], l2 as [|b l2]; try done.
      - exfalso. apply (elem_of_nil b). apply Hsame. apply list_elem_of_here.
      - exfalso. apply (elem_of_nil a). apply Hsame. apply list_elem_of_here. }
    rewrite Hlen.
    assert (Hfirst : ∀ ids, Position.first_held l1 ids = Position.first_held l2 ids).
    { induction ids as [|r ids IH]; simpl; [done|]. by rewrite Hinc, IH. }
    by rewrite Hfirst.
Qed.

(** ** Voice time on the leaderboard *)

Lemma Number_toString_head (n : Z) :
  0 < n → ∃ a s, Number_toString n = String a s ∧ is_space a = false.
Proof.
  intros Hn. destruct n as [|p|p]; try lia.
  unfold Number_toString. simpl.
  destruct (Pos.to_uint p); simpl; eauto.
Qed.

Lemma trim_nonempty (a : ascii) (s : string) :
  is_space a = false → trim (String a s) ≠ "".
Proof. intros Ha. unfold trim. simpl. rewrite Ha. simpl. by rewrite Ha. Qed.

Lemma append_empty_r (s : string) : s ++ "" = s.
Proof.
  induction s as [|a s IH]; [done|].
  change (String a (s ++ "") = String a s). by rewrite IH.
Qed.

(** X22.  [formatVoiceTime] shows whole days, hours and minutes and drops
    the seconds: for a value that is not negative the three numbers are the
    unique ones with hours below 24, minutes below 60 and less than a
    minute left over, and a part is left out when its number is 0.  The
    text is empty exactly for values below 60, while a missing value gives
    "0 сек". *)
Theorem formatVoiceTime_shows_whole_minutes (v : Z) :
  (formatVoiceTime (Some v) = "" ↔ v < 60) ∧
  (0 ≤ v →
   ∃ d h m r,
     v = 86400 * d + 3600 * h + 60 * m + r ∧
     0 ≤ d ∧ 0 ≤ h < 24 ∧ 0 ≤ m < 60 ∧ 0 ≤ r < 60 ∧
     formatVoiceTime (Some v) =
       trim ((voice_part d "д" ++ voice_part h "ч") ++ voice_part m "мин")) ∧
  formatVoiceTime None = "0 сек".
Proof.
  split_and!; [| |reflexivity].
  - unfold formatVoiceTime, Math_floor_div. cbv zeta.
    destruct (Z.ltb_spec 0 (v / 86400)) as [Hd|Hd];
      destruct (Z.ltb_spec 0 (Z.rem v 86400 / 3600)) as [Hh|Hh];
      destruct (Z.ltb_spec 0 (Z.rem v 3600 / 60)) as [Hm|Hm].
    8: { split; [intros _; Z.to_euclidean_division_equations; lia | reflexivity]. }
    all: split; [intros Hempty; exfalso
                | intros Hlt; exfalso; Z.to_euclidean_division_equations; lia].
    all: match goal with
         | Hpos : 0 < ?n |- _ =>
             destruct (Number_toString_head n Hpos) as (a & s & Heq & Ha);
             rewrite Heq in Hempty; cbn [append] in Hempty;
             by apply trim_nonempty in Hempty
         end.
  - intros Hv.
    exists (v / 86400), (Z.rem v 86400 / 3600), (Z.rem v 3600 / 60), (v mod 60).
    split_and!; try (Z.to_euclidean_division_equations; lia).
    unfold formatVoiceTime, voice_part, Math_floor_div. cbv zeta.
    destruct (0 <? v / 86400), (0 <? Z.rem v 86400 / 3600), (0 <? Z.rem v 3600 / 60);
      rewrite ?append_empty_r; reflexivity.
Qed.

(** ** The leaderboard *)

Lemma store_get_set {V : Type} (now1 now2 : Z) (key : string) (v : V) (ttl : Z)
    (c : gmap string (V * Z)) :
  0 < ttl → now2 ≤ now1 + ttl * 1000 →
  store_get now2 key (store_set now1 key v ttl c) = Some v.
Proof.
  intros Httl Hnow. unfold store_get, store_set. rewrite lookup_insert_eq.
  destruct (Z.eqb_spec ttl 0) as [|_]; [lia|].
  destruct (Z.ltb_spec (now1 + ttl * 1000) now2); [lia|].
  by rewrite andb_false_r.
Qed.

(** X23.  The leaderboard cache is keyed by [sortBy] alone.  When a request
    is answered from the database, every request with the same [sortBy] in
    the next five minutes gets the rows of that first answer, whatever page
    and limit it asks for and whatever the database holds by then; the time
    to the next update it reports is what is left of the five minutes. *)
Theorem leaderboard_cache_ignores_page_and_limit
    (find1 find2 : Leaderboard.field → Z → Z → option (list Leaderboard.row))
    (now1 now2 : Z) (q1 q2 : Leaderboard.query)
    (c c' : gmap string (Leaderboard.cached * Z))
    (rows : list Leaderboard.row) (n : Z) :
  store_get now1
    ("leaderboard_" ++ Leaderboard.or_string (Leaderboard.sortBy q1) "totalMessages") c
    = None →
  Leaderboard.get find1 now1 q1 c = (Leaderboard.Json rows n, c') →
  Leaderboard.or_string (Leaderboard.sortBy q2) "totalMessages" =
    Leaderboard.or_string (Leaderboard.sortBy q1) "totalMessages" →
  now1 ≤ now2 < now1 + 300000 →
  n = 300000 ∧
  Leaderboard.get find2 now2 q2 c' =
    (Leaderboard.Json rows (300000 - (now2 - now1)), c').
Proof.
  intros Hmiss Hget Hkey Hnow. unfold Leaderboard.get in *. cbv zeta in *.
  rewrite Hkey. rewrite Hmiss in Hget.
  destruct (find1 _ _ _) as [topUsers|]; [|done].
  injection Hget as <- <- <-. split; [done|].
  rewrite store_get_set; [|done|unfold Leaderboard.LEADERBOARD_CACHE_TTL; lia].
  simpl. unfold Leaderboard.LEADERBOARD_CACHE_TTL.
  destruct (Z.ltb_spec (now2 - now1) (5 * 60 * 1000)); [|lia].
  do 2 f_equal. lia.
Qed.

Lemma leaderboard_cache_ignores_page_and_limit_witness :
  Leaderboard.get (fun _ _ _ => Some []) 1200 (Leaderboard.mkQuery (Some "stars") (Some 2) (Some 10))
    (store_set 1000 "leaderboard_stars"
       (Leaderboard.mkCached (map Leaderboard.select (users Sample.database)) 1000)
       Leaderboard.LEADERBOARD_CACHE_TTL ∅)
  = (Leaderboard.Json (map Leaderboard.select (users Sample.database)) 299800,
     store_set 1000 "leaderboard_stars"
       (Leaderboard.mkCached (map Leaderboard.select (users Sample.database)) 1000)
       Leaderboard.LEADERBOARD_CACHE_TTL ∅).
Proof.
  apply (leaderboard_cache_ignores_page_and_limit
           (fun _ _ _ => Some (map Leaderboard.select (users Sample.database)))
           (fun _ _ _ => Some []) 1000 1200
           (Leaderboard.mkQuery (Some "stars") None None)
           (Leaderboard.mkQuery (Some "stars") (Some 2) (Some 10)) ∅ _ _ 300000);
    [reflexivity | reflexivity | reflexivity | lia].
Defined.

(** *** Positions on the leaderboard and ranks on the profile *)

Lemma insert_desc_Permutation (key : CommandStats.t → Z) (x : CommandStats.t)
    (l : list CommandStats.t) :
  Leaderboard.insert_desc key x l ≡ₚ x :: l.
Proof.
  induction l as [|y l IH]; simpl; [done|].
  destruct (key x <? key y); [|done].
  rewrite IH. apply Permutation_swap.
Qed.

Lemma sort_desc_Permutation (key : CommandStats.t → Z) (l : list CommandStats.t) :
  Leaderboard.sort_desc key l ≡ₚ l.
Proof.
  induction l as [|x l IH]; simpl; [done|].
  rewrite insert_desc_Permutation. by rewrite IH.
Qed.

Lemma insert_desc_descending (key : CommandStats.t → Z) (x : CommandStats.t)
    (l : list CommandStats.t) :
  descending key l → descending key (Leaderboard.insert_desc key x l).
Proof.
  unfold descending. induction 1 as [|y l Hl IH Hy]; simpl.
  - repeat constructor.
  - destruct (Z.ltb_spec (key x) (key y)) as [Hlt|Hge].
    + constructor; [done|].
      rewrite insert_desc_Permutation. constructor; [lia | done].
    + constructor; [by constructor|].
      constructor; [done|].
      eapply Forall_impl; [exact Hy|]. simpl. intros; lia.
Qed.

Lemma sort_desc_descending (key : CommandStats.t → Z) (l : list CommandStats.t) :
  descending key (Leaderboard.sort_desc key l).
Proof.
  induction l as [|x l IH]; simpl; [constructor|].
  by apply insert_desc_descending.
Qed.

Lemma countDocuments_Permutation {A : Type} (p : A → bool) (l l' : list A) :
  l ≡ₚ l' → countDocuments p l = countDocuments p l'.
Proof.
  unfold countDocuments. intros H. f_equal.
  induction H as [|x l l' _ IH|x y l|l l' l'' _ IH1 _ IH2]; simpl;
    [done| |by destruct (p x), (p y)|congruence].
  destruct (p x); simpl; congruence.
Qed.

Lemma countDocuments_cons {A : Type} (p : A → bool) (x : A) (l : list A) :
  countDocuments p (x :: l) = (if p x then 1 else 0) + countDocuments p l.
Proof. unfold countDocuments. simpl. destruct (p x); simpl length; lia. Qed.

Lemma countDocuments_nonneg {A : Type} (p : A → bool) (l : list A) :
  0 ≤ countDocuments p l.
Proof. unfold countDocuments. lia. Qed.

Lemma countDocuments_none {A : Type} (p : A → bool) (l : list A) :
  Forall (λ x, p x = false) l → countDocuments p l = 0.
Proof.
  induction 1 as [|x l Hx _ IH]; [done|].
  rewrite countDocuments_cons, Hx, IH. done.
Qed.

Lemma descending_position (key : CommandStats.t → Z) (s : list CommandStats.t)
    (j : nat) (u : CommandStats.t) :
  descending key s → s !! j = Some u →
  countDocuments (gt key (key u)) s ≤ Z.of_nat j ∧
  Z.of_nat j + 1 ≤ countDocuments (λ v, key u <=? key v) s.
Proof.
  unfold descending. intros Hs. revert j.
  induction Hs as [|x s Hs IH Hx]; intros j Hj; [done|].
  rewrite !countDocuments_cons. destruct j as [|j]; simpl in Hj.
  - injection Hj as ->. unfold gt at 1.
    rewrite Z.ltb_irrefl, Z.leb_refl.
    rewrite countDocuments_none.
    + pose proof (countDocuments_nonneg (λ v, key u <=? key v) s). lia.
    + eapply Forall_impl; [exact Hx|]. simpl. intros v Hv. unfold gt.
      apply Z.ltb_ge. lia.
  - destruct (IH j Hj) as [IH1 IH2].
    assert (key u ≤ key x) as Hux.
    { rewrite Forall_forall in Hx. apply Hx. by eapply list_elem_of_lookup_2. }
    unfold gt at 1.
    destruct (Z.leb_spec (key u) (key x)), (Z.ltb_spec (key u) (key x)); lia.
Qed.

(** X24.  The leaderboard numbers its rows from 1 on every page.  For the
    row of a user, the number shown plus the rows skipped lies between the
    rank the profile gives that user for the same field and the number of
    users with at least the user's value: the two agree when no other user
    has the same value, and a tie may show a user further down than the
    rank.  A page has at most as many rows as the limit. *)
Theorem leaderboard_position_and_profile_rank
    (coll : list CommandStats.t) (f : Leaderboard.field) (skip limit : Z)
    (rows : list Leaderboard.row) (tableId : string)
    (i : nat) (position : Z) (name value : string) :
  Leaderboard.find coll f skip limit = Some rows →
  displayLeaderboardData rows tableId !! i = Some (position, name, value) →
  position = Z.of_nat i + 1 ∧
  Z.of_nat (length rows) ≤ Z.abs limit ∧
  ∃ u, u ∈ coll ∧ name = CommandStats.username u ∧
       rank (Leaderboard.field_value f) u coll ≤ skip + position ∧
       skip + position ≤
         countDocuments
           (λ v, Leaderboard.field_value f u <=? Leaderboard.field_value f v) coll.
Proof.
  unfold Leaderboard.find. intros Hfind Hrow.
  destruct (Z.ltb_spec skip 0) as [|Hskip]; [done|].
  injection Hfind as <-.
  unfold displayLeaderboardData in Hrow. rewrite list_lookup_imap in Hrow.
  rewrite list_lookup_fmap in Hrow.
  destruct (take _ _ !! i) as [u|] eqn:Hu; [|done].
  simpl in Hrow. injection Hrow as <- <- _.
  split; [done|]. split.
  { rewrite length_map, length_take. lia. }
  apply lookup_take_Some in Hu as [Hu _]. rewrite lookup_drop in Hu.
  pose proof (sort_desc_Permutation (Leaderboard.field_value f) coll) as Hperm.
  destruct (descending_position _ _ _ _
              (sort_desc_descending (Leaderboard.field_value f) coll) Hu) as [H1 H2].
  rewrite (countDocuments_Permutation _ _ _ Hperm) in H1.
  rewrite (countDocuments_Permutation _ _ _ Hperm) in H2.
  exists u. split; [|split; [done|]].
  - rewrite <- Hperm. by eapply list_elem_of_lookup_2.
  - unfold rank. lia.
Qed.

Lemma leaderboard_position_and_profile_rank_witness :
  ∃ u, u ∈ users Sample.database ∧ "bob" = CommandStats.username u ∧
       rank CommandStats.totalMessages u (users Sample.database) ≤ 0 + 2 ∧
       0 + 2 ≤ countDocuments
                 (λ v, CommandStats.totalMessages u <=? CommandStats.totalMessages v)
                 (users Sample.database).
Proof.
  destruct (leaderboard_position_and_profile_rank
              (users Sample.database) Leaderboard.TotalMessages 0 50
              (map Leaderboard.select [Sample.alice; Sample.bob; Sample.carol])
              "messages-leaderboard" 1 2 "bob" "10")
    as (_ & _ & H); [vm_compute; reflexivity | vm_compute; reflexivity | exact H].
Defined.
